(** * pdf-to-vector: indexing, clustering and relevance-filtered retrieval

    A shallow embedding of the Python scripts [extract_text_from_pdfs.py],
    [cluster_pdfs.py] and [rag_chat.py].

    Conventions of the embedding:
    - Python [float] is IEEE binary64, modelled by Rocq's primitive floats;
    - Python [int] is [Z]; [str] is [string] (a byte string, UTF-8 encoded);
    - a [dict] with string keys is a [gmap string _];
    - code that prints, raises or mutates the collection runs in a small
      state-and-exception monad [Py]: the state survives a raised exception,
      as it does in Python. *)

From Stdlib Require Import ZArith String Ascii List Floats DecimalString Lia.
From Stdlib Require DecimalPos DecimalZ.
From stdpp Require Import gmap strings list.

Set Warnings "-inexact-float".

Local Open Scope string_scope.
Local Open Scope list_scope.
Local Open Scope Z_scope.

(** ** Python built-ins used by the scripts *)

Module Builtins.

(** [str(n)] for an [int]. *)
Definition str_int (n : Z) : string := NilZero.string_of_int (Z.to_int n).

(** The double-quote character, used inside the prompt template. *)
Definition dquote : string :=
  String (Ascii false true false false false true false false) EmptyString.

(** [sep.join(parts)]. *)
Fixpoint join (sep : string) (parts : list string) : string :=
  match parts with
  | [] => ""
  | [p] => p
  | p :: rest => p +:+ sep +:+ join sep rest
  end.

(** [zip(a, b, c)]: stops at the shortest argument. *)
Fixpoint zip3 {A B C} (a : list A) (b : list B) (c : list C) : list (A * B * C) :=
  match a, b, c with
  | x :: a', y :: b', z :: c' => (x, y, z) :: zip3 a' b' c'
  | _, _, _ => []
  end.

(** [enumerate(l)] counting from [start]. *)
Fixpoint enumerate_from {A} (start : Z) (l : list A) : list (Z * A) :=
  match l with
  | [] => []
  | x :: l' => (start, x) :: enumerate_from (start + 1) l'
  end.

Definition enumerate {A} (l : list A) : list (Z * A) := enumerate_from 0 l.

(** [needle in hay] for strings. *)
Fixpoint contains (needle hay : string) : bool :=
  String.prefix needle hay ||
  match hay with
  | EmptyString => false
  | String _ rest => contains needle rest
  end.

Definition lower_ascii (c : ascii) : ascii :=
  let n := nat_of_ascii c in
  if ((65 <=? n)%nat && (n <=? 90)%nat)%bool then ascii_of_nat (n + 32) else c.

(** [s.lower()], on the ASCII letters of the byte string. *)
Fixpoint lower (s : string) : string :=
  match s with
  | EmptyString => EmptyString
  | String c rest => String (lower_ascii c) (lower rest)
  end.

(** Round the non-negative fraction [num / den] to the nearest integer,
    ties to even: the rounding of the [f] presentation type. *)
Definition round_half_even (num den : Z) : Z :=
  let q := num / den in
  let r := num mod den in
  if 2 * r <? den then q
  else if den <? 2 * r then q + 1
  else if Z.even q then q else q + 1.

Definition zeros (n : nat) : string := string_of_list_ascii (repeat "0"%char n).

(** [str(n).rjust(width, "0")] for a non-negative [n]. *)
Definition zfill (width : nat) (n : Z) : string :=
  let s := str_int n in zeros (width - String.length s) +:+ s.

(** [format(x, ".{prec}f")] for [prec >= 1]: the exact value of the double
    is scaled by [10^prec], rounded half-even and printed with [prec]
    digits after the point. *)
Definition format_fixed (prec : nat) (x : float) : string :=
  let scale := 10 ^ Z.of_nat prec in
  let sign (s : bool) := if s then "-" else "" in
  match Prim2SF x with
  | S754_nan => "nan"
  | S754_infinity s => sign s +:+ "inf"
  | S754_zero s => sign s +:+ "0." +:+ zeros prec
  | S754_finite s m e =>
      let n := if 0 <=? e then Z.pos m * 2 ^ e * scale
               else round_half_even (Z.pos m * scale) (2 ^ (- e)) in
      sign s +:+ str_int (n / scale) +:+ "." +:+ zfill prec (n mod scale)
  end.

(** The newline character as a string. *)
Definition nl : string := String "010" EmptyString.

(** [s * n] for a string [s]. *)
Fixpoint repeat_str (s : string) (n : nat) : string :=
  match n with
  | O => ""
  | S n' => s +:+ repeat_str s n'
  end.

(** Whitespace in the ASCII range, as [str.isspace] has it. *)
Definition is_space (c : ascii) : bool :=
  let n := nat_of_ascii c in
  ((9 <=? n)%nat && (n <=? 13)%nat) || ((28 <=? n)%nat && (n <=? 32)%nat).

Fixpoint lstrip (s : string) : string :=
  match s with
  | EmptyString => EmptyString
  | String c rest => if is_space c then lstrip rest else s
  end.

(** [s.rstrip()]: drop the trailing whitespace. *)
Fixpoint rstrip (s : string) : string :=
  match s with
  | EmptyString => EmptyString
  | String c rest =>
      match rstrip rest with
      | EmptyString => if is_space c then EmptyString else String c EmptyString
      | rest' => String c rest'
      end
  end.

(** [s.strip()], on the ASCII whitespace of the byte string. *)
Definition strip (s : string) : string := rstrip (lstrip s).

(** [float(n)] for an [int] that fits 63 bits (counts and sizes do). *)
Definition float_of_int (n : Z) : float := PrimFloat.of_uint63 (Uint63.of_Z n).

End Builtins.

(** ** Exceptions, results and the [Py] monad *)

(** A raised exception, kept as [str(e)]. *)
Inductive Exn := Exception (msg : string).

Definition str_exn (e : Exn) : string := match e with Exception m => m end.

Inductive Result (A : Type) :=
| Ok (a : A)
| Raise (e : Exn).
Arguments Ok {A} a.
Arguments Raise {A} e.

(** What a script writes to the terminal: [print(s)] or the prompt of
    [input(s)]. *)
Inductive Output :=
| Print (s : string)
| Prompt (s : string).

Definition Py (S A : Type) : Type := S -> Result A * S.

Definition ret {S A} (a : A) : Py S A := fun s => (Ok a, s).

Definition bind {S A B} (m : Py S A) (k : A -> Py S B) : Py S B :=
  fun s => match m s with
           | (Ok a, s') => k a s'
           | (Raise e, s') => (Raise e, s')
           end.

Definition raise {S A} (e : Exn) : Py S A := fun s => (Raise e, s).

(** [try: body except Exception as e: handler(e)]. *)
Definition try_except {S A} (body : Py S A) (handler : Exn -> Py S A) : Py S A :=
  fun s => match body s with
           | (Ok a, s') => (Ok a, s')
           | (Raise e, s') => handler e s'
           end.

(** Lift a call that may raise but does not touch the state. *)
Definition lift {S A} (r : Result A) : Py S A := fun s => (r, s).

Declare Scope py_scope.
Delimit Scope py_scope with py.
Notation "'let!' x ':=' m 'in' k" := (bind m (fun x => k))
  (at level 10, x pattern, m at level 100, k at level 200) : py_scope.
Notation "m ';;' k" := (bind m (fun _ => k))
  (at level 100, k at level 200, right associativity) : py_scope.

(** A metadata value: Chroma metadata holds strings and integers here
    ([source] is a string, [page] and [cluster_id] are integers). *)
Inductive MetaValue :=
| MStr (s : string)
| MInt (n : Z).

(** [str(v)], as an f-string renders the value. *)
Definition str_meta (v : MetaValue) : string :=
  match v with
  | MStr s => s
  | MInt n => Builtins.str_int n
  end.

Abbreviation Metadata := (gmap string MetaValue).

(** [metadata.get(key, default)], rendered. *)
Definition get_or (md : Metadata) (key default : string) : string :=
  match md !! key with
  | Some v => str_meta v
  | None => default
  end.

(** ** rag_chat.py *)

Module rag_chat.

Import Builtins.
Local Open Scope py_scope.

(** Configuration constants of the module. *)
Definition TOP_K_RESULTS : nat := 5.
Definition RELEVANCE_THRESHOLD : float := 0.3%float.

(** The row of a Chroma query result that belongs to the one query text
    the script sends: [results[key][0]] for the three included keys. *)
Record QueryResult := mkQueryResult {
  documents : list string;
  metadatas : list Metadata;
  distances : list float
}.

(** The tuples a consumer sees when it zips the three lists. *)
Definition rows (r : QueryResult) : list (string * Metadata * float) :=
  zip3 (documents r) (metadatas r) (distances r).

(** The terminal is the only state of this script. *)
Definition print (s : string) : Py (list Output) unit :=
  fun out => (Ok tt, out ++ [Print s]).

Definition relevance (distance : float) : float := PrimFloat.sub 1%float distance.

(** The body of the filtering [for] loop: the three accumulators grow by
    [append] whenever the relevance score reaches the threshold. *)
Fixpoint filter_loop (candidates : list (string * Metadata * float))
    (filtered_docs : list string) (filtered_metadatas : list Metadata)
    (filtered_distances : list float) : QueryResult :=
  match candidates with
  | [] => mkQueryResult filtered_docs filtered_metadatas filtered_distances
  | (doc, metadata, distance) :: rest =>
      let relevance_score := relevance distance in
      if PrimFloat.leb RELEVANCE_THRESHOLD relevance_score
      then filter_loop rest (filtered_docs ++ [doc])
                       (filtered_metadatas ++ [metadata])
                       (filtered_distances ++ [distance])
      else filter_loop rest filtered_docs filtered_metadatas filtered_distances
  end.

(** The filtering step applied to what [collection.query] returned. *)
Definition filter_results (results : QueryResult) : QueryResult :=
  match documents results with
  | [] => results
  | _ :: _ => filter_loop (rows results) [] [] []
  end.

(** One block of the context, for the candidate at 0-based position [i]. *)
Definition format_block (i : Z) (doc : string) (metadata : Metadata)
    (distance : float) : string :=
  let source := get_or metadata "source" "Unknown" in
  let page := get_or metadata "page" "N/A" in
  let cluster := get_or metadata "cluster_id" "N/A" in
  "[Document " +:+ str_int (i + 1) +:+ "]" +:+ nl +:+
  "Source: " +:+ source +:+ " (Page " +:+ page +:+ ", Cluster " +:+ cluster +:+ ")" +:+ nl +:+
  "Relevance Score: " +:+ format_fixed 3 (PrimFloat.sub 1%float distance) +:+ nl +:+
  "Content: " +:+ doc +:+ nl.

(** The [for] loop of [format_context], appending to [context_parts]. *)
Fixpoint format_loop (items : list (Z * (string * Metadata * float)))
    (context_parts : list string) : list string :=
  match items with
  | [] => context_parts
  | (i, (doc, metadata, distance)) :: rest =>
      format_loop rest (context_parts ++ [format_block i doc metadata distance])
  end.

Definition DELIMITER : string := nl +:+ "---" +:+ nl.

Definition format_context (results : QueryResult) : string :=
  join DELIMITER (format_loop (enumerate (rows results)) []).

Section WithCollection.

(** [collection.query(query_texts=[q], n_results=n, include=[...])]: the
    vector store is an external service; it answers with the candidate
    row or raises. *)
Variable collection_query : string -> nat -> Result QueryResult.

(** [client.models.generate_content(model, contents=prompt).text]. *)
Variable generate_content : string -> Result string.

Definition retrieve_relevant_docs (query : string) (n_results : nat)
  : Py (list Output) QueryResult :=
  print (nl +:+ "🔍 Searching for: '" +:+ query +:+ "'") ;;
  let! results := lift (collection_query query n_results) in
  ret (filter_results results).

Definition prompt_of (query context : string) : string :=
  "You are a helpful AI assistant that answers questions based on the provided document context." +:+ nl +:+
  nl +:+
  "CONTEXT FROM DOCUMENTS:" +:+ nl +:+
  context +:+ nl +:+
  nl +:+
  "USER QUESTION: " +:+ query +:+ nl +:+
  nl +:+
  "Please provide a comprehensive answer based on the context above. If the context doesn't contain enough information to fully answer the question, say so and provide what information is available. Always cite which documents you're referencing (e.g., " +:+ dquote +:+ "According to Document 1..." +:+ dquote +:+ ")." +:+ nl +:+
  nl +:+
  "ANSWER:".

Definition generate_response (query context : string) : Py (list Output) string :=
  let prompt := prompt_of query context in
  print (nl +:+ "🤖 Generating AI response...") ;;
  try_except (lift (generate_content prompt))
    (fun e =>
       let error_msg := str_exn e in
       if contains "429" error_msg || contains "RESOURCE_EXHAUSTED" error_msg
       then ret "⚠️ API rate limit exceeded. Please wait a moment and try again."
       else if contains "quota" (lower error_msg)
       then ret "⚠️ API quota exceeded. Please check your Google AI Studio quota limits."
       else raise e).

(** The two lines both entry points print for an empty result list. *)
Definition NO_INFO_LINE : string :=
  nl +:+ "📭 I don't have any relevant information in my database to answer this question.".
Definition OUT_OF_SCOPE_LINE : string :=
  "💡 This question appears to be outside the scope of the loaded documents.".

(** [for i, metadata in enumerate(sources): print(...)]. *)
Fixpoint print_sources (sources : list (Z * Metadata)) : Py (list Output) unit :=
  match sources with
  | [] => ret tt
  | (i, metadata) :: rest =>
      print ("  " +:+ str_int (i + 1) +:+ ". " +:+ get_or metadata "source" "None"
             +:+ " (Page " +:+ get_or metadata "page" "None" +:+ ")") ;;
      print_sources rest
  end.

(** [query_once(collection, query)]. *)
Definition query_once (query : string) : Py (list Output) unit :=
  try_except
    (let! results := retrieve_relevant_docs query TOP_K_RESULTS in
     match documents results with
     | [] =>
         print NO_INFO_LINE ;;
         print OUT_OF_SCOPE_LINE ;;
         ret tt
     | _ :: _ =>
         let context := format_context results in
         let! response := generate_response query context in
         print (nl +:+ "🤖 Answer:" +:+ nl +:+ response +:+ nl) ;;
         print "📚 Sources:" ;;
         print_sources (enumerate (metadatas results))
     end)
    (fun e => print (nl +:+ "❌ Error: " +:+ str_exn e)).

Inductive LoopControl := Break | Continue.

(** One pass through the body of the [while True] loop of
    [chat_with_pdfs], for the line [input] returned. *)
Definition chat_turn (line : string) : Py (list Output) LoopControl :=
  let query := strip line in
  if bool_decide (lower query ∈ ["quit"; "exit"; "q"])
  then print (nl +:+ "👋 Goodbye!") ;; ret Break
  else if bool_decide (query = "") then ret Continue
  else
    try_except
      (let! results := retrieve_relevant_docs query TOP_K_RESULTS in
       match documents results with
       | [] =>
           print NO_INFO_LINE ;;
           print (OUT_OF_SCOPE_LINE +:+ nl) ;;
           ret Continue
       | _ :: _ =>
           let context := format_context results in
           let! response := generate_response query context in
           print (nl +:+ "🤖 Assistant: " +:+ response +:+ nl) ;;
           print "📚 Sources:" ;;
           print_sources (enumerate (take 3 (metadatas results))) ;;
           print "" ;;
           ret Continue
       end)
      (fun e => print (nl +:+ "❌ Error: " +:+ str_exn e +:+ nl) ;; ret Continue).

(** The loop itself, over the lines the terminal will supply; [input]
    raises [EOFError] when they run out. *)
Fixpoint chat_loop (stdin : list string) : Py (list Output) unit :=
  match stdin with
  | [] => fun out => (Raise (Exception "EOF when reading a line"), out ++ [Prompt "You: "])
  | line :: rest =>
      (fun out => (Ok tt, out ++ [Prompt "You: "])) ;;
      let! ctl := chat_turn line in
      match ctl with
      | Break => ret tt
      | Continue => chat_loop rest
      end
  end.

Definition chat_with_pdfs (stdin : list string) : Py (list Output) unit :=
  print (nl +:+ repeat_str "=" 60) ;;
  print "💬 RAG Chat System - Ask questions about your PDFs" ;;
  print (repeat_str "=" 60) ;;
  print ("Type 'quit' or 'exit' to end the conversation" +:+ nl) ;;
  chat_loop stdin.

End WithCollection.

End rag_chat.

(** ** extract_text_from_pdfs.py

    [cluster_pdfs.py] carries a second copy of the same function. *)

Module extract_text_from_pdfs.

Import Builtins.
Local Open Scope py_scope.

(** One extracted page: [{"text": ..., "metadata": {...}}]. *)
Record Document := mkDocument {
  text : string;
  metadata : Metadata
}.

(** What [page.extract_text()] does for one page: it returns a string or
    [None], or raises. *)
Definition PageOutcome : Type := Result (option string).

Definition has_slash (p : string) : bool := contains "/" p.

(** [os.path.basename(p)]: what follows the last slash. *)
Fixpoint basename (p : string) : string :=
  match p with
  | EmptyString => EmptyString
  | String c rest =>
      if has_slash rest then basename rest
      else if Ascii.eqb c "/" then rest else p
  end.

(** The local list [documents] and the terminal. *)
Record ExtractState := mkExtractState {
  documents : list Document;
  stdout : list Output
}.

Definition print (s : string) : Py ExtractState unit :=
  fun st => (Ok tt, mkExtractState (documents st) (stdout st ++ [Print s])).

Definition append_document (d : Document) : Py ExtractState unit :=
  fun st => (Ok tt, mkExtractState (documents st ++ [d]) (stdout st)).

(** [for page_num, page in enumerate(reader.pages)]. *)
Fixpoint pages_loop (file_path : string) (pages : list (Z * PageOutcome))
  : Py ExtractState unit :=
  match pages with
  | [] => ret tt
  | (page_num, page) :: rest =>
      let! text := lift page in
      match text with
      | Some (String c t) =>
          append_document
            (mkDocument (String c t)
               (<["page" := MInt (page_num + 1)]>
                  (<["source" := MStr (basename file_path)]> ∅)))
      | Some EmptyString | None => ret tt
      end ;;
      pages_loop file_path rest
  end.

Section WithFiles.

(** [glob.glob(os.path.join(pdf_dir, "*.pdf"), recursive=True)]. *)
Variable glob_pdfs : string -> list string.

(** [PdfReader(file_path).pages]: opening the file raises or gives its
    pages in order. *)
Variable PdfReader : string -> Result (list PageOutcome).

(** [for file_path in pdf_files], with its [try]/[except]. *)
Fixpoint files_loop (pdf_files : list string) : Py ExtractState unit :=
  match pdf_files with
  | [] => ret tt
  | file_path :: rest =>
      try_except
        (let! pages := lift (PdfReader file_path) in
         pages_loop file_path (enumerate pages))
        (fun e => print ("⚠️ Error processing " +:+ file_path +:+ ": " +:+ str_exn e)) ;;
      files_loop rest
  end.

Definition extract_text_from_pdfs (pdf_dir : string) : Py (list Output) (list Document) :=
  fun out =>
    let pdf_files := glob_pdfs pdf_dir in
    let body :=
      print ("🚀 Starting PDF extraction from " +:+ pdf_dir +:+ "...") ;;
      files_loop pdf_files ;;
      (fun st =>
         print ("✅ Extracted text from " +:+ str_int (Z.of_nat (length pdf_files))
                +:+ " files into " +:+ str_int (Z.of_nat (length (documents st)))
                +:+ " pages.") st) in
    match body (mkExtractState [] out) with
    | (Ok _, st) => (Ok (documents st), stdout st)
    | (Raise e, st) => (Raise e, stdout st)
    end.

End WithFiles.

End extract_text_from_pdfs.

(** ** The vector store

    The scripts keep their records in a Chroma collection, a library that
    is not part of the repository. *)

Module VectorStore.

(** One indexed unit of text. *)
Record StoredRecord := mkStoredRecord {
  id : string;
  text : string;
  embedding : list float;
  metadata : Metadata
}.

(** Modelled from the spec: the collection is missing from the sources; it
    is the set of records of section 3, in the order reads return them in:
    the order of first insertion, until a metadata update rearranges
    them. *)
Abbreviation Collection := (list StoredRecord).

Definition ids_of (c : Collection) : list string := map id c.

(** Modelled from the spec: the dimensionality of a collection is missing
    from the sources; it is set by the first insert. *)
Definition dimension (c : Collection) : option nat :=
  match c with
  | [] => None
  | r :: _ => Some (length (embedding r))
  end.

(** Write one record under its id: replace the record that has the id,
    or add the record at the end. *)
Fixpoint upsert (r : StoredRecord) (c : Collection) : Collection :=
  match c with
  | [] => [r]
  | x :: c' => if String.eqb (id x) (id r) then r :: c' else x :: upsert r c'
  end.

(** Modelled from the spec: [insert] is missing from the sources; it fails
    with [EmptyBatch] on an empty batch and with [DimensionMismatch] when
    an embedding has another length than the collection's, and otherwise
    upserts by id, the last write winning. *)
Definition insert (records : list StoredRecord) (c : Collection) : Result Collection :=
  match records with
  | [] => Raise (Exception "EmptyBatch")
  | r0 :: _ =>
      let dim := default (length (embedding r0)) (dimension c) in
      if forallb (fun r => Nat.eqb (length (embedding r)) dim) records
      then Ok (foldl (fun acc r => upsert r acc) c records)
      else Raise (Exception "DimensionMismatch")
  end.

(** Modelled from the spec: [get_all] is missing from the sources; with a
    list of ids it returns the named records, every time in the
    collection's order. *)
Definition get (ids : option (list string)) (c : Collection) : list StoredRecord :=
  match ids with
  | None => c
  | Some wanted => filter (fun r => id r ∈ wanted) c
  end.

Definition set_metadata (c : Collection) (entry : string * Metadata) : Collection :=
  map (fun r => if String.eqb (id r) (fst entry)
                then mkStoredRecord (id r) (text r) (embedding r) (snd entry)
                else r) c.

(** Modelled from the spec: [update_metadata] is missing from the sources;
    it replaces the metadata of each named record with the mapping at the
    same position, and fails as a whole with [IdNotFound] when an id is
    absent. Two reads return the records in the same order only when no
    write lies between them: after this write the store returns them in an
    order of its own, which [reorder] gives. *)
Definition update_metadata (reorder : Collection -> Collection)
    (ids : list string) (metadatas : list Metadata) (c : Collection)
  : Result Collection :=
  if negb (Nat.eqb (length ids) (length metadatas))
  then Raise (Exception "ids and metadatas differ in length")
  else if forallb (fun i => bool_decide (i ∈ ids_of c)) ids
  then Ok (reorder (foldl set_metadata c (zip ids metadatas)))
  else Raise (Exception "IdNotFound").

Definition count (c : Collection) : nat := length c.

End VectorStore.

(** ** cluster_pdfs.py *)

Module cluster_pdfs.

Import Builtins.
Import VectorStore.
Local Open Scope py_scope.

Definition Document := extract_text_from_pdfs.Document.

(** The arguments one [KMeans(...)] estimator was built with, and the
    number of vectors it was fitted on. *)
Record KMeansCall := mkKMeansCall {
  n_clusters : Z;
  random_state : option Z;
  n_init : Z;
  n_samples : nat
}.

Section WithServices.

(** The state of a pseudo-random generator ([numpy.random.RandomState]). *)
Variable RandomState : Type.

(** [RandomState(seed)]: the generator an integer seed determines. *)
Variable seeded : Z -> RandomState.

(** The K-means fit of scikit-learn, given the generator it draws its
    initial centroids from: the labels (or an exception) and the
    generator afterwards. *)
Variable kmeans_fit_predict :
  Z -> Z -> RandomState -> list (list float) -> Result (list Z) * RandomState.

(** [client.models.embed_content(model, contents, config)] with the task
    type [RETRIEVAL_DOCUMENT]: one embedding per text. *)
Variable embed_content : list string -> Result (list (list float)).

(** The module constant; 10 in the script. *)
Variable K_CLUSTERS : Z.

(** The order in which the store returns its records after a metadata
    update. *)
Variable reorder : Collection -> Collection.

(** What the script can change: the persistent collection, the
    terminal, the process-wide generator of numpy (fresh entropy at
    every start of the interpreter) and the estimators built so far. *)
Record State := mkState {
  collection : Collection;
  stdout : list Output;
  np_random : RandomState;
  kmeans_calls : list KMeansCall
}.

Definition print (s : string) : Py State unit :=
  fun st => (Ok tt, mkState (collection st) (stdout st ++ [Print s])
                            (np_random st) (kmeans_calls st)).

(** [collection.get(ids=..., include=[...])]. *)
Definition collection_get (ids : option (list string)) : Py State (list StoredRecord) :=
  fun st => (Ok (get ids (collection st)), st).

(** [collection.update(ids=..., metadatas=...)]. *)
Definition collection_update (ids : list string) (metadatas : list Metadata)
  : Py State unit :=
  fun st => match update_metadata reorder ids metadatas (collection st) with
            | Ok c' => (Ok tt, mkState c' (stdout st) (np_random st) (kmeans_calls st))
            | Raise e => (Raise e, st)
            end.

(** [collection.add(documents=..., metadatas=..., ids=...)]: the texts
    are embedded by the collection's embedding function and the records
    are inserted. *)
Definition collection_add (texts : list string) (metadatas : list Metadata)
    (ids : list string) : Py State unit :=
  let! embeddings := lift (embed_content texts) in
  if negb (Nat.eqb (length embeddings) (length ids)
           && Nat.eqb (length texts) (length ids)
           && Nat.eqb (length metadatas) (length ids))
  then raise (Exception "inconsistent lengths")
  else
    let records :=
      map (fun '(i, t, e, m) => mkStoredRecord i t e m)
          (zip (zip (zip ids texts) embeddings) metadatas) in
    fun st => match insert records (collection st) with
              | Ok c' => (Ok tt, mkState c' (stdout st) (np_random st) (kmeans_calls st))
              | Raise e => (Raise e, st)
              end.

(** [KMeans(n_clusters, random_state, n_init).fit_predict(vectors)]: an
    integer [random_state] seeds a generator of its own; with [None]
    the process-wide generator is drawn from and advanced. *)
Definition KMeans_fit_predict (k : Z) (seed : option Z) (restarts : Z)
    (vectors : list (list float)) : Py State (list Z) :=
  fun st =>
    let calls := kmeans_calls st ++ [mkKMeansCall k seed restarts (length vectors)] in
    match seed with
    | Some s =>
        (fst (kmeans_fit_predict k restarts (seeded s) vectors),
         mkState (collection st) (stdout st) (np_random st) calls)
    | None =>
        let '(r, g) := kmeans_fit_predict k restarts (np_random st) vectors in
        (r, mkState (collection st) (stdout st) g calls)
    end.

(** [doc['metadata'][key]], a [KeyError] when the key is missing. *)
Definition metadata_item (doc : Document) (key : string) : Result MetaValue :=
  match extract_text_from_pdfs.metadata doc !! key with
  | Some v => Ok v
  | None => Raise (Exception ("'" +:+ key +:+ "'"))
  end.

(** [f"{doc['metadata']['source']}_p{doc['metadata']['page']}"]. *)
Definition make_id (doc : Document) : Result string :=
  match metadata_item doc "source" with
  | Raise e => Raise e
  | Ok source =>
      match metadata_item doc "page" with
      | Raise e => Raise e
      | Ok page => Ok (str_meta source +:+ "_p" +:+ str_meta page)
      end
  end.

(** The list comprehension that builds [ids]. *)
Fixpoint make_ids (docs : list Document) : Result (list string) :=
  match docs with
  | [] => Ok []
  | doc :: rest =>
      match make_id doc with
      | Raise e => Raise e
      | Ok i => match make_ids rest with
                | Raise e => Raise e
                | Ok others => Ok (i :: others)
                end
      end
  end.

(** [create_chroma_collection(db_path, name, docs)]; the collection the
    client opens is the one of the state. *)
Definition create_chroma_collection (db_path name : string) (docs : list Document)
  : Py State unit :=
  print ("🛠️ Initializing Chroma client at " +:+ db_path +:+ "...") ;;
  let! ids := lift (make_ids docs) in
  let texts := map extract_text_from_pdfs.text docs in
  let metadatas := map extract_text_from_pdfs.metadata docs in
  print ("📤 Adding " +:+ str_int (Z.of_nat (length ids)) +:+ " document chunks to Chroma...") ;;
  collection_add texts metadatas ids ;;
  fun st => print ("🎉 Documents added. Total count: "
                   +:+ str_int (Z.of_nat (count (collection st)))) st.

(** The inner loop: [metadata['cluster_id'] = int(cluster_labels[i])]
    for each fetched metadata, an [IndexError] past the labels. *)
Fixpoint label_loop (items : list (Z * Metadata)) (cluster_labels : list Z)
    (updated_metadatas : list Metadata) : Result (list Metadata) :=
  match items with
  | [] => Ok updated_metadatas
  | (i, metadata) :: rest =>
      match cluster_labels !! Z.to_nat i with
      | None => Raise (Exception "index out of bounds")
      | Some label =>
          label_loop rest cluster_labels
            (updated_metadatas ++ [<["cluster_id" := MInt label]> metadata])
      end
  end.

(** The outer loop over [zip(ids_to_update, cluster_labels)]: every pass
    fetches all metadatas again, labels them and updates all records. *)
Fixpoint update_loop (pairs : list (string * Z)) (ids_to_update : list string)
    (cluster_labels : list Z) : Py State unit :=
  match pairs with
  | [] => ret tt
  | _ :: rest =>
      let! full_results := collection_get (Some ids_to_update) in
      let! updated_metadatas :=
        lift (label_loop (enumerate (map metadata full_results)) cluster_labels []) in
      collection_update ids_to_update updated_metadatas ;;
      update_loop rest ids_to_update cluster_labels
  end.

(** [sum(cluster_labels == i)]. *)
Definition count_label (cluster_labels : list Z) (i : Z) : Z :=
  Z.of_nat (length (filter (fun l => l = i) cluster_labels)).

(** The summary printed at the end, one line per cluster. *)
Fixpoint summary_loop (clusters : list Z) (cluster_labels : list Z) (n : Z)
  : Py State unit :=
  match clusters with
  | [] => ret tt
  | i :: rest =>
      let count := count_label cluster_labels i in
      let percent :=
        PrimFloat.mul (PrimFloat.div (float_of_int count) (float_of_int n)) 100%float in
      print ("Cluster " +:+ zfill 2 i +:+ ": " +:+ str_int count +:+ " documents ("
             +:+ format_fixed 2 percent +:+ "%)") ;;
      summary_loop rest cluster_labels n
  end.

Definition range (k : Z) : list Z := map Z.of_nat (seq 0 (Z.to_nat k)).

Definition NOT_ENOUGH_DATA (n : Z) : string :=
  "🚫 Not enough data (" +:+ str_int n +:+ " points) to perform clustering. Need at least 2 points.".

Definition ADJUSTING_K (k n : Z) : string :=
  "⚠️  Adjusting K from " +:+ str_int K_CLUSTERS +:+ " to " +:+ str_int k
  +:+ " due to limited data (" +:+ str_int n +:+ " points).".

(** [perform_clustering(collection)]. *)
Definition perform_clustering : Py State unit :=
  print (nl +:+ "🧠 Starting K-Means Clustering with K=" +:+ str_int K_CLUSTERS +:+ "...") ;;
  let! everything := collection_get None in
  let! results := collection_get (Some (map id everything)) in
  let vectors := map embedding results in
  let n := Z.of_nat (length vectors) in
  let k := Z.min K_CLUSTERS n in
  if n <? 2 then
    print (NOT_ENOUGH_DATA n)
  else
    (if k <? K_CLUSTERS then print (ADJUSTING_K k n) else ret tt) ;;
    let! cluster_labels := KMeans_fit_predict k (Some 42) 10 vectors in
    print "📊 Clustering complete. Updating Chroma metadata..." ;;
    let ids_to_update := map id results in
    update_loop (zip ids_to_update cluster_labels) ids_to_update cluster_labels ;;
    print "✅ Chroma metadata updated with cluster_id." ;;
    print (nl +:+ "--- Clustering Summary ---") ;;
    summary_loop (range k) cluster_labels n.

(** Module constants of the script. *)
Definition PDF_DIR : string := "./pdfs".
Definition CHROMA_PATH : string := "./chroma_db".
Definition COLLECTION_NAME : string := "pdf_cluster_data".

(** [glob.glob] and [PdfReader], as the extraction uses them. *)
Variable glob_pdfs : string -> list string.
Variable PdfReader : string -> Result (list extract_text_from_pdfs.PageOutcome).

(** The script's own copy of the extraction, printing to the terminal of
    the state. *)
Definition extract_text_from_pdfs (pdf_dir : string) : Py State (list Document) :=
  fun st =>
    match extract_text_from_pdfs.extract_text_from_pdfs glob_pdfs PdfReader pdf_dir
            (stdout st) with
    | (r, out) => (r, mkState (collection st) out (np_random st) (kmeans_calls st))
    end.

(** The main block of the script. *)
Definition main : Py State unit :=
  let! all_docs := extract_text_from_pdfs PDF_DIR in
  match all_docs with
  | [] => print "🛑 No text extracted. Check PDF_DIR and file integrity."
  | _ :: _ =>
      create_chroma_collection CHROMA_PATH COLLECTION_NAME all_docs ;;
      perform_clustering
  end.

End WithServices.

End cluster_pdfs.

(** ** txt_to_pdf.py *)

Module txt_to_pdf.

Import Builtins.
Local Open Scope py_scope.

(** What the script asks of the reportlab canvas. *)
Inductive CanvasOp :=
| SetFont (name : string) (size : Z)
| DrawString (x y : float) (s : string)
| ShowPage
| Save.

(** The constants of reportlab the script imports: [inch] and the page
    size [letter], 8.5 by 11 inches. *)
Definition inch : float := 72%float.
Definition letter : float * float := (612%float, 792%float).

Definition width : float := fst letter.
Definition height : float := snd letter.
Definition margin : float := PrimFloat.mul 0.75%float inch.
Definition line_height : float := 14%float.
Definition max_width : float :=
  PrimFloat.sub width (PrimFloat.mul 2%float margin).

(** [line.rstrip('\n')]. *)
Fixpoint rstrip_newlines (line : string) : string :=
  match line with
  | EmptyString => EmptyString
  | String c rest =>
      match rstrip_newlines rest with
      | EmptyString => if Ascii.eqb c "010" then EmptyString else String c EmptyString
      | rest' => String c rest'
      end
  end.

(** The files written and the terminal. *)
Record State := mkState {
  written : list (string * list CanvasOp);
  stdout : list Output
}.

Definition print (s : string) : Py State unit :=
  fun st => (Ok tt, mkState (written st) (stdout st ++ [Print s])).

(** The local variables of the page layout: the operations sent to the
    canvas so far and the height of the next line. *)
Record Layout := mkLayout {
  ops : list CanvasOp;
  y_position : float
}.

(** [c.showPage(); c.setFont("Helvetica", 10); y_position = height - margin]
    when the next line would fall below the margin. *)
Definition new_page_if_needed (l : Layout) : Layout :=
  if PrimFloat.ltb (y_position l) margin
  then mkLayout (ops l ++ [ShowPage; SetFont "Helvetica" 10]) (PrimFloat.sub height margin)
  else l.

Section WithLibraries.

(** [str.split()] with no argument. *)
Variable split : string -> list string.

(** [c.stringWidth(text, fontName, fontSize)]. *)
Variable stringWidth : string -> string -> Z -> float.

(** [open(input_file, 'r', encoding='utf-8')] and [f.readlines()]. *)
Variable readlines : string -> Result (list string).

(** The [for word in words] loop. *)
Fixpoint words_loop (words : list string) (current_line : string) (l : Layout)
  : string * Layout :=
  match words with
  | [] => (current_line, l)
  | word :: rest =>
      let test_line :=
        match current_line with
        | EmptyString => word
        | String _ _ => current_line +:+ " " +:+ word
        end in
      if PrimFloat.ltb (stringWidth test_line "Helvetica" 10) max_width
      then words_loop rest test_line l
      else
        match current_line with
        | EmptyString => words_loop rest word l
        | String _ _ =>
            let drawn :=
              mkLayout (ops l ++ [DrawString margin (y_position l) current_line])
                       (PrimFloat.sub (y_position l) line_height) in
            words_loop rest word (new_page_if_needed drawn)
        end
  end.

(** The body of the [for line in lines] loop. *)
Definition layout_line (raw_line : string) (l : Layout) : Layout :=
  let line := rstrip_newlines raw_line in
  let l := new_page_if_needed l in
  match line with
  | String _ _ =>
      let words := split line in
      match words_loop words "" l with
      | (EmptyString, l') => l'
      | (String c s, l') =>
          mkLayout (ops l' ++ [DrawString margin (y_position l') (String c s)])
                   (PrimFloat.sub (y_position l') line_height)
      end
  | EmptyString => mkLayout (ops l) (PrimFloat.sub (y_position l) line_height)
  end.

Definition layout_lines (lines : list string) (l : Layout) : Layout :=
  foldl (fun acc line => layout_line line acc) l lines.

(** [txt_to_pdf(input_file, output_file)]. *)
Definition txt_to_pdf (input_file output_file : string) : Py State unit :=
  let y_position := PrimFloat.sub height margin in
  let! lines := lift (readlines input_file) in
  let start := mkLayout [SetFont "Helvetica" 10] y_position in
  let done := layout_lines lines start in
  (fun st => (Ok tt, mkState (written st ++ [(output_file, ops done ++ [Save])])
                             (stdout st))) ;;
  print ("PDF created successfully: " +:+ output_file).

End WithLibraries.

End txt_to_pdf.

(** * The vocabulary of the properties *)

Import Builtins.
Import VectorStore.

(** ** Retrieval and context *)

(** The test of the specification: relevance [1 - distance] is at least
    the threshold. *)
Definition meets_threshold (row : string * Metadata * float) : bool :=
  PrimFloat.leb rag_chat.RELEVANCE_THRESHOLD (PrimFloat.sub 1%float (snd row)).

(** A double that is a number: neither [nan] nor an infinity. *)
Definition finite (x : float) : bool :=
  match Prim2SF x with
  | S754_nan | S754_infinity _ => false
  | S754_zero _ | S754_finite _ _ _ => true
  end.

(** ** Extraction *)

(** The documents one file contributes, read off its pages: a page with
    text gives a document numbered by its position plus one, a page
    without text gives nothing, and a page that raises ends the file. *)
Fixpoint documents_of_pages (file_path : string) (pages : list (Z * extract_text_from_pdfs.PageOutcome))
  : list extract_text_from_pdfs.Document :=
  match pages with
  | [] => []
  | (_, Raise _) :: _ => []
  | (page_num, Ok (Some (String c t))) :: rest =>
      extract_text_from_pdfs.mkDocument (String c t)
        (<["page" := MInt (page_num + 1)]>
           (<["source" := MStr (extract_text_from_pdfs.basename file_path)]> ∅))
      :: documents_of_pages file_path rest
  | (_, Ok _) :: rest => documents_of_pages file_path rest
  end.

Definition documents_of_file (PdfReader : string -> Result (list extract_text_from_pdfs.PageOutcome))
    (file_path : string) : list extract_text_from_pdfs.Document :=
  match PdfReader file_path with
  | Ok pages => documents_of_pages file_path (enumerate pages)
  | Raise _ => []
  end.

(** ** Records and collections *)

(** A record with its metadata replaced. *)
Definition with_metadata (r : StoredRecord) (m : Metadata) : StoredRecord :=
  mkStoredRecord (id r) (text r) (embedding r) m.

(** A record with its cluster label merged into its metadata. *)
Definition labelled (r : StoredRecord) (label : Z) : StoredRecord :=
  with_metadata r (<["cluster_id" := MInt label]> (metadata r)).

(** What the records become when the entries are applied in turn. *)
Definition apply_entry (r : StoredRecord) (entry : string * Metadata) : StoredRecord :=
  if String.eqb (id r) (fst entry) then with_metadata r (snd entry) else r.

(** The collection after every record received the label at its position. *)
Definition label_records (c : Collection) (labels : list Z) : Collection :=
  zip_with labelled c labels.

(** ** The order of the store *)

(** After a write the store returns the records it holds, in some order. *)
Definition rearranges (reorder : Collection -> Collection) : Prop :=
  forall c, reorder c ≡ₚ c.

(** After a write the store returns its records in the order they had
    before it. *)
Definition keeps_order (reorder : Collection -> Collection) : Prop :=
  forall c, reorder c = c.

(** The metadatas one pass of the update loop builds from the ones it
    fetched: the label at each position is written over [cluster_id]. *)
Definition relabelled_metadatas (fetched : list Metadata) (labels : list Z)
  : list Metadata :=
  zip_with (fun m l => <["cluster_id" := MInt l]> m) fetched labels.

(** The collection after one pass of the update loop: the metadatas are
    fetched in the collection's order and written back under [ids], by
    position. *)
Definition relabel (reorder : Collection -> Collection) (ids : list string)
    (labels : list Z) (c : Collection) : Collection :=
  reorder (foldl set_metadata c
             (zip ids (relabelled_metadatas (map metadata c) labels))).

(** The collection after one pass for every pair of the loop. *)
Definition relabel_passes (reorder : Collection -> Collection) (ids : list string)
    (labels : list Z) (pairs : list (string * Z)) (c : Collection) : Collection :=
  foldl (fun c' _ => relabel reorder ids labels c') c pairs.

(** The record stored under an id. *)
Definition lookup_id (i : string) (c : Collection) : option StoredRecord :=
  List.find (fun r => String.eqb (id r) i) c.


(** Two records are in one cluster when their metadata carry the same
    [cluster_id]. *)
Definition same_cluster (c : Collection) (i j : nat) : Prop :=
  exists ri rj, c !! i = Some ri /\ c !! j = Some rj /\
                metadata ri !! "cluster_id" = metadata rj !! "cluster_id".

Definition same_partition (c1 c2 : Collection) : Prop :=
  forall i j, same_cluster c1 i j <-> same_cluster c2 i j.

(** One line of the summary. *)
Definition summary_line (labels : list Z) (n i : Z) : string :=
  let count := cluster_pdfs.count_label labels i in
  "Cluster " +:+ zfill 2 i +:+ ": " +:+ str_int count +:+ " documents ("
  +:+ format_fixed 2 (PrimFloat.mul (PrimFloat.div (float_of_int count) (float_of_int n))
                                    100%float)
  +:+ "%)".

(** ** States of the clustering script *)

Module ClusteringSpec.

Section WithServices.

Variable RandomState : Type.

(** The module constant; 10 in the script. *)
Variable K_CLUSTERS : Z.

Abbreviation State := (cluster_pdfs.State RandomState).

Definition set_collection (st : State) (c : Collection) : State :=
  cluster_pdfs.mkState RandomState c (cluster_pdfs.stdout _ st)
    (cluster_pdfs.np_random _ st) (cluster_pdfs.kmeans_calls _ st).

Definition add_output (st : State) (more : list Output) : State :=
  cluster_pdfs.mkState RandomState (cluster_pdfs.collection _ st)
    (cluster_pdfs.stdout _ st ++ more)
    (cluster_pdfs.np_random _ st) (cluster_pdfs.kmeans_calls _ st).

(** The later state has the same estimators on record and the earlier
    output as a prefix of its own. *)
Definition grows (st st' : State) : Prop :=
  cluster_pdfs.kmeans_calls _ st' = cluster_pdfs.kmeans_calls _ st /\
  exists more, cluster_pdfs.stdout _ st' = cluster_pdfs.stdout _ st ++ more.

(** Everything the pass prints when it clusters [n] records. *)
Definition clustering_output (labels : list Z) (n : Z) : list Output :=
  let k := Z.min K_CLUSTERS n in
  [Print (nl +:+ "🧠 Starting K-Means Clustering with K=" +:+ str_int K_CLUSTERS +:+ "...")]
  ++ (if k <? K_CLUSTERS then [Print (cluster_pdfs.ADJUSTING_K K_CLUSTERS k n)] else [])
  ++ [Print "📊 Clustering complete. Updating Chroma metadata...";
      Print "✅ Chroma metadata updated with cluster_id.";
      Print (nl +:+ "--- Clustering Summary ---")]
  ++ map (fun i => Print (summary_line labels n i)) (cluster_pdfs.range k).

(** The state with another process-wide generator. *)
Definition set_generator (st : State) (g : RandomState) : State :=
  cluster_pdfs.mkState RandomState (cluster_pdfs.collection _ st)
    (cluster_pdfs.stdout _ st) g (cluster_pdfs.kmeans_calls _ st).

(** A computation that neither reads nor advances the process-wide
    generator. *)
Definition oblivious {A} (m : Py State A) : Prop :=
  forall st g, m (set_generator st g) = (fst (m st), set_generator (snd (m st)) g).

End WithServices.

End ClusteringSpec.

(** ** The chat loop *)

(** The line is one of the commands that end the chat. *)
Definition is_quit (line : string) : bool :=
  bool_decide (lower (strip line) ∈ ["quit"; "exit"; "q"]).

(** ** Failures of the extraction *)

(** The exception of the first page that fails to extract, if any. *)
Fixpoint first_failure (pages : list extract_text_from_pdfs.PageOutcome) : option Exn :=
  match pages with
  | [] => None
  | Raise e :: _ => Some e
  | Ok _ :: rest => first_failure rest
  end.

(** The exception that ends the work on a file: the file does not open,
    or one of its pages fails. *)
Definition failure_of_file
    (PdfReader : string -> Result (list extract_text_from_pdfs.PageOutcome))
    (file_path : string) : option Exn :=
  match PdfReader file_path with
  | Raise e => Some e
  | Ok pages => first_failure pages
  end.

(** The line printed for a file that failed. *)
Definition error_lines
    (PdfReader : string -> Result (list extract_text_from_pdfs.PageOutcome))
    (file_path : string) : list Output :=
  match failure_of_file PdfReader file_path with
  | Some e => [Print ("⚠️ Error processing " +:+ file_path +:+ ": " +:+ str_exn e)]
  | None => []
  end.

(** ** Characters of a string *)

(** The character occurs in the string. *)
Fixpoint occurs (c : ascii) (s : string) : Prop :=
  match s with
  | EmptyString => False
  | String x rest => x = c \/ occurs c rest
  end.

(** ** Ids of documents *)

(** The id built from the metadata of a document that has a source and a
    page. *)
Definition document_id (doc : cluster_pdfs.Document) : string :=
  get_or (extract_text_from_pdfs.metadata doc) "source" ""
  +:+ "_p" +:+ get_or (extract_text_from_pdfs.metadata doc) "page" "".

(** The metadata the extraction gives to page [page] of a file. *)
Definition page_metadata (file_path : string) (page : Z) : Metadata :=
  <["page" := MInt page]>
    (<["source" := MStr (extract_text_from_pdfs.basename file_path)]> ∅).

(** ** What a record is apart from its metadata *)

(** The id, text and embedding of a record. *)
Definition record_core (r : StoredRecord) : string * string * list float :=
  (id r, text r, embedding r).

(** The ids, texts and embeddings of the later collection are related to
    those of the earlier one. *)
Definition related_records {RandomState : Type}
    (R : relation (list (string * string * list float)))
    (st st' : cluster_pdfs.State RandomState) : Prop :=
  R (map record_core (cluster_pdfs.collection _ st'))
    (map record_core (cluster_pdfs.collection _ st)).

(** The sum of a list of integers. *)
Definition sum_list (l : list Z) : Z := fold_right Z.add 0 l.

(** The document has both keys its id is built from. *)
Definition has_id_keys (doc : cluster_pdfs.Document) : bool :=
  match extract_text_from_pdfs.metadata doc !! "source",
        extract_text_from_pdfs.metadata doc !! "page" with
  | Some _, Some _ => true
  | _, _ => false
  end.


(** ** Pages of text *)

(** The strings a list of canvas operations draws, in order. *)
Definition drawn_text (ops : list txt_to_pdf.CanvasOp) : list string :=
  flat_map (fun op => match op with
                      | txt_to_pdf.DrawString _ _ s => [s]
                      | _ => []
                      end) ops.

(** A drawing operation starts at the left margin and not below the
    bottom margin. *)
Definition within_margins (op : txt_to_pdf.CanvasOp) : Prop :=
  match op with
  | txt_to_pdf.DrawString x y _ =>
      x = txt_to_pdf.margin /\ PrimFloat.ltb y txt_to_pdf.margin = false
  | _ => True
  end.

(** The words of a line of the input, as the script takes them. *)
Definition words_of (split : string -> list string) (raw_line : string) : list string :=
  match txt_to_pdf.rstrip_newlines raw_line with
  | EmptyString => []
  | String c s => split (String c s)
  end.

(** The string is narrower than the text area, or it is one of the words. *)
Definition fits_or_word (stringWidth : string -> string -> Z -> float)
    (all_words : list string) (s : string) : Prop :=
  PrimFloat.ltb (stringWidth s "Helvetica" 10) txt_to_pdf.max_width = true
  \/ In s all_words.

(** * Example inputs *)

Module Examples.

Definition meta (source : string) (page : Z) : Metadata :=
  <["page" := MInt page]> (<["source" := MStr source]> ∅).

(** Three candidates, nearest first; the second is too far away. *)
Definition candidates : rag_chat.QueryResult :=
  rag_chat.mkQueryResult
    ["kmeans groups points"; "a recipe for soup"; "centroids move"]
    [<["cluster_id" := MInt 4]> (meta "ml.pdf" 2); meta "cook.pdf" 7; meta "ml.pdf" 3]
    [0.25%float; 0.85%float; 0.5%float].

Definition store_of (r : rag_chat.QueryResult) : string -> nat -> Result rag_chat.QueryResult :=
  fun _ _ => Ok r.

End Examples.

Module ExamplePdfs.

Definition glob_pdfs (pdf_dir : string) : list string :=
  [pdf_dir +:+ "/notes.pdf"; pdf_dir +:+ "/broken.pdf"; pdf_dir +:+ "/scan.pdf"].

(** [notes.pdf] has a blank second page, [broken.pdf] cannot be opened
    and the third page of [scan.pdf] fails to extract. *)
Definition PdfReader (file_path : string) : Result (list extract_text_from_pdfs.PageOutcome) :=
  if String.eqb file_path "./pdfs/notes.pdf"
  then Ok [Ok (Some "intro"); Ok (Some ""); Ok None; Ok (Some "summary")]
  else if String.eqb file_path "./pdfs/scan.pdf"
  then Ok [Ok None; Ok (Some "figure"); Raise (Exception "bad stream"); Ok (Some "lost")]
  else Raise (Exception "EOF marker not found").

End ExamplePdfs.

Module ExampleRun.

(** A stand-in for the services: generator states are integers, the fit
    spreads the points over the clusters starting from the generator's
    state, and the embedding of a text has two components. *)
Definition seeded (seed : Z) : Z := seed.

Definition kmeans_fit_predict (k restarts g : Z) (vectors : list (list float))
  : Result (list Z) * Z :=
  (Ok (imap (fun i _ => (Z.of_nat i + g) mod k) vectors), g + restarts).

Definition embed_content (texts : list string) : Result (list (list float)) :=
  Ok (map (fun t => [float_of_int (Z.of_nat (String.length t)); 1%float]) texts).

Definition record (source : string) (page : Z) (body : string) (x : float) : StoredRecord :=
  mkStoredRecord (source +:+ "_p" +:+ str_int page) body [x; 1%float]
    (Examples.meta source page).

Definition three_records : Collection :=
  [record "ml.pdf" 1 "kmeans groups points" 20%float;
   record "ml.pdf" 2 "centroids move" 14%float;
   record "cook.pdf" 1 "a recipe for soup" 17%float].

Definition state_of (c : Collection) (g : Z) : cluster_pdfs.State Z :=
  cluster_pdfs.mkState Z c [] g [].

(** A store that returns its records after a write as before it. *)
Definition in_order (c : Collection) : Collection := c.

(** A store that returns its records after a write in the opposite
    order. *)
Definition reversing (c : Collection) : Collection := reverse c.

Definition first_scan : cluster_pdfs.Document :=
  extract_text_from_pdfs.mkDocument "draft of the intro" (Examples.meta "notes.pdf" 1).

Definition second_scan : cluster_pdfs.Document :=
  extract_text_from_pdfs.mkDocument "final intro text." (Examples.meta "notes.pdf" 1).

(** A store whose only candidate is too far from the query. *)
Definition far_candidates : rag_chat.QueryResult :=
  rag_chat.mkQueryResult ["a recipe for soup"] [Examples.meta "cook.pdf" 7] [0.85%float].

End ExampleRun.

Module ExampleExtras.

(** A fit that fails, as scikit-learn does on malformed input. *)
Definition failing_fit (k restarts g : Z) (vectors : list (list float))
  : Result (list Z) * Z :=
  (Raise (Exception "Input contains NaN."), g).

(** A model that is out of quota, and one that is down. *)
Definition rate_limited (prompt : string) : Result string :=
  Raise (Exception "429 RESOURCE_EXHAUSTED").

(** A directory whose files have no text at all. *)
Definition blank_reader (file_path : string) : Result (list extract_text_from_pdfs.PageOutcome) :=
  Ok [Ok None; Ok (Some "")].

(** A file whose second page fails to extract. *)
Definition one_file (pdf_dir : string) : list string := [pdf_dir +:+ "/scan.pdf"].

Definition torn_reader (file_path : string) : Result (list extract_text_from_pdfs.PageOutcome) :=
  Ok ([Ok (Some "cover")] ++ Raise (Exception "bad stream") :: [Ok (Some "lost")]).

(** A document without a page. *)
Definition pageless : cluster_pdfs.Document :=
  extract_text_from_pdfs.mkDocument "loose sheet" (<["source" := MStr "notes.pdf"]> ∅).


End ExampleExtras.

Module ExampleText.

(** Splitting at ASCII whitespace, as [str.split()] does on ASCII text. *)
Fixpoint split_go (current : string) (s : string) : list string :=
  match s with
  | EmptyString =>
      match current with
      | EmptyString => []
      | String _ _ => [current]
      end
  | String c rest =>
      if Builtins.is_space c
      then match current with
           | EmptyString => split_go "" rest
           | String _ _ => current :: split_go "" rest
           end
      else split_go (current +:+ String c EmptyString) rest
  end.

Definition split (s : string) : list string := split_go "" s.

(** Six points for every character. *)
Definition stringWidth (s : string) (font : string) (size : Z) : float :=
  Builtins.float_of_int (6 * Z.of_nat (String.length s)).

Definition lines : list string :=
  ["the quick brown fox jumps over the lazy dog and keeps running through the long grass until night" +:+ Builtins.nl;
   Builtins.nl;
   "end" +:+ Builtins.nl].

Definition readlines (input_file : string) : Result (list string) := Ok lines.

Definition nothing_written : txt_to_pdf.State := txt_to_pdf.mkState [] [].

End ExampleText.

(** * Properties *)

(** ** The retrieval filter *)

Lemma zip3_snoc {A B C} (a : list A) (b : list B) (c : list C) x y z :
  length a = length b -> length b = length c ->
  zip3 (a ++ [x]) (b ++ [y]) (c ++ [z]) = zip3 a b c ++ [(x, y, z)].
Proof.
  revert b c. induction a as [|a0 a IH]; intros [|b0 b] [|c0 c] Hab Hbc;
    simpl in *; try discriminate; [reflexivity|].
  f_equal. apply IH; congruence.
Qed.

Lemma filter_loop_rows candidates : forall docs metas dists,
  length docs = length metas -> length metas = length dists ->
  rag_chat.rows (rag_chat.filter_loop candidates docs metas dists)
  = zip3 docs metas dists ++ List.filter meets_threshold candidates.
Proof.
  induction candidates as [|[[doc metadata] distance] rest IH]; intros docs metas dists Hm Hd.
  - simpl. unfold rag_chat.rows. simpl. now rewrite app_nil_r.
  - simpl. unfold meets_threshold at 1, rag_chat.relevance. simpl.
    destruct (PrimFloat.leb _ _).
    + rewrite IH by (rewrite !length_app; simpl; congruence).
      rewrite zip3_snoc by assumption. now rewrite <- app_assoc.
    + now apply IH.
Qed.

Lemma filter_results_rows (results : rag_chat.QueryResult) :
  rag_chat.rows (rag_chat.filter_results results)
  = List.filter meets_threshold (rag_chat.rows results).
Proof.
  unfold rag_chat.filter_results.
  destruct (rag_chat.documents results) eqn:E.
  - unfold rag_chat.rows. rewrite E. reflexivity.
  - now rewrite filter_loop_rows.
Qed.

(** C1: when the store answers a query with its nearest candidates, the
    retrieval returns normally, the tuples it returns are exactly the
    candidates whose relevance [1 - distance] reaches the threshold, in the
    order of the candidates, and each of them reaches the threshold. *)
Theorem retrieve_keeps_exactly_the_relevant
    (collection_query : string -> nat -> Result rag_chat.QueryResult)
    (query : string) (n_results : nat) (candidates : rag_chat.QueryResult)
    (out : list Output) :
  collection_query query n_results = Ok candidates ->
  exists results out',
    rag_chat.retrieve_relevant_docs collection_query query n_results out = (Ok results, out') /\
    rag_chat.rows results = List.filter meets_threshold (rag_chat.rows candidates) /\
    Forall (fun row => PrimFloat.leb rag_chat.RELEVANCE_THRESHOLD
                         (PrimFloat.sub 1%float (snd row)) = true)
           (rag_chat.rows results).
Proof.
  intros Hq.
  exists (rag_chat.filter_results candidates). eexists.
  split; [|split].
  - unfold rag_chat.retrieve_relevant_docs, bind, rag_chat.print, lift, ret.
    rewrite Hq. reflexivity.
  - apply filter_results_rows.
  - rewrite filter_results_rows. apply List.Forall_forall.
    intros row Hin. apply List.filter_In in Hin. exact (proj2 Hin).
Qed.

Lemma retrieve_keeps_exactly_the_relevant_example :
  exists results out',
    rag_chat.retrieve_relevant_docs (Examples.store_of Examples.candidates)
      "what is kmeans" 5 [] = (Ok results, out') /\
    rag_chat.rows results
    = List.filter meets_threshold (rag_chat.rows Examples.candidates) /\
    Forall (fun row => PrimFloat.leb rag_chat.RELEVANCE_THRESHOLD
                         (PrimFloat.sub 1%float (snd row)) = true)
           (rag_chat.rows results).
Proof.
  apply (retrieve_keeps_exactly_the_relevant
           (Examples.store_of Examples.candidates) "what is kmeans" 5
           Examples.candidates []).
  reflexivity.
Defined.

Example retrieve_example_rows :
  map (fun row => fst (fst row)) (rag_chat.rows (rag_chat.filter_results Examples.candidates))
  = ["kmeans groups points"; "centroids move"].
Proof. reflexivity. Qed.

(** ** The context assembler *)

Lemma format_loop_map items : forall parts,
  rag_chat.format_loop items parts
  = parts ++ map (fun '(i, (doc, metadata, distance)) =>
                    rag_chat.format_block i doc metadata distance) items.
Proof.
  induction items as [|[i [[doc metadata] distance]] rest IH]; intros parts; simpl.
  - now rewrite app_nil_r.
  - rewrite IH. now rewrite <- app_assoc.
Qed.

Lemma enumerate_from_lookup {A} (l : list A) : forall start (i : nat),
  enumerate_from start l !! i = (fun x => (start + Z.of_nat i, x)) <$> l !! i.
Proof.
  induction l as [|x l IH]; intros start [|i]; simpl; try reflexivity.
  - now rewrite Z.add_0_r.
  - rewrite IH. destruct (l !! i); simpl; [|reflexivity].
    do 2 f_equal. lia.
Qed.

Lemma enumerate_from_length {A} (l : list A) : forall start,
  length (enumerate_from start l) = length l.
Proof. induction l; intros; simpl; auto. Qed.

(** *** Three decimals *)

Lemma length_append_string (a b : string) :
  String.length (a +:+ b) = (String.length a + String.length b)%nat.
Proof.
  induction a as [|x a IH]; [reflexivity|].
  change (S (String.length (a +:+ b)) = S (String.length a + String.length b)).
  now rewrite IH.
Qed.

Lemma append_string_assoc (a b c : string) : (a +:+ b) +:+ c = a +:+ (b +:+ c).
Proof.
  induction a as [|x a IH]; [reflexivity|].
  change (String x ((a +:+ b) +:+ c) = String x (a +:+ b +:+ c)). now rewrite IH.
Qed.

Lemma length_zeros n : String.length (zeros n) = n.
Proof. unfold zeros. induction n; simpl; auto. Qed.

Lemma str_int_short (m : Z) :
  0 <= m < 1000 -> (String.length (str_int m) <= 3)%nat.
Proof.
  intros Hm.
  assert (Hall : forallb (fun k => (String.length (str_int (Z.of_nat k)) <=? 3)%nat)
                         (seq 0 1000) = true) by (vm_compute; reflexivity).
  rewrite List.forallb_forall in Hall.
  specialize (Hall (Z.to_nat m)).
  rewrite Z2Nat.id in Hall by lia.
  apply Nat.leb_le, Hall, List.in_seq. lia.
Qed.

Lemma length_zfill3 (m : Z) : 0 <= m < 1000 -> String.length (zfill 3 m) = 3%nat.
Proof.
  intros Hm. unfold zfill. rewrite length_append_string, length_zeros.
  pose proof (str_int_short m Hm). lia.
Qed.

(** [format(x, ".3f")] of a number ends in a point and three characters. *)
Lemma format_fixed_three_decimals (x : float) :
  finite x = true ->
  exists whole frac, format_fixed 3 x = whole +:+ "." +:+ frac /\ String.length frac = 3%nat.
Proof.
  unfold finite, format_fixed. destruct (Prim2SF x) as [s|s| |s m e]; try discriminate; intros _.
  - exists ((if s then "-" else "") +:+ "0"), "000". split; [|reflexivity].
    now rewrite append_string_assoc.
  - eexists ((if s then "-" else "") +:+ str_int _), (zfill 3 _). split.
    + now rewrite append_string_assoc.
    + apply length_zfill3. apply Z.mod_pos_bound. reflexivity.
Qed.

(** C8: the context is made of one block per surviving result, joined by
    the delimiter [\n---\n]; the block of the result at position [i] holds
    its number [i + 1], its source and page, its cluster id or the marker
    [N/A] when it has none, the relevance [1 - distance] in the format
    [.3f], which for a number is a point followed by three decimals, and
    its whole text. *)
Theorem format_context_blocks (results : rag_chat.QueryResult) :
  exists blocks : list string,
    length blocks = length (rag_chat.rows results) /\
    rag_chat.format_context results = join (nl +:+ "---" +:+ nl) blocks /\
    forall (i : nat) doc (metadata : Metadata) distance,
      rag_chat.rows results !! i = Some (doc, metadata, distance) ->
      blocks !! i = Some (
        "[Document " +:+ str_int (Z.of_nat i + 1) +:+ "]" +:+ nl +:+
        "Source: " +:+ match metadata !! "source" with
                       | Some v => str_meta v | None => "Unknown" end +:+
        " (Page " +:+ match metadata !! "page" with
                      | Some v => str_meta v | None => "N/A" end +:+
        ", Cluster " +:+ match metadata !! "cluster_id" with
                         | Some v => str_meta v | None => "N/A" end +:+ ")" +:+ nl +:+
        "Relevance Score: " +:+ format_fixed 3 (PrimFloat.sub 1%float distance) +:+ nl +:+
        "Content: " +:+ doc +:+ nl) /\
      (finite (PrimFloat.sub 1%float distance) = true ->
       exists whole frac,
         format_fixed 3 (PrimFloat.sub 1%float distance) = whole +:+ "." +:+ frac /\
         String.length frac = 3%nat).
Proof.
  exists (map (fun '(i, (doc, metadata, distance)) =>
                 rag_chat.format_block i doc metadata distance)
              (enumerate (rag_chat.rows results))).
  split; [|split].
  - rewrite length_map. apply enumerate_from_length.
  - unfold rag_chat.format_context. now rewrite format_loop_map.
  - intros i doc metadata distance Hi. split.
    + rewrite list_lookup_fmap. unfold enumerate.
      rewrite enumerate_from_lookup, Hi. reflexivity.
    + apply format_fixed_three_decimals.
Qed.

Example format_context_example :
  rag_chat.format_context (rag_chat.filter_results Examples.candidates)
  = "[Document 1]" +:+ nl +:+
    "Source: ml.pdf (Page 2, Cluster 4)" +:+ nl +:+
    "Relevance Score: 0.750" +:+ nl +:+
    "Content: kmeans groups points" +:+ nl +:+
    nl +:+ "---" +:+ nl +:+
    "[Document 2]" +:+ nl +:+
    "Source: ml.pdf (Page 3, Cluster N/A)" +:+ nl +:+
    "Relevance Score: 0.500" +:+ nl +:+
    "Content: centroids move" +:+ nl.
Proof. vm_compute. reflexivity. Qed.

(** ** Empty results *)

Lemma filter_loop_documents candidates : forall docs metas dists,
  rag_chat.documents (rag_chat.filter_loop candidates docs metas dists)
  = docs ++ map (fun row => fst (fst row)) (List.filter meets_threshold candidates).
Proof.
  induction candidates as [|[[doc metadata] distance] rest IH]; intros docs metas dists.
  - simpl. now rewrite app_nil_r.
  - simpl. unfold meets_threshold at 1, rag_chat.relevance. simpl.
    destruct (PrimFloat.leb _ _); rewrite IH; [|reflexivity].
    now rewrite <- app_assoc.
Qed.

(** The list the callers test is empty exactly when no tuple survived. *)
Lemma filter_results_no_rows (results : rag_chat.QueryResult) :
  rag_chat.rows (rag_chat.filter_results results) = [] ->
  rag_chat.documents (rag_chat.filter_results results) = [].
Proof.
  rewrite filter_results_rows. unfold rag_chat.filter_results.
  destruct (rag_chat.documents results) eqn:E; [auto|].
  intros Hrows. rewrite filter_loop_documents. simpl.
  fold (rag_chat.rows results). now rewrite Hrows.
Qed.

(** C7: when the store answers and no candidate survives the filter, both
    entry points print the two lines of the message [no relevant
    information] after the search line and return normally; when the query
    to the store raises instead, the exception is caught, an error line is
    printed and the message is not. *)
Theorem empty_result_is_reported_not_raised
    (collection_query : string -> nat -> Result rag_chat.QueryResult)
    (generate_content : string -> Result string)
    (query : string) (candidates : rag_chat.QueryResult) (out : list Output) :
  collection_query query rag_chat.TOP_K_RESULTS = Ok candidates ->
  rag_chat.rows (rag_chat.filter_results candidates) = [] ->
  let searching := Print (nl +:+ "🔍 Searching for: '" +:+ query +:+ "'") in
  rag_chat.query_once collection_query generate_content query out
  = (Ok tt, out ++ [searching; Print rag_chat.NO_INFO_LINE; Print rag_chat.OUT_OF_SCOPE_LINE]) /\
  (forall line,
     strip line = query -> lower query ∉ ["quit"; "exit"; "q"] -> query <> "" ->
     rag_chat.chat_turn collection_query generate_content line out
     = (Ok rag_chat.Continue,
        out ++ [searching; Print rag_chat.NO_INFO_LINE;
                Print (rag_chat.OUT_OF_SCOPE_LINE +:+ nl)])) /\
  (forall (failing_query : string -> nat -> Result rag_chat.QueryResult) e,
     failing_query query rag_chat.TOP_K_RESULTS = Raise e ->
     rag_chat.query_once failing_query generate_content query out
     = (Ok tt, out ++ [searching; Print (nl +:+ "❌ Error: " +:+ str_exn e)]) /\
     Print (nl +:+ "❌ Error: " +:+ str_exn e) <> Print rag_chat.NO_INFO_LINE).
Proof.
  intros Hq Hrows searching.
  apply filter_results_no_rows in Hrows.
  split; [|split].
  - unfold rag_chat.query_once, try_except, rag_chat.retrieve_relevant_docs,
      bind, rag_chat.print, lift, ret.
    rewrite Hq, Hrows. now rewrite <- !app_assoc.
  - intros line Hline Hquit Hne.
    unfold rag_chat.chat_turn. rewrite Hline.
    rewrite bool_decide_eq_false_2 by assumption.
    rewrite bool_decide_eq_false_2 by assumption.
    unfold try_except, rag_chat.retrieve_relevant_docs, bind, rag_chat.print, lift, ret.
    rewrite Hq, Hrows. now rewrite <- !app_assoc.
  - intros failing_query e Hfail. split.
    + unfold rag_chat.query_once, try_except, rag_chat.retrieve_relevant_docs,
        bind, rag_chat.print, lift, ret.
      rewrite Hfail. now rewrite <- !app_assoc.
    + intros Heq. injection Heq as Heq. discriminate Heq.
Qed.

(** ** Text extraction *)

Lemma pages_loop_documents file_path pages : forall st,
  exists r,
    extract_text_from_pdfs.pages_loop file_path pages st
    = (r, extract_text_from_pdfs.mkExtractState
            (extract_text_from_pdfs.documents st ++ documents_of_pages file_path pages)
            (extract_text_from_pdfs.stdout st)).
Proof.
  induction pages as [|[page_num [[[|c t]|]|e]] rest IH]; intros [docs out]; simpl.
  - eexists. unfold ret. now rewrite app_nil_r.
  - destruct (IH (extract_text_from_pdfs.mkExtractState docs out)) as [r Hr].
    exists r. unfold bind, lift, ret. simpl. exact Hr.
  - destruct (IH (extract_text_from_pdfs.mkExtractState
                    (docs ++ [extract_text_from_pdfs.mkDocument (String c t)
                       (<["page" := MInt (page_num + 1)]>
                          (<["source" := MStr (extract_text_from_pdfs.basename file_path)]> ∅))])
                    out)) as [r Hr].
    exists r. unfold bind, lift, extract_text_from_pdfs.append_document. simpl.
    rewrite Hr. simpl. now rewrite <- app_assoc.
  - destruct (IH (extract_text_from_pdfs.mkExtractState docs out)) as [r Hr].
    exists r. unfold bind, lift, ret. simpl. exact Hr.
  - eexists. unfold bind, lift. simpl. now rewrite app_nil_r.
Qed.

Lemma files_loop_documents PdfReader pdf_files : forall st,
  exists out',
    extract_text_from_pdfs.files_loop PdfReader pdf_files st
    = (Ok tt, extract_text_from_pdfs.mkExtractState
                (extract_text_from_pdfs.documents st
                 ++ flat_map (documents_of_file PdfReader) pdf_files) out').
Proof.
  induction pdf_files as [|file_path rest IH]; intros [docs out]; simpl.
  - eexists. unfold ret. now rewrite app_nil_r.
  - unfold bind at 1, try_except, bind at 1, lift, documents_of_file.
    destruct (PdfReader file_path) as [pages|e].
    + destruct (pages_loop_documents file_path (enumerate pages)
                  (extract_text_from_pdfs.mkExtractState docs out)) as [[[]|e] Hr];
        rewrite Hr; simpl.
      * destruct (IH (extract_text_from_pdfs.mkExtractState
                        (docs ++ documents_of_pages file_path (enumerate pages)) out))
          as [out' Hout].
        exists out'. rewrite Hout. simpl. now rewrite <- app_assoc.
      * destruct (IH (extract_text_from_pdfs.mkExtractState
                        (docs ++ documents_of_pages file_path (enumerate pages))
                        (out ++ [Print ("⚠️ Error processing " +:+ file_path +:+ ": " +:+ str_exn e)])))
          as [out' Hout].
        exists out'. rewrite Hout. simpl. now rewrite <- app_assoc.
    + simpl.
      destruct (IH (extract_text_from_pdfs.mkExtractState docs
                      (out ++ [Print ("⚠️ Error processing " +:+ file_path +:+ ": " +:+ str_exn e)])))
        as [out' Hout].
      exists out'. rewrite Hout. reflexivity.
Qed.

Lemma documents_of_pages_inv file_path pages : forall start doc,
  In doc (documents_of_pages file_path (enumerate_from start pages)) ->
  extract_text_from_pdfs.text doc <> "" /\
  exists i : nat,
    pages !! i = Some (Ok (Some (extract_text_from_pdfs.text doc))) /\
    extract_text_from_pdfs.metadata doc
    = <["page" := MInt (start + Z.of_nat i + 1)]>
        (<["source" := MStr (extract_text_from_pdfs.basename file_path)]> ∅).
Proof.
  induction pages as [|[[[|c t]|]|e] rest IH]; intros start doc Hin; simpl in Hin;
    try contradiction.
  - destruct (IH _ _ Hin) as [Hne [i [Hi Hm]]]. split; [exact Hne|].
    exists (S i). split; [exact Hi|]. rewrite Hm. do 3 f_equal. lia.
  - destruct Hin as [<-|Hin].
    + split; [discriminate|]. exists 0%nat. split; [reflexivity|].
      simpl. do 3 f_equal. lia.
    + destruct (IH _ _ Hin) as [Hne [i [Hi Hm]]]. split; [exact Hne|].
      exists (S i). split; [exact Hi|]. rewrite Hm. do 3 f_equal. lia.
  - destruct (IH _ _ Hin) as [Hne [i [Hi Hm]]]. split; [exact Hne|].
    exists (S i). split; [exact Hi|]. rewrite Hm. do 3 f_equal. lia.
Qed.

(** C10: the extraction always returns; every document it returns has a
    text that is not empty, taken from a page of one of the files, and its
    page number is the 0-based position of that page plus one, so at least
    one. A page whose text is empty or [None] gives no document and is not
    reported, so the numbers of one file can have gaps: a file with a page
    of text, a page without and another page of text gives pages 1 and 3. *)
Theorem extracted_documents_have_text_and_page
    (glob_pdfs : string -> list string)
    (PdfReader : string -> Result (list extract_text_from_pdfs.PageOutcome))
    (pdf_dir : string) (out : list Output) :
  exists docs out',
    extract_text_from_pdfs.extract_text_from_pdfs glob_pdfs PdfReader pdf_dir out
    = (Ok docs, out') /\
    docs = flat_map (documents_of_file PdfReader) (glob_pdfs pdf_dir) /\
    (forall doc, In doc docs ->
       extract_text_from_pdfs.text doc <> "" /\
       exists file_path pages (i : nat),
         In file_path (glob_pdfs pdf_dir) /\
         PdfReader file_path = Ok pages /\
         pages !! i = Some (Ok (Some (extract_text_from_pdfs.text doc))) /\
         extract_text_from_pdfs.metadata doc !! "page" = Some (MInt (Z.of_nat i + 1)) /\
         extract_text_from_pdfs.metadata doc !! "source"
         = Some (MStr (extract_text_from_pdfs.basename file_path)) /\
         1 <= Z.of_nat i + 1) /\
    (forall file_path a b empty,
       a <> "" -> b <> "" -> empty = None \/ empty = Some "" ->
       map (fun doc => extract_text_from_pdfs.metadata doc !! "page")
           (documents_of_pages file_path (enumerate [Ok (Some a); Ok empty; Ok (Some b)]))
       = [Some (MInt 1); Some (MInt 3)]).
Proof.
  unfold extract_text_from_pdfs.extract_text_from_pdfs.
  unfold bind at 1, extract_text_from_pdfs.print at 1. simpl.
  unfold bind at 1.
  destruct (files_loop_documents PdfReader (glob_pdfs pdf_dir)
              (extract_text_from_pdfs.mkExtractState []
                 (out ++ [Print ("🚀 Starting PDF extraction from " +:+ pdf_dir +:+ "...")])))
    as [out1 Hloop].
  rewrite Hloop. simpl.
  eexists. eexists. split; [reflexivity|]. split; [reflexivity|]. split.
  - intros doc Hin. apply List.in_flat_map in Hin as [file_path [Hfile Hdoc]].
    unfold documents_of_file in Hdoc.
    destruct (PdfReader file_path) as [pages|e] eqn:Hread; [|contradiction].
    apply documents_of_pages_inv in Hdoc as [Hne [i [Hi Hm]]].
    split; [exact Hne|]. exists file_path, pages, i.
    rewrite Hm. repeat split; try assumption; try lia.
  - intros file_path a b empty Ha Hb Hempty.
    destruct a as [|ca a]; [contradiction|]. destruct b as [|cb b]; [contradiction|].
    destruct Hempty as [-> | ->]; reflexivity.
Qed.

Example extract_example :
  extract_text_from_pdfs.extract_text_from_pdfs ExamplePdfs.glob_pdfs ExamplePdfs.PdfReader
    "./pdfs" []
  = (Ok [extract_text_from_pdfs.mkDocument "intro" (Examples.meta "notes.pdf" 1);
         extract_text_from_pdfs.mkDocument "summary" (Examples.meta "notes.pdf" 4);
         extract_text_from_pdfs.mkDocument "figure" (Examples.meta "scan.pdf" 2)],
     [Print "🚀 Starting PDF extraction from ./pdfs...";
      Print "⚠️ Error processing ./pdfs/broken.pdf: EOF marker not found";
      Print "⚠️ Error processing ./pdfs/scan.pdf: bad stream";
      Print "✅ Extracted text from 3 files into 3 pages."]).
Proof. vm_compute. reflexivity. Qed.

(** ** The collection *)

Lemma get_all_ids (c : Collection) : get (Some (ids_of c)) c = c.
Proof.
  unfold get, ids_of.
  assert (H : forall l : Collection, (forall r, r ∈ l -> id r ∈ map id c) ->
                                     filter (fun r => id r ∈ map id c) l = l).
  { induction l as [|r l IH]; intros Hall; [reflexivity|].
    rewrite filter_cons_True by (apply Hall; left).
    f_equal. apply IH. intros r' Hr'. apply Hall. now right. }
  apply H. intros r Hr. apply list_elem_of_fmap. eauto.
Qed.

Lemma foldl_set_metadata entries : forall c,
  foldl set_metadata c entries = map (fun r => foldl apply_entry r entries) c.
Proof.
  induction entries as [|e entries IH]; intros c; simpl.
  - now rewrite map_id.
  - rewrite IH. unfold set_metadata. rewrite map_map. reflexivity.
Qed.

Lemma apply_entry_id r e : id (apply_entry r e) = id r.
Proof. unfold apply_entry. now destruct (String.eqb _ _). Qed.

Lemma foldl_apply_entry_other entries : forall r,
  ~ In (id r) (map fst entries) -> foldl apply_entry r entries = r.
Proof.
  induction entries as [|[i m] entries IH]; intros r Hnot; simpl; [reflexivity|].
  simpl in Hnot. unfold apply_entry at 2. simpl.
  destruct (String.eqb (id r) i) eqn:E.
  - apply String.eqb_eq in E. exfalso. apply Hnot. now left.
  - apply IH. intros Hin. apply Hnot. now right.
Qed.

Lemma fst_zip_ids (c : Collection) : forall metadatas : list Metadata,
  length metadatas = length c -> map fst (zip (ids_of c) metadatas) = ids_of c.
Proof.
  induction c as [|r c IH]; intros [|m ms] Hlen; simpl in *; try discriminate; [reflexivity|].
  f_equal. apply IH. congruence.
Qed.

Lemma map_apply_entries (c : Collection) : forall metadatas : list Metadata,
  NoDup (ids_of c) -> length metadatas = length c ->
  map (fun r => foldl apply_entry r (zip (ids_of c) metadatas)) c
  = zip_with with_metadata c metadatas.
Proof.
  induction c as [|r c IH]; intros [|m ms] Hnd Hlen; simpl in *; try discriminate;
    [reflexivity|].
  apply NoDup_cons in Hnd as [Hnotin Hnd'].
  rewrite list_elem_of_In in Hnotin.
  f_equal.
  - unfold apply_entry at 2. simpl. rewrite String.eqb_refl.
    apply foldl_apply_entry_other. simpl.
    rewrite fst_zip_ids by congruence. exact Hnotin.
  - rewrite <- (IH ms Hnd') by congruence.
    apply List.map_ext_in. intros r' Hr'.
    unfold apply_entry at 2. simpl.
    destruct (String.eqb (id r') (id r)) eqn:E; [|reflexivity].
    apply String.eqb_eq in E. exfalso. apply Hnotin. rewrite <- E.
    apply List.in_map. exact Hr'.
Qed.

Lemma get_named (ids : list string) (c : Collection) :
  (forall r, In r c -> In (id r) ids) -> get (Some ids) c = c.
Proof.
  unfold get. induction c as [|r c IH]; intros Hall; [reflexivity|].
  rewrite filter_cons_True by (apply list_elem_of_In, Hall; now left).
  f_equal. apply IH. intros r' Hr'. apply Hall. now right.
Qed.

Lemma foldl_apply_entry_at (ids : list string) :
  forall (metadatas : list Metadata) (j : nat) r m,
    NoDup ids -> ids !! j = Some (id r) -> metadatas !! j = Some m ->
    foldl apply_entry r (zip ids metadatas) = with_metadata r m.
Proof.
  induction ids as [|i ids IH]; intros [|m0 ms] j r m Hnd Hi Hm; try discriminate.
  apply NoDup_cons in Hnd as [Hfresh Hnd]. simpl.
  destruct j as [|j]; simpl in Hi, Hm.
  - injection Hi as ->. injection Hm as ->.
    unfold apply_entry at 2. simpl. rewrite String.eqb_refl.
    apply foldl_apply_entry_other. simpl.
    intros Hin. apply Hfresh. apply list_elem_of_In.
    apply List.in_map_iff in Hin as [[i' m'] [<- Hin]]. simpl.
    apply list_elem_of_In in Hin. apply elem_of_zip_l in Hin. now apply list_elem_of_In.
  - unfold apply_entry at 2. simpl.
    destruct (String.eqb (id r) i) eqn:E.
    + apply String.eqb_eq in E. exfalso. apply Hfresh. rewrite <- E.
      apply list_elem_of_lookup. eauto.
    + now apply (IH ms j).
Qed.

Lemma set_metadata_ids (c : Collection) e : ids_of (set_metadata c e) = ids_of c.
Proof.
  unfold set_metadata, ids_of. rewrite map_map. apply List.map_ext.
  intros r. now destruct (String.eqb _ _).
Qed.

Lemma foldl_set_metadata_ids entries : forall c : Collection,
  ids_of (foldl set_metadata c entries) = ids_of c.
Proof.
  induction entries as [|e entries IH]; intros c; simpl; [reflexivity|].
  rewrite IH. apply set_metadata_ids.
Qed.

(** An update that names records of the collection only. *)
Lemma update_metadata_named reorder (ids : list string) (metadatas : list Metadata)
    (c : Collection) :
  length ids = length metadatas -> (forall i, In i ids -> In i (ids_of c)) ->
  update_metadata reorder ids metadatas c
  = Ok (reorder (foldl set_metadata c (zip ids metadatas))).
Proof.
  intros Hlen Hall. unfold update_metadata.
  rewrite Hlen, Nat.eqb_refl. simpl.
  assert (Hin : forallb (fun i => bool_decide (i ∈ ids_of c)) ids = true).
  { apply List.forallb_forall. intros i Hi. apply bool_decide_eq_true.
    now apply list_elem_of_In, Hall. }
  now rewrite Hin.
Qed.

Lemma ids_of_zip_with_metadata (c : Collection) : forall metadatas : list Metadata,
  length metadatas = length c -> ids_of (zip_with with_metadata c metadatas) = ids_of c.
Proof.
  induction c as [|r c IH]; intros [|m ms] Hlen; simpl in *; try discriminate; [reflexivity|].
  f_equal. apply IH. congruence.
Qed.

(** ** The clustering pass *)

Lemma label_loop_all (metadatas : list Metadata) (labels : list Z) :
  forall (start : nat) (updated : list Metadata),
    (start + length metadatas <= length labels)%nat ->
    cluster_pdfs.label_loop (enumerate_from (Z.of_nat start) metadatas) labels updated
    = Ok (updated ++ zip_with (fun m l => <["cluster_id" := MInt l]> m)
                              metadatas (drop start labels)).
Proof.
  induction metadatas as [|m ms IH]; intros start updated Hlen; simpl.
  - now rewrite app_nil_r.
  - rewrite Nat2Z.id.
    destruct (labels !! start) as [l|] eqn:El.
    + replace (Z.of_nat start + 1) with (Z.of_nat (S start)) by lia.
      rewrite IH by (simpl in Hlen; lia).
      rewrite (drop_S _ _ _ El). simpl. now rewrite <- app_assoc.
    + apply lookup_ge_None in El. simpl in Hlen. lia.
Qed.

Lemma with_labelled_metadata (c : Collection) : forall labels : list Z,
  zip_with with_metadata c
    (zip_with (fun m l => <["cluster_id" := MInt l]> m) (map metadata c) labels)
  = label_records c labels.
Proof.
  unfold label_records.
  induction c as [|r c IH]; intros [|l labels]; simpl; try reflexivity.
  now rewrite IH.
Qed.

Lemma label_records_length (c : Collection) (labels : list Z) :
  length labels = length c -> length (label_records c labels) = length c.
Proof. intros H. unfold label_records. rewrite length_zip_with. lia. Qed.

Lemma label_records_ids (c : Collection) : forall labels : list Z,
  length labels = length c -> ids_of (label_records c labels) = ids_of c.
Proof.
  unfold label_records.
  induction c as [|r c IH]; intros [|l labels] Hlen; simpl in *; try discriminate;
    [reflexivity|].
  f_equal. apply IH. congruence.
Qed.

Lemma label_records_idempotent (c : Collection) : forall labels : list Z,
  label_records (label_records c labels) labels = label_records c labels.
Proof.
  unfold label_records.
  induction c as [|r c IH]; intros [|l labels]; simpl; try reflexivity.
  rewrite IH. f_equal. unfold labelled, with_metadata. simpl.
  now rewrite insert_insert_eq.
Qed.

Lemma label_records_lookup (c : Collection) (labels : list Z) (i : nat) r l :
  c !! i = Some r -> labels !! i = Some l ->
  label_records c labels !! i = Some (labelled r l).
Proof.
  intros Hr Hl. unfold label_records. rewrite lookup_zip_with, Hr. simpl. now rewrite Hl.
Qed.

Lemma same_id_same_position (c : Collection) (i j : nat) ri rj :
  NoDup (ids_of c) -> c !! i = Some ri -> c !! j = Some rj -> id ri = id rj -> i = j.
Proof.
  intros Hnd Hi Hj Hid.
  apply (NoDup_lookup (ids_of c) i j (id ri)); [exact Hnd| |]; unfold ids_of;
    rewrite list_lookup_fmap.
  - now rewrite Hi.
  - rewrite Hj. simpl. now rewrite Hid.
Qed.

(** ** One pass of the update loop, and one pass per pair *)

Lemma keeps_order_rearranges reorder : keeps_order reorder -> rearranges reorder.
Proof. intros Hsame c. now rewrite Hsame. Qed.

Lemma set_metadata_core (c : Collection) entry :
  map record_core (set_metadata c entry) = map record_core c.
Proof.
  unfold set_metadata. rewrite map_map. apply map_ext. intros r.
  now destruct (String.eqb (id r) (fst entry)).
Qed.

Lemma foldl_set_metadata_core entries : forall c : Collection,
  map record_core (foldl set_metadata c entries) = map record_core c.
Proof.
  induction entries as [|e entries IH]; intros c; simpl; [reflexivity|].
  rewrite IH. apply set_metadata_core.
Qed.

Lemma foldl_apply_entry_id entries : forall r, id (foldl apply_entry r entries) = id r.
Proof.
  induction entries as [|e entries IH]; intros r; simpl; [reflexivity|].
  rewrite IH. apply apply_entry_id.
Qed.

Lemma relabel_core reorder ids labels (c : Collection) :
  rearranges reorder ->
  map record_core (relabel reorder ids labels c) ≡ₚ map record_core c.
Proof.
  intros Hperm. unfold relabel.
  etransitivity; [apply Permutation_map, Hperm|].
  now rewrite foldl_set_metadata_core.
Qed.

Lemma relabel_ids reorder ids labels (c : Collection) :
  rearranges reorder -> ids_of (relabel reorder ids labels c) ≡ₚ ids_of c.
Proof.
  intros Hperm. unfold relabel.
  etransitivity; [apply Permutation_map, Hperm|].
  fold (ids_of (foldl set_metadata c (zip ids (relabelled_metadatas (map metadata c) labels)))).
  now rewrite foldl_set_metadata_ids.
Qed.

Lemma length_of_ids (c : Collection) (ids : list string) :
  ids_of c ≡ₚ ids -> length c = length ids.
Proof.
  intros Hids. apply Permutation_length in Hids. unfold ids_of in Hids.
  now rewrite length_map in Hids.
Qed.

(** After one pass the record under the id at a position of [ids]
    carries the label at that position. *)
Lemma relabel_label reorder ids labels (c : Collection) :
  rearranges reorder -> NoDup ids -> ids_of c ≡ₚ ids -> length labels = length ids ->
  forall r' (j : nat) l,
    In r' (relabel reorder ids labels c) -> ids !! j = Some (id r') ->
    labels !! j = Some l ->
    metadata r' !! "cluster_id" = Some (MInt l).
Proof.
  intros Hperm Hnd Hids Hlen r' j l Hin Hj Hl.
  pose proof (length_of_ids c ids Hids) as Hc.
  unfold relabel in Hin. apply (Permutation_in _ (Hperm _)) in Hin.
  rewrite foldl_set_metadata in Hin.
  apply List.in_map_iff in Hin as [r [<- Hr]].
  rewrite foldl_apply_entry_id in Hj.
  destruct (c !! j) as [rj|] eqn:Hrj.
  - rewrite (foldl_apply_entry_at ids _ j r (<["cluster_id" := MInt l]> (metadata rj)));
      [simpl; apply lookup_insert_eq|exact Hnd|exact Hj|].
    unfold relabelled_metadatas. apply lookup_zip_with_Some.
    exists (metadata rj), l. split; [reflexivity|]. split; [|exact Hl].
    rewrite list_lookup_fmap, Hrj. reflexivity.
  - apply lookup_ge_None in Hrj. apply lookup_lt_Some in Hj. lia.
Qed.

Lemma relabel_passes_core reorder ids labels pairs : forall c : Collection,
  rearranges reorder ->
  map record_core (relabel_passes reorder ids labels pairs c) ≡ₚ map record_core c.
Proof.
  induction pairs as [|p rest IH]; intros c Hperm; simpl; [reflexivity|].
  etransitivity; [apply IH, Hperm|]. now apply relabel_core.
Qed.

Lemma relabel_passes_label reorder ids labels pairs : forall c : Collection,
  rearranges reorder -> NoDup ids -> ids_of c ≡ₚ ids -> length labels = length ids ->
  pairs <> [] ->
  forall r' (j : nat) l,
    In r' (relabel_passes reorder ids labels pairs c) -> ids !! j = Some (id r') ->
    labels !! j = Some l ->
    metadata r' !! "cluster_id" = Some (MInt l).
Proof.
  induction pairs as [|p rest IH]; intros c Hperm Hnd Hids Hlen Hne; [contradiction|].
  simpl. destruct rest as [|p' rest].
  - simpl. now apply relabel_label.
  - apply IH; try assumption; [|discriminate].
    etransitivity; [now apply relabel_ids|exact Hids].
Qed.

(** After the passes, by id: the record under the id of position [i] is
    the record of position [i] with another metadata, in which
    [cluster_id] is the label of position [i]. *)
Lemma relabel_passes_by_id reorder labels pairs (c : Collection) :
  rearranges reorder -> NoDup (ids_of c) -> length labels = length c -> pairs <> [] ->
  forall (i : nat) r label,
    c !! i = Some r -> labels !! i = Some label ->
    (exists r', In r' (relabel_passes reorder (ids_of c) labels pairs c) /\ id r' = id r) /\
    (forall r', In r' (relabel_passes reorder (ids_of c) labels pairs c) -> id r' = id r ->
                record_core r' = record_core r /\
                metadata r' !! "cluster_id" = Some (MInt label)).
Proof.
  intros Hperm Hnd Hlen Hne i r label Hr Hl.
  pose proof (relabel_passes_core reorder (ids_of c) labels pairs c Hperm) as Hcore.
  split.
  - assert (Hin : In (record_core r) (map record_core c)).
    { apply List.in_map. apply list_elem_of_In, list_elem_of_lookup. eauto. }
    apply (Permutation_in _ (Permutation_sym Hcore)) in Hin.
    apply List.in_map_iff in Hin as [r' [Hsame Hr']].
    exists r'. split; [exact Hr'|]. unfold record_core in Hsame. congruence.
  - intros r' Hr' Hid. split.
    + assert (Hin : In (record_core r') (map record_core c)).
      { apply (Permutation_in _ Hcore). now apply List.in_map. }
      apply List.in_map_iff in Hin as [r0 [Hsame Hr0]].
      apply list_elem_of_In, list_elem_of_lookup in Hr0 as [j Hj].
      assert (j = i) as ->.
      { apply (same_id_same_position c j i r0 r Hnd Hj Hr).
        unfold record_core in Hsame. congruence. }
      rewrite Hr in Hj. injection Hj as <-. now symmetry.
    + apply (relabel_passes_label reorder (ids_of c) labels pairs c Hperm Hnd) with (j := i)
        (r' := r'); try assumption.
      * reflexivity.
      * unfold ids_of. now rewrite length_map.
      * unfold ids_of. rewrite list_lookup_fmap, Hr. simpl. now rewrite Hid.
Qed.

(** On a store that keeps its order one pass labels every record at its
    position, and so do several. *)
Lemma relabel_in_order reorder labels (c : Collection) :
  keeps_order reorder -> NoDup (ids_of c) -> length labels = length c ->
  relabel reorder (ids_of c) labels c = label_records c labels.
Proof.
  intros Hsame Hnd Hlen. unfold relabel, relabelled_metadatas.
  rewrite Hsame, foldl_set_metadata, map_apply_entries.
  - apply with_labelled_metadata.
  - exact Hnd.
  - rewrite length_zip_with, length_map. lia.
Qed.

Lemma relabel_passes_in_order reorder labels pairs : forall (c : Collection) ids,
  keeps_order reorder -> ids_of c = ids -> NoDup ids -> length labels = length c ->
  pairs <> [] ->
  relabel_passes reorder ids labels pairs c = label_records c labels.
Proof.
  induction pairs as [|p rest IH]; intros c ids Hsame Hids Hnd Hlen Hne; [contradiction|].
  simpl. subst ids. rewrite relabel_in_order by assumption.
  destruct rest as [|p' rest]; [reflexivity|].
  rewrite IH; try assumption.
  - apply label_records_idempotent.
  - now apply label_records_ids.
  - now rewrite label_records_length.
  - discriminate.
Qed.

Section Clustering.

Variable RandomState : Type.
Variable seeded : Z -> RandomState.
Variable kmeans_fit_predict :
  Z -> Z -> RandomState -> list (list float) -> Result (list Z) * RandomState.
Variable K_CLUSTERS : Z.
Variable reorder : Collection -> Collection.

Abbreviation State := (cluster_pdfs.State RandomState).
Abbreviation set_collection := (ClusteringSpec.set_collection RandomState).
Abbreviation add_output := (ClusteringSpec.add_output RandomState).
Abbreviation grows := (ClusteringSpec.grows RandomState).
Abbreviation clustering_output := (ClusteringSpec.clustering_output K_CLUSTERS).
Abbreviation set_generator := (ClusteringSpec.set_generator RandomState).
Abbreviation oblivious := (ClusteringSpec.oblivious RandomState).

Lemma update_pass (ids : list string) (labels : list Z) (st : State) :
  ids_of (cluster_pdfs.collection _ st) ≡ₚ ids -> length labels = length ids ->
  (let! full_results := cluster_pdfs.collection_get RandomState (Some ids) in
   let! updated_metadatas :=
     lift (cluster_pdfs.label_loop (enumerate (map metadata full_results)) labels []) in
   cluster_pdfs.collection_update RandomState reorder ids updated_metadatas)%py st
  = (Ok tt, set_collection st (relabel reorder ids labels (cluster_pdfs.collection _ st))).
Proof.
  intros Hids Hlen.
  pose proof (length_of_ids _ ids Hids) as Hc.
  unfold bind, cluster_pdfs.collection_get, lift, cluster_pdfs.collection_update.
  rewrite get_named
    by (intros r Hr; apply (Permutation_in _ Hids); now apply List.in_map).
  unfold enumerate.
  rewrite (label_loop_all _ labels 0) by (rewrite length_map; simpl; lia).
  rewrite drop_0. simpl.
  fold (relabelled_metadatas (map metadata (cluster_pdfs.collection _ st)) labels).
  rewrite update_metadata_named; [reflexivity| |].
  - unfold relabelled_metadatas. rewrite length_zip_with, length_map. lia.
  - intros i Hi. now apply (Permutation_in _ (Permutation_sym Hids)).
Qed.

Lemma update_loop_relabels (ids : list string) (labels : list Z) pairs :
  forall st : State,
    rearranges reorder ->
    ids_of (cluster_pdfs.collection _ st) ≡ₚ ids -> length labels = length ids ->
    cluster_pdfs.update_loop RandomState reorder pairs ids labels st
    = (Ok tt, set_collection st
                (relabel_passes reorder ids labels pairs (cluster_pdfs.collection _ st))).
Proof.
  induction pairs as [|p rest IH]; intros st Hperm Hids Hlen; [now destruct st|].
  simpl.
  pose proof (update_pass ids labels st Hids Hlen) as Hpass.
  unfold bind in *.
  destruct (cluster_pdfs.collection_get RandomState (Some ids) st) as [[full|e] st1];
    [|discriminate].
  destruct (lift (cluster_pdfs.label_loop (enumerate (map metadata full)) labels []) st1)
    as [[updated|e] st2]; [|discriminate].
  rewrite Hpass.
  rewrite IH; simpl; [reflexivity|exact Hperm| |exact Hlen].
  etransitivity; [now apply relabel_ids|exact Hids].
Qed.

Abbreviation perform_clustering :=
  (cluster_pdfs.perform_clustering RandomState seeded kmeans_fit_predict K_CLUSTERS reorder).

Lemma grows_refl st : grows st st.
Proof. split; [reflexivity|]. exists []. now rewrite app_nil_r. Qed.

Lemma grows_trans st1 st2 st3 : grows st1 st2 -> grows st2 st3 -> grows st1 st3.
Proof.
  intros [Hc1 [m1 Ho1]] [Hc2 [m2 Ho2]]. split; [congruence|].
  exists (m1 ++ m2). rewrite Ho2, Ho1. now rewrite app_assoc.
Qed.

Lemma grows_bind {A B} (m : Py State A) (k : A -> Py State B) st :
  (forall s, grows s (snd (m s))) -> (forall a s, grows s (snd (k a s))) ->
  grows st (snd (bind m k st)).
Proof.
  intros Hm Hk. unfold bind. specialize (Hm st).
  destruct (m st) as [[a|e] st1]; simpl in *; [|exact Hm].
  eapply grows_trans; [exact Hm|apply Hk].
Qed.

Lemma grows_print s st : grows st (snd (cluster_pdfs.print RandomState s st)).
Proof. split; [reflexivity|]. now exists [Print s]. Qed.

Lemma grows_update ids metadatas st :
  grows st (snd (cluster_pdfs.collection_update RandomState reorder ids metadatas st)).
Proof.
  unfold cluster_pdfs.collection_update.
  destruct (update_metadata _ _ _ _); simpl; [|apply grows_refl].
  split; [reflexivity|]. exists []. simpl. now rewrite app_nil_r.
Qed.

Lemma grows_update_loop ids labels pairs : forall st,
  grows st (snd (cluster_pdfs.update_loop RandomState reorder pairs ids labels st)).
Proof.
  induction pairs as [|p rest IH]; intros st; simpl; [apply grows_refl|].
  apply grows_bind; [intros s; apply grows_refl|]. intros full s.
  apply grows_bind; [intros s'; apply grows_refl|]. intros updated s'.
  apply grows_bind; [intros s''; apply grows_update|]. intros _ s''. apply IH.
Qed.

Lemma summary_loop_prints labels n clusters : forall st : State,
  cluster_pdfs.summary_loop RandomState clusters labels n st
  = (Ok tt, add_output st (map (fun i => Print (summary_line labels n i)) clusters)).
Proof.
  induction clusters as [|i rest IH]; intros [c out g calls]; simpl.
  - unfold ret, ClusteringSpec.add_output. simpl. now rewrite app_nil_r.
  - unfold bind, cluster_pdfs.print. simpl. rewrite IH.
    unfold ClusteringSpec.add_output. simpl. now rewrite <- app_assoc.
Qed.

#[local] Arguments get : simpl never.

(** The pass on a collection of at least two records, when the fit
    returns one label per vector: one pass of the update loop for every
    record. *)
Lemma perform_clustering_relabels (st : State) (labels : list Z) :
  let c := cluster_pdfs.collection _ st in
  let n := Z.of_nat (length c) in
  let k := Z.min K_CLUSTERS n in
  rearranges reorder -> 2 <= n ->
  fst (kmeans_fit_predict k 10 (seeded 42) (map embedding c)) = Ok labels ->
  length labels = length c ->
  perform_clustering st
  = (Ok tt,
     cluster_pdfs.mkState RandomState
       (relabel_passes reorder (ids_of c) labels (zip (ids_of c) labels) c)
       (cluster_pdfs.stdout _ st ++ clustering_output labels n)
       (cluster_pdfs.np_random _ st)
       (cluster_pdfs.kmeans_calls _ st
        ++ [cluster_pdfs.mkKMeansCall k (Some 42) 10 (length c)])).
Proof.
  intros c n k Hperm Hn Hfit Hlen. destruct st as [c0 out g calls]. simpl in *.
  subst c. unfold cluster_pdfs.perform_clustering.
  unfold bind at 1, cluster_pdfs.print at 1. simpl.
  unfold bind at 1, cluster_pdfs.collection_get at 1. simpl.
  unfold bind at 1, cluster_pdfs.collection_get at 1. simpl.
  change (get None c0) with c0. fold (ids_of c0). rewrite get_all_ids. rewrite !length_map.
  fold n. fold k.
  destruct (n <? 2) eqn:En; [apply Z.ltb_lt in En; lia|].
  unfold bind at 1.
  assert (Hwarn :
    (if k <? K_CLUSTERS then cluster_pdfs.print RandomState (cluster_pdfs.ADJUSTING_K K_CLUSTERS k n)
     else ret tt)
      (cluster_pdfs.mkState RandomState c0
         (out ++ [Print (nl +:+ "🧠 Starting K-Means Clustering with K=" +:+ str_int K_CLUSTERS +:+ "...")])
         g calls)
    = (Ok tt, cluster_pdfs.mkState RandomState c0
         ((out ++ [Print (nl +:+ "🧠 Starting K-Means Clustering with K=" +:+ str_int K_CLUSTERS +:+ "...")])
          ++ (if k <? K_CLUSTERS then [Print (cluster_pdfs.ADJUSTING_K K_CLUSTERS k n)] else []))
         g calls)).
  { destruct (k <? K_CLUSTERS); unfold cluster_pdfs.print, ret; simpl;
      [reflexivity|now rewrite app_nil_r]. }
  rewrite Hwarn. clear Hwarn.
  unfold bind at 1, cluster_pdfs.KMeans_fit_predict at 1. simpl.
  rewrite Hfit.
  unfold bind at 1, cluster_pdfs.print at 1. simpl.
  unfold bind at 1.
  fold (ids_of c0).
  rewrite update_loop_relabels; simpl;
    [|exact Hperm|reflexivity|unfold ids_of; now rewrite length_map].
  unfold bind at 1, cluster_pdfs.print at 1. simpl.
  unfold bind at 1, cluster_pdfs.print at 1. simpl.
  rewrite summary_loop_prints. unfold ClusteringSpec.add_output, clustering_output. simpl.
  fold k. f_equal. f_equal.
  - rewrite <- !app_assoc. reflexivity.
  - now rewrite length_map.
Qed.

Lemma pairs_not_empty (c : Collection) (labels : list Z) :
  2 <= Z.of_nat (length c) -> length labels = length c -> zip (ids_of c) labels <> [].
Proof.
  intros Hn Hlen. destruct c as [|r c]; [simpl in Hn; lia|].
  destruct labels as [|l labels]; discriminate.
Qed.

(** The same pass on a store that keeps its order. *)
Lemma perform_clustering_labels (st : State) (labels : list Z) :
  let c := cluster_pdfs.collection _ st in
  let n := Z.of_nat (length c) in
  let k := Z.min K_CLUSTERS n in
  keeps_order reorder -> 2 <= n -> NoDup (ids_of c) ->
  fst (kmeans_fit_predict k 10 (seeded 42) (map embedding c)) = Ok labels ->
  length labels = length c ->
  perform_clustering st
  = (Ok tt,
     cluster_pdfs.mkState RandomState (label_records c labels)
       (cluster_pdfs.stdout _ st ++ clustering_output labels n)
       (cluster_pdfs.np_random _ st)
       (cluster_pdfs.kmeans_calls _ st
        ++ [cluster_pdfs.mkKMeansCall k (Some 42) 10 (length c)])).
Proof.
  intros c n k Hsame Hn Hnd Hfit Hlen.
  pose proof (perform_clustering_relabels st labels (keeps_order_rearranges _ Hsame)
                Hn Hfit Hlen) as Hrun.
  cbv zeta in Hrun. rewrite Hrun.
  rewrite (relabel_passes_in_order reorder labels _ c (ids_of c)); auto.
  now apply pairs_not_empty.
Qed.

(** C3: on a collection of fewer than two records the pass returns
    normally after printing the starting line and the line [Not enough
    data]; no estimator is built and the collection, hence every record's
    metadata, is what it was. *)
Theorem too_few_points_is_a_no_op (st : State) :
  (length (cluster_pdfs.collection _ st) < 2)%nat ->
  exists st',
    perform_clustering st = (Ok tt, st') /\
    cluster_pdfs.collection _ st' = cluster_pdfs.collection _ st /\
    cluster_pdfs.kmeans_calls _ st' = cluster_pdfs.kmeans_calls _ st /\
    cluster_pdfs.stdout _ st'
    = cluster_pdfs.stdout _ st
      ++ [Print (nl +:+ "🧠 Starting K-Means Clustering with K=" +:+ str_int K_CLUSTERS +:+ "...");
          Print ("🚫 Not enough data ("
                 +:+ str_int (Z.of_nat (length (cluster_pdfs.collection _ st)))
                 +:+ " points) to perform clustering. Need at least 2 points.")].
Proof.
  intros Hn. destruct st as [c out g calls]. simpl in *.
  unfold cluster_pdfs.perform_clustering.
  unfold bind at 1, cluster_pdfs.print at 1. simpl.
  unfold bind at 1, cluster_pdfs.collection_get at 1. simpl.
  unfold bind at 1, cluster_pdfs.collection_get at 1. simpl.
  change (get None c) with c. fold (ids_of c). rewrite get_all_ids, !length_map.
  destruct (Z.of_nat (length c) <? 2) eqn:En; [|apply Z.ltb_ge in En; lia].
  eexists. split; [reflexivity|]. simpl.
  repeat split. now rewrite <- app_assoc.
Qed.

(** The pass up to the fit, on a collection of at least two records. *)
Lemma perform_clustering_fit (st : State) :
  let c := cluster_pdfs.collection _ st in
  let n := Z.of_nat (length c) in
  let k := Z.min K_CLUSTERS n in
  2 <= n ->
  exists st2,
    cluster_pdfs.kmeans_calls _ st2
    = cluster_pdfs.kmeans_calls _ st
      ++ [cluster_pdfs.mkKMeansCall k (Some 42) 10 (length c)] /\
    cluster_pdfs.stdout _ st2
    = cluster_pdfs.stdout _ st
      ++ [Print (nl +:+ "🧠 Starting K-Means Clustering with K=" +:+ str_int K_CLUSTERS +:+ "...")]
      ++ (if k <? K_CLUSTERS then [Print (cluster_pdfs.ADJUSTING_K K_CLUSTERS k n)] else []) /\
    grows st2 (snd (perform_clustering st)).
Proof.
  intros c n k Hn. destruct st as [c0 out g calls]. simpl in *. subst c.
  unfold cluster_pdfs.perform_clustering.
  unfold bind at 1, cluster_pdfs.print at 1. simpl.
  unfold bind at 1, cluster_pdfs.collection_get at 1. simpl.
  unfold bind at 1, cluster_pdfs.collection_get at 1. simpl.
  change (get None c0) with c0. fold (ids_of c0). rewrite get_all_ids, !length_map.
  fold n. fold k.
  destruct (n <? 2) eqn:En; [apply Z.ltb_lt in En; lia|].
  unfold bind at 1.
  set (warned := cluster_pdfs.mkState RandomState c0
         (out ++ [Print (nl +:+ "🧠 Starting K-Means Clustering with K=" +:+ str_int K_CLUSTERS +:+ "...")]
          ++ (if k <? K_CLUSTERS then [Print (cluster_pdfs.ADJUSTING_K K_CLUSTERS k n)] else []))
         g calls).
  assert (Hwarn :
    (if k <? K_CLUSTERS then cluster_pdfs.print RandomState (cluster_pdfs.ADJUSTING_K K_CLUSTERS k n)
     else ret tt)
      (cluster_pdfs.mkState RandomState c0
         (out ++ [Print (nl +:+ "🧠 Starting K-Means Clustering with K=" +:+ str_int K_CLUSTERS +:+ "...")])
         g calls)
    = (Ok tt, warned)).
  { subst warned. destruct (k <? K_CLUSTERS); unfold cluster_pdfs.print, ret; simpl;
      [now rewrite <- app_assoc|reflexivity]. }
  rewrite Hwarn. clear Hwarn.
  exists (cluster_pdfs.mkState RandomState c0 (cluster_pdfs.stdout _ warned) g
            (calls ++ [cluster_pdfs.mkKMeansCall k (Some 42) 10 (length c0)])).
  split; [reflexivity|]. split; [reflexivity|].
  unfold bind at 1, cluster_pdfs.KMeans_fit_predict at 1. simpl.
  rewrite length_map.
  destruct (fst (kmeans_fit_predict k 10 (seeded 42) (map embedding c0))) as [labels|e];
    simpl; [|apply grows_refl].
  match goal with |- grows ?s (snd (?m ?s)) => generalize s end. intros s.
  apply grows_bind; [intros s'; apply grows_print|]. intros _ s'.
  apply grows_bind; [intros s''; apply grows_update_loop|]. intros _ s''.
  apply grows_bind; [intros s3; apply grows_print|]. intros _ s3.
  apply grows_bind; [intros s4; apply grows_print|]. intros _ s4.
  rewrite summary_loop_prints. unfold ClusteringSpec.add_output. simpl.
  split; [reflexivity|]. eauto.
Qed.

(** C2: on a collection of [n >= 2] records and for a requested
    [K_CLUSTERS >= 1], the pass builds exactly one K-means estimator, with
    [min(K_CLUSTERS, n)] clusters, and fits it on the [n] vectors; when
    that is fewer clusters than requested, the line [Adjusting K] is
    among the lines printed. *)
Theorem clustering_uses_min_k_and_reports (st : State) :
  let c := cluster_pdfs.collection _ st in
  let n := Z.of_nat (length c) in
  let k_actual := Z.min K_CLUSTERS n in
  2 <= n -> 1 <= K_CLUSTERS ->
  exists r st',
    perform_clustering st = (r, st') /\
    cluster_pdfs.kmeans_calls _ st'
    = cluster_pdfs.kmeans_calls _ st
      ++ [cluster_pdfs.mkKMeansCall k_actual (Some 42) 10 (length c)] /\
    (k_actual < K_CLUSTERS ->
     In (Print ("⚠️  Adjusting K from " +:+ str_int K_CLUSTERS +:+ " to " +:+ str_int k_actual
                +:+ " due to limited data (" +:+ str_int n +:+ " points)."))
        (cluster_pdfs.stdout _ st')).
Proof.
  intros c n k Hn HK.
  destruct (perform_clustering_fit st Hn) as [st2 [Hcalls [Hout [Hcalls' [more Hmore]]]]].
  destruct (perform_clustering st) as [r st'] eqn:Hrun. simpl in *.
  exists r, st'. split; [reflexivity|]. split; [rewrite Hcalls', Hcalls; reflexivity|].
  intros Hlt. rewrite Hmore, Hout. fold c n k.
  apply Z.ltb_lt in Hlt. rewrite Hlt.
  apply List.in_or_app. left. apply List.in_or_app. right.
  right. now left.
Qed.

(** *** Reproducibility *)

Lemma oblivious_ret {A} (a : A) : oblivious (ret a).
Proof. intros st g. reflexivity. Qed.

Lemma oblivious_lift {A} (r : Result A) : oblivious (lift r).
Proof. intros st g. reflexivity. Qed.

Lemma oblivious_print s : oblivious (cluster_pdfs.print RandomState s).
Proof. intros st g. reflexivity. Qed.

Lemma oblivious_get ids : oblivious (cluster_pdfs.collection_get RandomState ids).
Proof. intros st g. reflexivity. Qed.

Lemma oblivious_update ids metadatas :
  oblivious (cluster_pdfs.collection_update RandomState reorder ids metadatas).
Proof.
  intros st g. unfold cluster_pdfs.collection_update. simpl.
  now destruct (update_metadata reorder ids metadatas (cluster_pdfs.collection _ st)).
Qed.

Lemma oblivious_bind {A B} (m : Py State A) (k : A -> Py State B) :
  oblivious m -> (forall a, oblivious (k a)) -> oblivious (bind m k).
Proof.
  intros Hm Hk st g. unfold bind. rewrite Hm.
  destruct (m st) as [[a|e] st1]; simpl; [apply Hk|reflexivity].
Qed.

Lemma oblivious_seeded_fit k seed restarts vectors :
  oblivious (cluster_pdfs.KMeans_fit_predict RandomState seeded kmeans_fit_predict
               k (Some seed) restarts vectors).
Proof. intros st g. reflexivity. Qed.

Lemma oblivious_update_loop ids labels pairs :
  oblivious (cluster_pdfs.update_loop RandomState reorder pairs ids labels).
Proof.
  induction pairs as [|p rest IH]; simpl; [apply oblivious_ret|].
  apply oblivious_bind; [apply oblivious_get|]. intros full.
  apply oblivious_bind; [apply oblivious_lift|]. intros updated.
  apply oblivious_bind; [apply oblivious_update|]. intros _. exact IH.
Qed.

Lemma oblivious_summary_loop labels n clusters :
  oblivious (cluster_pdfs.summary_loop RandomState clusters labels n).
Proof.
  induction clusters as [|i rest IH]; simpl; [apply oblivious_ret|].
  apply oblivious_bind; [apply oblivious_print|]. intros _. exact IH.
Qed.

Lemma oblivious_perform_clustering : oblivious perform_clustering.
Proof.
  unfold cluster_pdfs.perform_clustering.
  apply oblivious_bind; [apply oblivious_print|]. intros _.
  apply oblivious_bind; [apply oblivious_get|]. intros everything.
  apply oblivious_bind; [apply oblivious_get|]. intros results. cbv zeta.
  destruct (_ <? 2); [apply oblivious_print|].
  apply oblivious_bind.
  { destruct (_ <? K_CLUSTERS); [apply oblivious_print|apply oblivious_ret]. }
  intros _.
  apply oblivious_bind; [apply oblivious_seeded_fit|]. intros labels.
  apply oblivious_bind; [apply oblivious_print|]. intros _.
  apply oblivious_bind; [apply oblivious_update_loop|]. intros _.
  apply oblivious_bind; [apply oblivious_print|]. intros _.
  apply oblivious_bind; [apply oblivious_print|]. intros _.
  apply oblivious_summary_loop.
Qed.

(** C4: two runs of the pass on the same collection, started with any
    two states of the process-wide random generator, end alike (both
    return or both raise the same exception) and leave the same
    collection, so the same partition of the records into clusters: the
    estimator is seeded with 42 and never draws from that generator. *)
Theorem clustering_is_reproducible (st : State) (g1 g2 : RandomState) :
  let run g := perform_clustering (set_generator st g) in
  fst (run g1) = fst (run g2) /\
  cluster_pdfs.collection _ (snd (run g1)) = cluster_pdfs.collection _ (snd (run g2)) /\
  same_partition (cluster_pdfs.collection _ (snd (run g1)))
                 (cluster_pdfs.collection _ (snd (run g2))).
Proof.
  intros run. subst run. cbv beta.
  rewrite (oblivious_perform_clustering st g1), (oblivious_perform_clustering st g2).
  simpl. repeat split; auto.
Qed.

(** *** Labels and records *)

(** C5: on any store, whatever the order in which it returns its records
    after a write: when the fit returns one label per vector for a
    collection of at least two records with distinct ids, the pass
    returns normally, and for the record at every position [i] of the
    fetched collection: the vector at position [i] is that record's
    embedding, the collection still holds a record under its id, and
    whatever record is stored under that id afterwards has the same
    embedding and carries the label at position [i] as its
    [cluster_id]. *)
Theorem cluster_id_is_label_of_own_vector (st : State) (labels : list Z) :
  let c := cluster_pdfs.collection _ st in
  let vectors := map embedding c in
  let n := Z.of_nat (length c) in
  rearranges reorder ->
  2 <= n -> NoDup (ids_of c) ->
  fst (kmeans_fit_predict (Z.min K_CLUSTERS n) 10 (seeded 42) vectors) = Ok labels ->
  length labels = length c ->
  exists st',
    perform_clustering st = (Ok tt, st') /\
    forall (i : nat) r label,
      c !! i = Some r -> labels !! i = Some label ->
      vectors !! i = Some (embedding r) /\
      (exists r', In r' (cluster_pdfs.collection _ st') /\ id r' = id r) /\
      (forall r', In r' (cluster_pdfs.collection _ st') -> id r' = id r ->
                  embedding r' = embedding r /\
                  metadata r' !! "cluster_id" = Some (MInt label)).
Proof.
  intros c vectors n Hperm Hn Hnd Hfit Hlen.
  eexists. split; [apply (perform_clustering_relabels st labels Hperm Hn Hfit Hlen)|].
  simpl. fold c. intros i r label Hr Hl.
  destruct (relabel_passes_by_id reorder labels (zip (ids_of c) labels) c Hperm Hnd Hlen
              (pairs_not_empty c labels Hn Hlen) i r label Hr Hl) as [Hsome Hall].
  split; [|split].
  - subst vectors. rewrite list_lookup_fmap, Hr. reflexivity.
  - exact Hsome.
  - intros r' Hin Hid. destruct (Hall r' Hin Hid) as [Hcore Hlabel].
    split; [|exact Hlabel]. unfold record_core in Hcore. congruence.
Qed.

(** X25: on a store that returns its records after a write in the order
    they had before it, when the fit returns one label per vector for a
    collection of at least two records with distinct ids, the pass
    returns normally, the collection keeps its size and order, and the
    record at every position keeps its id, text and embedding; its
    metadata gains [cluster_id], the label at that position, and every
    other key maps to what it mapped to before. *)
Theorem update_is_a_merge_when_order_is_kept (st : State) (labels : list Z) :
  let c := cluster_pdfs.collection _ st in
  let n := Z.of_nat (length c) in
  keeps_order reorder ->
  2 <= n -> NoDup (ids_of c) ->
  fst (kmeans_fit_predict (Z.min K_CLUSTERS n) 10 (seeded 42) (map embedding c)) = Ok labels ->
  length labels = length c ->
  exists st',
    perform_clustering st = (Ok tt, st') /\
    length (cluster_pdfs.collection _ st') = length c /\
    forall (i : nat) r,
      c !! i = Some r ->
      exists r' label,
        cluster_pdfs.collection _ st' !! i = Some r' /\
        labels !! i = Some label /\
        id r' = id r /\ text r' = text r /\ embedding r' = embedding r /\
        metadata r' !! "cluster_id" = Some (MInt label) /\
        forall key, key <> "cluster_id" -> metadata r' !! key = metadata r !! key.
Proof.
  intros c n Hsame Hn Hnd Hfit Hlen.
  eexists. split; [apply (perform_clustering_labels st labels Hsame Hn Hnd Hfit Hlen)|].
  simpl. fold c. split; [now apply label_records_length|].
  intros i r Hr.
  destruct (labels !! i) as [label|] eqn:Hl.
  - exists (labelled r label), label.
    split; [now apply label_records_lookup|].
    repeat split.
    + simpl. apply lookup_insert_eq.
    + intros key Hkey. simpl. now apply lookup_insert_ne.
  - apply lookup_ge_None in Hl. apply lookup_lt_Some in Hr. lia.
Qed.

End Clustering.

(** ** Ingestion *)








Section Ingestion.

Variable RandomState : Type.
Variable embed_content : list string -> Result (list (list float)).

Abbreviation IState := (cluster_pdfs.State RandomState).

#[local] Arguments VectorStore.insert : simpl never.



End Ingestion.

(** ** The theorems at concrete inputs *)

Example clustering_example :
  let st' := snd (cluster_pdfs.perform_clustering Z ExampleRun.seeded
                    ExampleRun.kmeans_fit_predict 10 ExampleRun.in_order
                    (ExampleRun.state_of ExampleRun.three_records 7)) in
  map (fun r => (id r, metadata r !! "cluster_id")) (cluster_pdfs.collection _ st')
  = [("ml.pdf_p1", Some (MInt 0)); ("ml.pdf_p2", Some (MInt 1)); ("cook.pdf_p1", Some (MInt 2))]
  /\ cluster_pdfs.stdout _ st'
     = [Print (nl +:+ "🧠 Starting K-Means Clustering with K=10...");
        Print "⚠️  Adjusting K from 10 to 3 due to limited data (3 points).";
        Print "📊 Clustering complete. Updating Chroma metadata...";
        Print "✅ Chroma metadata updated with cluster_id.";
        Print (nl +:+ "--- Clustering Summary ---");
        Print "Cluster 00: 1 documents (33.33%)";
        Print "Cluster 01: 1 documents (33.33%)";
        Print "Cluster 02: 1 documents (33.33%)"].
Proof. vm_compute. split; reflexivity. Qed.

(** The same pass on a store that returns its records in the opposite
    order after every write: the labels are under the same ids. *)
Example clustering_example_reversing :
  map (fun r => (id r, metadata r !! "cluster_id"))
    (cluster_pdfs.collection _
       (snd (cluster_pdfs.perform_clustering Z ExampleRun.seeded
               ExampleRun.kmeans_fit_predict 10 ExampleRun.reversing
               (ExampleRun.state_of ExampleRun.three_records 7))))
  = [("cook.pdf_p1", Some (MInt 2)); ("ml.pdf_p2", Some (MInt 1)); ("ml.pdf_p1", Some (MInt 0))].
Proof. vm_compute. reflexivity. Qed.

(** Without a seed the fit reads the process-wide generator, and two
    runs can disagree. *)
Example unseeded_fit_depends_on_generator :
  fst (cluster_pdfs.KMeans_fit_predict Z ExampleRun.seeded ExampleRun.kmeans_fit_predict
         3 None 10 (map embedding ExampleRun.three_records)
         (ExampleRun.state_of ExampleRun.three_records 0))
  = Ok [0; 1; 2] /\
  fst (cluster_pdfs.KMeans_fit_predict Z ExampleRun.seeded ExampleRun.kmeans_fit_predict
         3 None 10 (map embedding ExampleRun.three_records)
         (ExampleRun.state_of ExampleRun.three_records 1))
  = Ok [1; 2; 0].
Proof. split; reflexivity. Qed.

Lemma three_records_distinct : NoDup (ids_of ExampleRun.three_records).
Proof. apply (bool_decide_unpack _). vm_compute. reflexivity. Defined.

Lemma reversing_rearranges : rearranges ExampleRun.reversing.
Proof. intros c. apply reverse_Permutation. Defined.

Lemma in_order_keeps_order : keeps_order ExampleRun.in_order.
Proof. intros c. reflexivity. Defined.

Lemma empty_result_is_reported_not_raised_example :
  rag_chat.query_once (Examples.store_of ExampleRun.far_candidates) (fun _ => Ok "unused")
    "how do transformers work" []
  = (Ok tt, [Print (nl +:+ "🔍 Searching for: 'how do transformers work'");
             Print rag_chat.NO_INFO_LINE; Print rag_chat.OUT_OF_SCOPE_LINE]).
Proof.
  apply (empty_result_is_reported_not_raised
           (Examples.store_of ExampleRun.far_candidates) (fun _ => Ok "unused")
           "how do transformers work" ExampleRun.far_candidates []);
    reflexivity.
Defined.

Lemma too_few_points_is_a_no_op_example :
  exists st',
    cluster_pdfs.perform_clustering Z ExampleRun.seeded ExampleRun.kmeans_fit_predict 10
      ExampleRun.reversing
      (ExampleRun.state_of [ExampleRun.record "ml.pdf" 1 "kmeans groups points" 20%float] 7)
    = (Ok tt, st') /\
    cluster_pdfs.collection _ st'
    = [ExampleRun.record "ml.pdf" 1 "kmeans groups points" 20%float].
Proof.
  destruct (too_few_points_is_a_no_op Z ExampleRun.seeded ExampleRun.kmeans_fit_predict 10
              ExampleRun.reversing
              (ExampleRun.state_of [ExampleRun.record "ml.pdf" 1 "kmeans groups points" 20%float] 7))
    as [st' [Hrun [Hsame _]]].
  - simpl. lia.
  - exists st'. split; [exact Hrun|exact Hsame].
Defined.

Lemma clustering_uses_min_k_and_reports_example :
  exists r st',
    cluster_pdfs.perform_clustering Z ExampleRun.seeded ExampleRun.kmeans_fit_predict 10
      ExampleRun.reversing (ExampleRun.state_of ExampleRun.three_records 7) = (r, st') /\
    cluster_pdfs.kmeans_calls _ st' = [cluster_pdfs.mkKMeansCall 3 (Some 42) 10 3] /\
    In (Print "⚠️  Adjusting K from 10 to 3 due to limited data (3 points).")
       (cluster_pdfs.stdout _ st').
Proof.
  destruct (clustering_uses_min_k_and_reports Z ExampleRun.seeded ExampleRun.kmeans_fit_predict 10
              ExampleRun.reversing (ExampleRun.state_of ExampleRun.three_records 7))
    as [r [st' [Hrun [Hcalls Hwarn]]]].
  - simpl. lia.
  - lia.
  - exists r, st'. split; [exact Hrun|]. split; [exact Hcalls|].
    apply Hwarn. simpl. lia.
Defined.

Lemma cluster_id_is_label_of_own_vector_example :
  exists st',
    cluster_pdfs.perform_clustering Z ExampleRun.seeded ExampleRun.kmeans_fit_predict 10
      ExampleRun.reversing (ExampleRun.state_of ExampleRun.three_records 7) = (Ok tt, st') /\
    forall r', In r' (cluster_pdfs.collection _ st') -> id r' = "ml.pdf_p2" ->
               embedding r' = [14%float; 1%float] /\
               metadata r' !! "cluster_id" = Some (MInt 1).
Proof.
  destruct (cluster_id_is_label_of_own_vector Z ExampleRun.seeded ExampleRun.kmeans_fit_predict 10
              ExampleRun.reversing (ExampleRun.state_of ExampleRun.three_records 7) [0; 1; 2])
    as [st' [Hrun Hlabel]].
  - exact reversing_rearranges.
  - simpl. lia.
  - exact three_records_distinct.
  - reflexivity.
  - reflexivity.
  - exists st'. split; [exact Hrun|].
    destruct (Hlabel 1%nat (ExampleRun.record "ml.pdf" 2 "centroids move" 14%float) 1
                eq_refl eq_refl) as [_ [_ Hbound]].
    exact Hbound.
Defined.

(** C6: on a store that returns its records in the opposite order after
    every write, the pass over the three example records returns
    normally; the records [ml.pdf_p1] and [cook.pdf_p1] keep their id,
    text and embedding and get the label of their own vector, and they
    end with each other's source. *)
Theorem update_loop_swaps_metadata_between_records :
  exists st' first last,
    cluster_pdfs.perform_clustering Z ExampleRun.seeded ExampleRun.kmeans_fit_predict 10
      ExampleRun.reversing (ExampleRun.state_of ExampleRun.three_records 7) = (Ok tt, st') /\
    lookup_id "ml.pdf_p1" ExampleRun.three_records
    = Some (ExampleRun.record "ml.pdf" 1 "kmeans groups points" 20%float) /\
    lookup_id "cook.pdf_p1" ExampleRun.three_records
    = Some (ExampleRun.record "cook.pdf" 1 "a recipe for soup" 17%float) /\
    lookup_id "ml.pdf_p1" (cluster_pdfs.collection _ st') = Some first /\
    lookup_id "cook.pdf_p1" (cluster_pdfs.collection _ st') = Some last /\
    record_core first
    = record_core (ExampleRun.record "ml.pdf" 1 "kmeans groups points" 20%float) /\
    record_core last
    = record_core (ExampleRun.record "cook.pdf" 1 "a recipe for soup" 17%float) /\
    metadata first !! "cluster_id" = Some (MInt 0) /\
    metadata last !! "cluster_id" = Some (MInt 2) /\
    metadata first !! "source" = Some (MStr "cook.pdf") /\
    metadata last !! "source" = Some (MStr "ml.pdf").
Proof.
  eexists. eexists. eexists.
  split; [vm_compute; reflexivity|].
  split; [reflexivity|]. split; [reflexivity|].
  split; [vm_compute; reflexivity|]. split; [vm_compute; reflexivity|].
  repeat split; vm_compute; reflexivity.
Qed.

Lemma update_is_a_merge_when_order_is_kept_example :
  exists st' r',
    cluster_pdfs.perform_clustering Z ExampleRun.seeded ExampleRun.kmeans_fit_predict 10
      ExampleRun.in_order (ExampleRun.state_of ExampleRun.three_records 7) = (Ok tt, st') /\
    cluster_pdfs.collection _ st' !! 2%nat = Some r' /\
    text r' = "a recipe for soup" /\
    metadata r' !! "cluster_id" = Some (MInt 2) /\
    metadata r' !! "source" = Some (MStr "cook.pdf") /\
    metadata r' !! "page" = Some (MInt 1).
Proof.
  destruct (update_is_a_merge_when_order_is_kept Z ExampleRun.seeded
              ExampleRun.kmeans_fit_predict 10 ExampleRun.in_order
              (ExampleRun.state_of ExampleRun.three_records 7) [0; 1; 2])
    as [st' [Hrun [_ Hmerge]]].
  - exact in_order_keeps_order.
  - simpl. lia.
  - exact three_records_distinct.
  - reflexivity.
  - reflexivity.
  - destruct (Hmerge 2%nat (ExampleRun.record "cook.pdf" 1 "a recipe for soup" 17%float) eq_refl)
      as [r' [label [Hr' [Hl [_ [Htext [_ [Hcluster Hother]]]]]]]].
    injection Hl as <-.
    exists st', r'. split; [exact Hrun|]. split; [exact Hr'|]. split; [exact Htext|].
    split; [exact Hcluster|]. split; rewrite Hother by discriminate; reflexivity.
Defined.


(** * Further properties *)

(** ** rag_chat.py: what reaches the caller *)

Lemma print_sources_returns sources : forall out,
  rag_chat.print_sources sources out
  = (Ok tt, out ++ map (fun '(i, metadata) =>
                          Print ("  " +:+ str_int (i + 1) +:+ ". "
                                 +:+ get_or metadata "source" "None"
                                 +:+ " (Page " +:+ get_or metadata "page" "None" +:+ ")"))
                       sources).
Proof.
  induction sources as [|[i metadata] rest IH]; intros out; simpl.
  - unfold ret. now rewrite app_nil_r.
  - unfold bind, rag_chat.print. rewrite IH. now rewrite <- app_assoc.
Qed.

Lemma generate_response_cases (generate_content : string -> Result string)
    (query context : string) (out : list Output) :
  exists r,
    rag_chat.generate_response generate_content query context out
    = (r, out ++ [Print (nl +:+ "🤖 Generating AI response...")]).
Proof.
  unfold rag_chat.generate_response, bind, rag_chat.print, try_except, lift.
  destruct (generate_content _) as [answer|e]; [eauto|].
  destruct (_ || _); [unfold ret; eauto|].
  destruct (contains _ _); unfold ret, raise; eauto.
Qed.

(** X1: whatever the store and the model do, [query_once] returns
    normally: every exception is caught and printed. *)
Theorem query_once_never_raises
    (collection_query : string -> nat -> Result rag_chat.QueryResult)
    (generate_content : string -> Result string) (query : string) (out : list Output) :
  fst (rag_chat.query_once collection_query generate_content query out) = Ok tt.
Proof.
  unfold rag_chat.query_once, try_except.
  unfold bind at 1, rag_chat.retrieve_relevant_docs, bind, rag_chat.print at 1, lift, ret.
  destruct (collection_query query rag_chat.TOP_K_RESULTS) as [candidates|e]; [|reflexivity].
  destruct (rag_chat.documents (rag_chat.filter_results candidates)) as [|d ds];
    [reflexivity|].
  match goal with |- context [rag_chat.generate_response ?g ?q ?c ?o] =>
    destruct (generate_response_cases g q c o) as [[answer|e] Hgen]; rewrite Hgen end.
  - unfold rag_chat.print. simpl. rewrite print_sources_returns. reflexivity.
  - reflexivity.
Qed.

(** X2: one pass of the chat loop never raises, and it ends the loop
    exactly when the stripped, lower-cased line is [quit], [exit] or [q]. *)
Theorem chat_turn_never_raises
    (collection_query : string -> nat -> Result rag_chat.QueryResult)
    (generate_content : string -> Result string) (line : string) (out : list Output) :
  exists ctl,
    fst (rag_chat.chat_turn collection_query generate_content line out) = Ok ctl /\
    (ctl = rag_chat.Break <-> is_quit line = true).
Proof.
  unfold rag_chat.chat_turn, is_quit.
  destruct (bool_decide (lower (strip line) ∈ ["quit"; "exit"; "q"])).
  - exists rag_chat.Break. split; [reflexivity|]. split; auto.
  - exists rag_chat.Continue.
    split; [|split; discriminate].
    destruct (bool_decide (strip line = "")); [reflexivity|].
    unfold try_except.
    unfold bind at 1, rag_chat.retrieve_relevant_docs, bind, rag_chat.print at 1, lift, ret.
    destruct (collection_query (strip line) rag_chat.TOP_K_RESULTS) as [candidates|e];
      [|reflexivity].
    destruct (rag_chat.documents (rag_chat.filter_results candidates)) as [|d ds];
      [reflexivity|].
    match goal with |- context [rag_chat.generate_response ?g ?q ?c ?o] =>
      destruct (generate_response_cases g q c o) as [[answer|e] Hgen]; rewrite Hgen end.
    + unfold rag_chat.print. simpl. rewrite print_sources_returns. reflexivity.
    + reflexivity.
Qed.

Lemma chat_turn_quit collection_query generate_content line out :
  is_quit line = true ->
  rag_chat.chat_turn collection_query generate_content line out
  = (Ok rag_chat.Break, out ++ [Print (nl +:+ "👋 Goodbye!")]).
Proof.
  unfold is_quit, rag_chat.chat_turn. intros ->. reflexivity.
Qed.

Lemma chat_turn_continues collection_query generate_content line out :
  is_quit line = false ->
  exists out',
    rag_chat.chat_turn collection_query generate_content line out
    = (Ok rag_chat.Continue, out').
Proof.
  intros Hq.
  destruct (chat_turn_never_raises collection_query generate_content line out)
    as [ctl [Hok Hbreak]].
  destruct (rag_chat.chat_turn collection_query generate_content line out) as [r out'].
  simpl in Hok. subst r. exists out'. f_equal. f_equal.
  destruct ctl; [|reflexivity].
  rewrite (proj1 Hbreak eq_refl) in Hq. discriminate.
Qed.

(** X3: the chat reads no line after the first quit command: whatever
    follows it, the loop returns normally with the same output, which ends
    with the prompt and the goodbye line. *)
Theorem chat_loop_stops_at_quit
    (collection_query : string -> nat -> Result rag_chat.QueryResult)
    (generate_content : string -> Result string)
    (before : list string) (quit : string) (rest : list string) :
  forallb (fun line => negb (is_quit line)) before = true ->
  is_quit quit = true ->
  forall out, exists shown,
    rag_chat.chat_loop collection_query generate_content (before ++ quit :: rest) out
    = (Ok tt, shown ++ [Prompt "You: "; Print (nl +:+ "👋 Goodbye!")]) /\
    rag_chat.chat_loop collection_query generate_content (before ++ [quit]) out
    = (Ok tt, shown ++ [Prompt "You: "; Print (nl +:+ "👋 Goodbye!")]).
Proof.
  intros Hbefore Hquit.
  induction before as [|line before IH]; intros out; simpl.
  - exists out. unfold bind. rewrite !chat_turn_quit by exact Hquit.
    simpl. unfold ret. rewrite <- !app_assoc. split; reflexivity.
  - simpl in Hbefore. apply andb_prop in Hbefore as [Hline Hbefore].
    apply negb_true_iff in Hline.
    unfold bind at 1 3. unfold bind at 1 2.
    destruct (chat_turn_continues collection_query generate_content line
                (out ++ [Prompt "You: "]) Hline) as [out1 Hturn].
    rewrite Hturn.
    destruct (IH Hbefore out1) as [shown [Hrest Hquit_only]].
    exists shown. rewrite Hrest, Hquit_only. split; reflexivity.
Qed.


(** X5: when the filtered result is not empty and the model call raises,
    [query_once] shows a rate-limit or quota failure as the answer,
    followed by the sources, and any other failure as an error line
    without sources; a message naming both gets the rate-limit text. *)
Theorem generation_failure_outcomes
    (collection_query : string -> nat -> Result rag_chat.QueryResult)
    (generate_content : string -> Result string)
    (query : string) (candidates : rag_chat.QueryResult) (e : Exn) (out : list Output) :
  collection_query query rag_chat.TOP_K_RESULTS = Ok candidates ->
  rag_chat.documents (rag_chat.filter_results candidates) <> [] ->
  generate_content
    (rag_chat.prompt_of query (rag_chat.format_context (rag_chat.filter_results candidates)))
  = Raise e ->
  let msg := str_exn e in
  let sources :=
    Print "📚 Sources:"
    :: map (fun '(i, metadata) =>
              Print ("  " +:+ str_int (i + 1) +:+ ". " +:+ get_or metadata "source" "None"
                     +:+ " (Page " +:+ get_or metadata "page" "None" +:+ ")"))
           (enumerate (rag_chat.metadatas (rag_chat.filter_results candidates))) in
  rag_chat.query_once collection_query generate_content query out
  = (Ok tt,
     out ++ [Print (nl +:+ "🔍 Searching for: '" +:+ query +:+ "'");
             Print (nl +:+ "🤖 Generating AI response...")]
     ++ (if contains "429" msg || contains "RESOURCE_EXHAUSTED" msg
         then Print (nl +:+ "🤖 Answer:" +:+ nl
                     +:+ "⚠️ API rate limit exceeded. Please wait a moment and try again."
                     +:+ nl) :: sources
         else if contains "quota" (lower msg)
         then Print (nl +:+ "🤖 Answer:" +:+ nl
                     +:+ "⚠️ API quota exceeded. Please check your Google AI Studio quota limits."
                     +:+ nl) :: sources
         else [Print (nl +:+ "❌ Error: " +:+ msg)])).
Proof.
  intros Hq Hdocs Hgen msg sources.
  unfold rag_chat.query_once, try_except.
  unfold bind at 1, rag_chat.retrieve_relevant_docs, bind, rag_chat.print at 1, lift, ret.
  rewrite Hq.
  destruct (rag_chat.documents (rag_chat.filter_results candidates)) as [|d ds] eqn:Ed;
    [contradiction|].
  unfold rag_chat.generate_response, bind, rag_chat.print, try_except, lift.
  rewrite Hgen. fold msg.
  destruct (contains "429" msg || contains "RESOURCE_EXHAUSTED" msg).
  - unfold ret. simpl. rewrite print_sources_returns. subst sources.
    rewrite <- !app_assoc. reflexivity.
  - destruct (contains "quota" (lower msg)).
    + unfold ret. simpl. rewrite print_sources_returns. subst sources.
      rewrite <- !app_assoc. reflexivity.
    + unfold raise. simpl. rewrite <- !app_assoc. reflexivity.
Qed.

(** ** rag_chat.py: the filter *)

Lemma filter_loop_metadatas candidates : forall docs metas dists,
  rag_chat.metadatas (rag_chat.filter_loop candidates docs metas dists)
  = metas ++ map (fun row => snd (fst row)) (List.filter meets_threshold candidates).
Proof.
  induction candidates as [|[[doc metadata] distance] rest IH]; intros docs metas dists.
  - simpl. now rewrite app_nil_r.
  - simpl. unfold meets_threshold at 1, rag_chat.relevance. simpl.
    destruct (PrimFloat.leb _ _); rewrite IH; [|reflexivity].
    now rewrite <- app_assoc.
Qed.

Lemma filter_loop_distances candidates : forall docs metas dists,
  rag_chat.distances (rag_chat.filter_loop candidates docs metas dists)
  = dists ++ map snd (List.filter meets_threshold candidates).
Proof.
  induction candidates as [|[[doc metadata] distance] rest IH]; intros docs metas dists.
  - simpl. now rewrite app_nil_r.
  - simpl. unfold meets_threshold at 1, rag_chat.relevance. simpl.
    destruct (PrimFloat.leb _ _); rewrite IH; [|reflexivity].
    now rewrite <- app_assoc.
Qed.

Lemma zip3_unzip {A B C} (l : list (A * B * C)) :
  zip3 (map (fun row => fst (fst row)) l) (map (fun row => snd (fst row)) l) (map snd l) = l.
Proof. induction l as [|[[a b] c] l IH]; simpl; [reflexivity|]. now rewrite IH. Qed.

(** X6: when the store returned at least one document, the three lists
    of the filtered result are the three columns of the kept tuples, so
    they have one length and stay aligned, whatever the lengths of the
    lists the store returned. *)
Theorem filtered_lists_stay_aligned (results : rag_chat.QueryResult) :
  rag_chat.documents results <> [] ->
  let kept := List.filter meets_threshold (rag_chat.rows results) in
  rag_chat.documents (rag_chat.filter_results results) = map (fun row => fst (fst row)) kept /\
  rag_chat.metadatas (rag_chat.filter_results results) = map (fun row => snd (fst row)) kept /\
  rag_chat.distances (rag_chat.filter_results results) = map snd kept /\
  (length kept <= length (rag_chat.rows results))%nat.
Proof.
  intros Hdocs kept. unfold rag_chat.filter_results.
  destruct (rag_chat.documents results) eqn:E; [contradiction|].
  rewrite filter_loop_documents, filter_loop_metadatas, filter_loop_distances.
  simpl. fold (rag_chat.rows results). fold kept.
  repeat split. apply List.filter_length_le.
Qed.

Lemma filter_filter_meets (l : list (string * Metadata * float)) :
  List.filter meets_threshold (List.filter meets_threshold l) = List.filter meets_threshold l.
Proof.
  induction l as [|x l IH]; simpl; [reflexivity|].
  destruct (meets_threshold x) eqn:E; simpl; [rewrite E; now f_equal|exact IH].
Qed.

(** X7: filtering a result that was already filtered changes nothing. *)
Theorem filter_results_idempotent (results : rag_chat.QueryResult) :
  rag_chat.filter_results (rag_chat.filter_results results)
  = rag_chat.filter_results results.
Proof.
  destruct (rag_chat.documents results) as [|d ds] eqn:E.
  - unfold rag_chat.filter_results. rewrite E. now rewrite E.
  - assert (Hne : rag_chat.documents results <> []) by (rewrite E; discriminate).
    destruct (filtered_lists_stay_aligned results Hne) as [Hd [Hm [Hs _]]].
    set (once := rag_chat.filter_results results) in *.
    unfold rag_chat.filter_results at 1.
    destruct (rag_chat.documents once) as [|d1 ds1] eqn:E1; [reflexivity|].
    assert (Hrows : rag_chat.rows once
                    = List.filter meets_threshold (rag_chat.rows results)).
    { apply filter_results_rows. }
    destruct (rag_chat.filter_loop (rag_chat.rows once) [] [] []) as [d2 m2 s2] eqn:E2.
    pose proof (filter_loop_documents (rag_chat.rows once) [] [] []) as Hd2.
    pose proof (filter_loop_metadatas (rag_chat.rows once) [] [] []) as Hm2.
    pose proof (filter_loop_distances (rag_chat.rows once) [] [] []) as Hs2.
    rewrite E2 in Hd2, Hm2, Hs2. simpl in Hd2, Hm2, Hs2.
    rewrite Hrows, filter_filter_meets in Hd2, Hm2, Hs2.
    destruct once as [d0 m0 s0]. simpl in *. congruence.
Qed.

(** A double that is not a number. *)
Lemma nan_never_meets_threshold (row : string * Metadata * float) :
  Prim2SF (snd row) = S754_nan -> meets_threshold row = false.
Proof.
  intros Hnan. unfold meets_threshold.
  rewrite leb_spec, sub_spec, Hnan. reflexivity.
Qed.

Lemma far_infinity_never_meets_threshold (row : string * Metadata * float) :
  Prim2SF (snd row) = S754_infinity false -> meets_threshold row = false.
Proof.
  intros Hinf. unfold meets_threshold.
  rewrite leb_spec, sub_spec, Hinf. reflexivity.
Qed.

(** X8: no tuple of a filtered result has a distance that is [nan] or
    plus infinity: a candidate without a usable distance is never
    returned. *)
Theorem returned_distances_are_numbers (results : rag_chat.QueryResult)
    (row : string * Metadata * float) :
  In row (rag_chat.rows (rag_chat.filter_results results)) ->
  Prim2SF (snd row) <> S754_nan /\ Prim2SF (snd row) <> S754_infinity false.
Proof.
  rewrite filter_results_rows. intros Hin.
  apply List.filter_In in Hin as [_ Hmeets].
  split; intros Hbad.
  - rewrite nan_never_meets_threshold in Hmeets by exact Hbad. discriminate.
  - rewrite far_infinity_never_meets_threshold in Hmeets by exact Hbad. discriminate.
Qed.

(** ** extract_text_from_pdfs.py: failures and the report *)

Lemma pages_loop_outcome file_path pages : forall start st,
  extract_text_from_pdfs.pages_loop file_path (enumerate_from start pages) st
  = (match first_failure pages with Some e => Raise e | None => Ok tt end,
     extract_text_from_pdfs.mkExtractState
       (extract_text_from_pdfs.documents st
        ++ documents_of_pages file_path (enumerate_from start pages))
       (extract_text_from_pdfs.stdout st)).
Proof.
  induction pages as [|[[[|c t]|]|e] rest IH]; intros start [docs out]; simpl.
  - unfold ret. now rewrite app_nil_r.
  - unfold bind, lift, ret. simpl. apply IH.
  - unfold bind, lift, extract_text_from_pdfs.append_document. simpl.
    rewrite IH. simpl. now rewrite <- app_assoc.
  - unfold bind, lift, ret. simpl. apply IH.
  - unfold bind, lift. simpl. now rewrite app_nil_r.
Qed.

Lemma files_loop_outcome PdfReader pdf_files : forall st,
  extract_text_from_pdfs.files_loop PdfReader pdf_files st
  = (Ok tt,
     extract_text_from_pdfs.mkExtractState
       (extract_text_from_pdfs.documents st
        ++ flat_map (documents_of_file PdfReader) pdf_files)
       (extract_text_from_pdfs.stdout st ++ flat_map (error_lines PdfReader) pdf_files)).
Proof.
  induction pdf_files as [|file_path rest IH]; intros [docs out]; simpl.
  - unfold ret. now rewrite !app_nil_r.
  - unfold bind at 1, try_except, bind at 1, lift, documents_of_file, error_lines,
      failure_of_file.
    destruct (PdfReader file_path) as [pages|e]; simpl.
    + unfold enumerate. rewrite pages_loop_outcome. simpl.
      destruct (first_failure pages) as [e|]; simpl; rewrite IH; simpl;
        now rewrite <- !app_assoc.
    + rewrite IH. simpl. now rewrite <- !app_assoc.
Qed.

(** What the extraction returns and prints. *)
Lemma extract_text_outcome
    (glob_pdfs : string -> list string)
    (PdfReader : string -> Result (list extract_text_from_pdfs.PageOutcome))
    (pdf_dir : string) (out : list Output) :
  let pdf_files := glob_pdfs pdf_dir in
  let docs := flat_map (documents_of_file PdfReader) pdf_files in
  extract_text_from_pdfs.extract_text_from_pdfs glob_pdfs PdfReader pdf_dir out
  = (Ok docs,
     out ++ [Print ("🚀 Starting PDF extraction from " +:+ pdf_dir +:+ "...")]
     ++ flat_map (error_lines PdfReader) pdf_files
     ++ [Print ("✅ Extracted text from " +:+ str_int (Z.of_nat (length pdf_files))
                +:+ " files into " +:+ str_int (Z.of_nat (length docs)) +:+ " pages.")]).
Proof.
  intros pdf_files docs.
  unfold extract_text_from_pdfs.extract_text_from_pdfs.
  unfold bind at 1, extract_text_from_pdfs.print at 1. simpl.
  unfold bind at 1. rewrite files_loop_outcome. simpl.
  fold pdf_files. fold docs. now rewrite <- !app_assoc.
Qed.

(** X9: the extraction prints the starting line, then one error line for
    each file that does not open or has a page that fails, in the order of
    the files, then the summary with the number of files found and the
    number of documents returned. *)
Theorem extraction_report
    (glob_pdfs : string -> list string)
    (PdfReader : string -> Result (list extract_text_from_pdfs.PageOutcome))
    (pdf_dir : string) (out : list Output) :
  let pdf_files := glob_pdfs pdf_dir in
  let docs := flat_map (documents_of_file PdfReader) pdf_files in
  extract_text_from_pdfs.extract_text_from_pdfs glob_pdfs PdfReader pdf_dir out
  = (Ok docs,
     out ++ [Print ("🚀 Starting PDF extraction from " +:+ pdf_dir +:+ "...")]
     ++ flat_map (error_lines PdfReader) pdf_files
     ++ [Print ("✅ Extracted text from " +:+ str_int (Z.of_nat (length pdf_files))
                +:+ " files into " +:+ str_int (Z.of_nat (length docs)) +:+ " pages.")]).
Proof. apply extract_text_outcome. Qed.

Lemma documents_of_pages_until_failure file_path pre e post : forall start,
  first_failure pre = None ->
  documents_of_pages file_path (enumerate_from start (pre ++ Raise e :: post))
  = documents_of_pages file_path (enumerate_from start pre).
Proof.
  induction pre as [|[[[|c t]|]|e'] pre IH]; intros start Hpre; simpl in *;
    try discriminate; try reflexivity; try (now apply IH).
  f_equal. now apply IH.
Qed.

Lemma first_failure_app pre e post :
  first_failure pre = None -> first_failure (pre ++ Raise e :: post) = Some e.
Proof.
  induction pre as [|[o|e'] pre IH]; simpl; intros Hpre; try discriminate; auto.
Qed.

(** X10: when a page of a file fails to extract, the documents of the
    pages before it are kept, the pages after it are never read, and the
    file is reported once: for a directory with that one file the result
    is the documents of the earlier pages. *)
Theorem failed_page_keeps_earlier_pages
    (glob_pdfs : string -> list string)
    (PdfReader : string -> Result (list extract_text_from_pdfs.PageOutcome))
    (pdf_dir file_path : string) (pre post : list extract_text_from_pdfs.PageOutcome)
    (e : Exn) (out : list Output) :
  glob_pdfs pdf_dir = [file_path] ->
  PdfReader file_path = Ok (pre ++ Raise e :: post) ->
  first_failure pre = None ->
  let docs := documents_of_pages file_path (enumerate pre) in
  extract_text_from_pdfs.extract_text_from_pdfs glob_pdfs PdfReader pdf_dir out
  = (Ok docs,
     out ++ [Print ("🚀 Starting PDF extraction from " +:+ pdf_dir +:+ "...");
             Print ("⚠️ Error processing " +:+ file_path +:+ ": " +:+ str_exn e);
             Print ("✅ Extracted text from 1 files into "
                    +:+ str_int (Z.of_nat (length docs)) +:+ " pages.")]).
Proof.
  intros Hglob Hread Hpre docs.
  rewrite extract_text_outcome. rewrite Hglob. simpl.
  unfold documents_of_file, error_lines, failure_of_file. rewrite Hread.
  unfold enumerate. rewrite documents_of_pages_until_failure by exact Hpre.
  rewrite first_failure_app by exact Hpre.
  rewrite !app_nil_r. reflexivity.
Qed.

(** ** cluster_pdfs.py: record ids *)

Lemma occurs_append c (a b : string) : occurs c (a +:+ b) <-> occurs c a \/ occurs c b.
Proof.
  induction a as [|x a IH].
  - simpl. tauto.
  - change (String x a +:+ b) with (String x (a +:+ b)). simpl. rewrite IH. tauto.
Qed.

Lemma no_p_in_uint (d : Decimal.uint) : ~ occurs "p" (NilEmpty.string_of_uint d).
Proof.
  induction d; simpl; [intros [] | intros [H|H]; [discriminate|auto] ..].
Qed.

Lemma no_p_in_str_int (n : Z) : ~ occurs "p" (str_int n).
Proof.
  unfold str_int, NilZero.string_of_int, NilZero.string_of_uint.
  destruct (Z.to_int n) as [d|d].
  - destruct d; try apply no_p_in_uint. simpl. intros [H|[]]. discriminate.
  - simpl. intros [H|H]; [discriminate|].
    destruct d; try (now apply no_p_in_uint in H). simpl in H.
    destruct H as [H|[]]. discriminate.
Qed.

Lemma str_int_inj (a b : Z) : str_int a = str_int b -> a = b.
Proof.
  unfold str_int. intros H.
  apply DecimalZ.to_int_inj.
  assert (Hparse : forall z, NilZero.int_of_string (NilZero.string_of_int (Z.to_int z))
                             = Some (Z.to_int z)).
  { intros z. apply NilZero.isi; destruct z; simpl; try discriminate;
      intros [= Hnil]; now apply DecimalPos.Unsigned.to_uint_nonnil in Hnil. }
  pose proof (Hparse a) as Ha. rewrite H, Hparse in Ha. now injection Ha.
Qed.

(** A string ends in [_p] and a part without [p] in one way only. *)
Lemma split_at_last_p (s1 : string) : forall s2 d1 d2,
  ~ occurs "p" d1 -> ~ occurs "p" d2 ->
  s1 +:+ String "_" (String "p" d1) = s2 +:+ String "_" (String "p" d2) ->
  s1 = s2 /\ d1 = d2.
Proof.
  assert (Hin : forall s d, occurs "p" (s +:+ String "_" (String "p" d))).
  { intros s d. apply occurs_append. right. simpl. auto. }
  induction s1 as [|c s1 IH]; intros [|c2 s2] d1 d2 H1 H2 Heq.
  - injection Heq as Heq. auto.
  - exfalso.
    change (String "_" (String "p" d1) = String c2 (s2 +:+ String "_" (String "p" d2))) in Heq.
    injection Heq as Hc Heq. destruct s2 as [|c3 s3].
    + discriminate Heq.
    + change (String "p" d1 = String c3 (s3 +:+ String "_" (String "p" d2))) in Heq.
      injection Heq as Hc3 Heq. apply H1. rewrite Heq. apply Hin.
  - exfalso.
    change (String c (s1 +:+ String "_" (String "p" d1)) = String "_" (String "p" d2)) in Heq.
    injection Heq as Hc Heq. destruct s1 as [|c3 s3].
    + discriminate Heq.
    + change (String c3 (s3 +:+ String "_" (String "p" d1)) = String "p" d2) in Heq.
      injection Heq as Hc3 Heq. apply H2. rewrite <- Heq. apply Hin.
  - change (String c (s1 +:+ String "_" (String "p" d1))
            = String c2 (s2 +:+ String "_" (String "p" d2))) in Heq.
    injection Heq as Hc Heq. subst c2.
    destruct (IH s2 d1 d2 H1 H2 Heq) as [-> ->]. auto.
Qed.

(** X11: documents whose source is a string and whose page is an integer
    get the same id only when they have the same source and the same
    page. *)
Theorem make_id_injective (d1 d2 : cluster_pdfs.Document)
    (source1 source2 : string) (page1 page2 : Z) :
  extract_text_from_pdfs.metadata d1 !! "source" = Some (MStr source1) ->
  extract_text_from_pdfs.metadata d1 !! "page" = Some (MInt page1) ->
  extract_text_from_pdfs.metadata d2 !! "source" = Some (MStr source2) ->
  extract_text_from_pdfs.metadata d2 !! "page" = Some (MInt page2) ->
  cluster_pdfs.make_id d1 = cluster_pdfs.make_id d2 ->
  source1 = source2 /\ page1 = page2.
Proof.
  intros Hs1 Hp1 Hs2 Hp2.
  unfold cluster_pdfs.make_id, cluster_pdfs.metadata_item.
  rewrite Hs1, Hp1, Hs2, Hp2. simpl. intros [= Heq].
  change (source1 +:+ String "_" (String "p" (str_int page1))
          = source2 +:+ String "_" (String "p" (str_int page2))) in Heq.
  apply split_at_last_p in Heq as [-> Hpage]; try apply no_p_in_str_int.
  split; [reflexivity|]. now apply str_int_inj.
Qed.

Lemma make_id_of_page_metadata (doc : cluster_pdfs.Document) file_path page :
  extract_text_from_pdfs.metadata doc = page_metadata file_path page ->
  cluster_pdfs.make_id doc
  = Ok (extract_text_from_pdfs.basename file_path +:+ "_p" +:+ str_int page) /\
  document_id doc = extract_text_from_pdfs.basename file_path +:+ "_p" +:+ str_int page.
Proof.
  intros Hm. unfold cluster_pdfs.make_id, cluster_pdfs.metadata_item, document_id, get_or.
  rewrite Hm. unfold page_metadata. split; reflexivity.
Qed.

Lemma documents_of_pages_metadata file_path pages : forall start doc,
  In doc (documents_of_pages file_path (enumerate_from start pages)) ->
  exists page, start < page /\
               extract_text_from_pdfs.metadata doc = page_metadata file_path page.
Proof.
  intros start doc Hin.
  apply documents_of_pages_inv in Hin as [_ [i [_ Hm]]].
  exists (start + Z.of_nat i + 1). split; [lia|exact Hm].
Qed.

Lemma make_ids_of_identified (docs : list cluster_pdfs.Document) :
  (forall doc, In doc docs -> cluster_pdfs.make_id doc = Ok (document_id doc)) ->
  cluster_pdfs.make_ids docs = Ok (map document_id docs).
Proof.
  induction docs as [|doc docs IH]; intros Hall; simpl; [reflexivity|].
  rewrite (Hall doc) by now left.
  rewrite IH by (intros d Hd; apply Hall; now right). reflexivity.
Qed.

Lemma extracted_document_identified PdfReader pdf_files doc :
  In doc (flat_map (documents_of_file PdfReader) pdf_files) ->
  exists file_path page,
    In file_path pdf_files /\ 0 < page /\
    extract_text_from_pdfs.metadata doc = page_metadata file_path page.
Proof.
  intros Hin. apply List.in_flat_map in Hin as [file_path [Hfile Hdoc]].
  unfold documents_of_file in Hdoc.
  destruct (PdfReader file_path) as [pages|e]; [|contradiction].
  apply documents_of_pages_metadata in Hdoc as [page [Hpos Hm]].
  exists file_path, page. auto.
Qed.

(** X12: the documents the extraction returns always have a source and a
    page, so building their ids never raises [KeyError]: the ids are the
    file name, [_p] and the page number of each document, in order. *)
Theorem extracted_documents_get_ids
    (glob_pdfs : string -> list string)
    (PdfReader : string -> Result (list extract_text_from_pdfs.PageOutcome))
    (pdf_dir : string) (out : list Output) :
  exists docs out',
    extract_text_from_pdfs.extract_text_from_pdfs glob_pdfs PdfReader pdf_dir out
    = (Ok docs, out') /\
    cluster_pdfs.make_ids docs = Ok (map document_id docs) /\
    forall doc, In doc docs ->
      exists file_path page,
        In file_path (glob_pdfs pdf_dir) /\ 0 < page /\
        document_id doc
        = extract_text_from_pdfs.basename file_path +:+ "_p" +:+ str_int page.
Proof.
  eexists. eexists. split; [apply extract_text_outcome|]. cbv zeta. split.
  - apply make_ids_of_identified. intros doc Hin.
    apply extracted_document_identified in Hin as [file_path [page [_ [_ Hm]]]].
    destruct (make_id_of_page_metadata doc file_path page Hm) as [-> ->]. reflexivity.
  - intros doc Hin.
    apply extracted_document_identified in Hin as [file_path [page [Hfile [Hpos Hm]]]].
    exists file_path, page. repeat split; auto.
    now apply make_id_of_page_metadata.
Qed.

Lemma page_ids_differ file_path1 file_path2 page1 page2 :
  extract_text_from_pdfs.basename file_path1 +:+ "_p" +:+ str_int page1
  = extract_text_from_pdfs.basename file_path2 +:+ "_p" +:+ str_int page2 ->
  extract_text_from_pdfs.basename file_path1 = extract_text_from_pdfs.basename file_path2
  /\ page1 = page2.
Proof.
  intros Heq.
  change (extract_text_from_pdfs.basename file_path1 +:+ String "_" (String "p" (str_int page1))
          = extract_text_from_pdfs.basename file_path2 +:+ String "_" (String "p" (str_int page2)))
    in Heq.
  apply split_at_last_p in Heq as [Hb Hp]; try apply no_p_in_str_int.
  split; [exact Hb|now apply str_int_inj].
Qed.

Lemma documents_of_pages_distinct file_path pages : forall start,
  NoDup (map document_id (documents_of_pages file_path (enumerate_from start pages))).
Proof.
  induction pages as [|[[[|c t]|]|e] rest IH]; intros start; simpl;
    try apply NoDup_nil_2; try apply IH.
  apply NoDup_cons. split; [|apply IH].
  rewrite list_elem_of_In. intros Hin.
  apply List.in_map_iff in Hin as [doc [Hid Hdoc]].
  apply documents_of_pages_metadata in Hdoc as [page [Hlt Hm]].
  rewrite (proj2 (make_id_of_page_metadata doc file_path page Hm)) in Hid.
  unfold document_id, get_or in Hid. simpl in Hid.
  apply page_ids_differ in Hid as [_ Hid]. lia.
Qed.

Lemma extracted_documents_distinct PdfReader (pdf_files : list string) :
  NoDup (map extract_text_from_pdfs.basename pdf_files) ->
  NoDup (map document_id (flat_map (documents_of_file PdfReader) pdf_files)).
Proof.
  intros Hnames.
  induction pdf_files as [|file_path rest IH]; simpl; [apply NoDup_nil_2|].
  simpl in Hnames. apply NoDup_cons in Hnames as [Hfresh Hrest].
  rewrite map_app. apply NoDup_app. split; [|split; [|apply IH; exact Hrest]].
  - unfold documents_of_file. destruct (PdfReader file_path); [|apply NoDup_nil_2].
    apply documents_of_pages_distinct.
  - intros i Hhere Hthere. apply list_elem_of_In in Hhere, Hthere.
    apply List.in_map_iff in Hhere as [d1 [Hid1 Hd1]].
    apply List.in_map_iff in Hthere as [d2 [Hid2 Hd2]].
    assert (Hd1' : In d1 (flat_map (documents_of_file PdfReader) [file_path]))
      by (simpl; now rewrite app_nil_r).
    apply extracted_document_identified in Hd1' as [f1 [p1 [Hf1 [_ Hm1]]]].
    destruct Hf1 as [<-|[]].
    apply extracted_document_identified in Hd2 as [f2 [p2 [Hf2 [_ Hm2]]]].
    rewrite (proj2 (make_id_of_page_metadata d1 _ p1 Hm1)) in Hid1.
    rewrite (proj2 (make_id_of_page_metadata d2 f2 p2 Hm2)) in Hid2.
    rewrite <- Hid2 in Hid1. apply page_ids_differ in Hid1 as [Hb _].
    apply Hfresh. rewrite Hb. apply list_elem_of_In.
    apply List.in_map. exact Hf2.
Qed.

(** X13: when the files found have distinct names, the ids of the
    extracted documents are distinct. *)
Theorem extracted_ids_are_distinct
    (glob_pdfs : string -> list string)
    (PdfReader : string -> Result (list extract_text_from_pdfs.PageOutcome))
    (pdf_dir : string) (out : list Output) :
  NoDup (map extract_text_from_pdfs.basename (glob_pdfs pdf_dir)) ->
  exists docs out' ids,
    extract_text_from_pdfs.extract_text_from_pdfs glob_pdfs PdfReader pdf_dir out
    = (Ok docs, out') /\
    cluster_pdfs.make_ids docs = Ok ids /\
    length ids = length docs /\
    NoDup ids.
Proof.
  intros Hnames.
  eexists. eexists. eexists. split; [apply extract_text_outcome|]. cbv zeta. split.
  - apply make_ids_of_identified. intros doc Hin.
    apply extracted_document_identified in Hin as [file_path [page [_ [_ Hm]]]].
    destruct (make_id_of_page_metadata doc file_path page Hm) as [-> ->]. reflexivity.
  - split; [apply length_map|]. now apply extracted_documents_distinct.
Qed.

(** ** cluster_pdfs.py: what the clustering pass leaves alone *)

Lemma update_metadata_core reorder ids metadatas (c c' : Collection) :
  update_metadata reorder ids metadatas c = Ok c' ->
  c' = reorder (foldl set_metadata c (zip ids metadatas)).
Proof.
  unfold update_metadata.
  destruct (negb _); [discriminate|]. destruct (forallb _ _); [|discriminate].
  now intros [= <-].
Qed.

Lemma label_records_embeddings (c : Collection) : forall labels : list Z,
  length labels = length c -> map embedding (label_records c labels) = map embedding c.
Proof.
  unfold label_records.
  induction c as [|r c IH]; intros [|l labels] Hlen; simpl in *; try discriminate;
    [reflexivity|].
  f_equal. apply IH. congruence.
Qed.

Section ClusteringFrame.

Variable RandomState : Type.
Variable seeded : Z -> RandomState.
Variable kmeans_fit_predict :
  Z -> Z -> RandomState -> list (list float) -> Result (list Z) * RandomState.
Variable K_CLUSTERS : Z.
Variable reorder : Collection -> Collection.

Abbreviation FState := (cluster_pdfs.State RandomState).
Abbreviation clustering :=
  (cluster_pdfs.perform_clustering RandomState seeded kmeans_fit_predict K_CLUSTERS reorder).

#[local] Arguments get : simpl never.

Section Related.

(** A relation between lists of ids, texts and embeddings that the order
    of the store respects: equality when the store keeps its order,
    equality up to the order otherwise. *)
Variable R : relation (list (string * string * list float)).
Hypothesis R_refl : forall l, R l l.
Hypothesis R_trans : forall l1 l2 l3, R l1 l2 -> R l2 l3 -> R l1 l3.
Hypothesis R_reorder :
  forall c : Collection, R (map record_core (reorder c)) (map record_core c).

Lemma related_records_bind {A B} (m : Py FState A) (k : A -> Py FState B) st :
  (forall s, related_records R s (snd (m s))) ->
  (forall a s, related_records R s (snd (k a s))) ->
  related_records R st (snd (bind m k st)).
Proof.
  intros Hm Hk. unfold bind. specialize (Hm st).
  destruct (m st) as [[a|e] st1]; simpl in *; [|exact Hm].
  unfold related_records in *. eapply R_trans; [apply Hk|exact Hm].
Qed.

Lemma related_records_print s (st : FState) :
  related_records R st (snd (cluster_pdfs.print RandomState s st)).
Proof. apply R_refl. Qed.

Lemma related_records_update ids metadatas (st : FState) :
  related_records R st
    (snd (cluster_pdfs.collection_update RandomState reorder ids metadatas st)).
Proof.
  unfold cluster_pdfs.collection_update, related_records.
  destruct (update_metadata reorder ids metadatas (cluster_pdfs.collection _ st)) eqn:E;
    simpl; [|apply R_refl].
  apply update_metadata_core in E. subst.
  eapply R_trans; [apply R_reorder|].
  rewrite foldl_set_metadata_core. apply R_refl.
Qed.

Lemma related_records_update_loop ids labels pairs : forall st : FState,
  related_records R st
    (snd (cluster_pdfs.update_loop RandomState reorder pairs ids labels st)).
Proof.
  induction pairs as [|p rest IH]; intros st; simpl; [apply R_refl|].
  apply related_records_bind; [intros s; apply R_refl|]. intros full s.
  apply related_records_bind; [intros s'; apply R_refl|]. intros updated s'.
  apply related_records_bind; [intros s''; apply related_records_update|].
  intros _ s''. apply IH.
Qed.

Lemma related_records_summary labels n clusters : forall st : FState,
  related_records R st (snd (cluster_pdfs.summary_loop RandomState clusters labels n st)).
Proof.
  induction clusters as [|i rest IH]; intros st; simpl; [apply R_refl|].
  apply related_records_bind; [intros s; apply related_records_print|]. intros _ s. apply IH.
Qed.

Lemma related_records_clustering (st : FState) :
  related_records R st (snd (clustering st)).
Proof.
  unfold cluster_pdfs.perform_clustering.
  apply related_records_bind; [intros s; apply related_records_print|]. intros _ s.
  apply related_records_bind; [intros s'; apply R_refl|]. intros everything s'.
  apply related_records_bind; [intros s''; apply R_refl|]. intros results s''. cbv zeta.
  destruct (_ <? 2); [apply related_records_print|].
  apply related_records_bind.
  { intros s3. destruct (_ <? K_CLUSTERS); [apply related_records_print|apply R_refl]. }
  intros _ s3.
  apply related_records_bind.
  { intros s4. unfold cluster_pdfs.KMeans_fit_predict. apply R_refl. }
  intros labels s4.
  apply related_records_bind; [intros s5; apply related_records_print|]. intros _ s5.
  apply related_records_bind; [intros s6; apply related_records_update_loop|]. intros _ s6.
  apply related_records_bind; [intros s7; apply related_records_print|]. intros _ s7.
  apply related_records_bind; [intros s8; apply related_records_print|]. intros _ s8.
  apply related_records_summary.
Qed.

End Related.

(** X14: whatever the fit returns or raises, the clustering pass never
    adds or removes a record and never changes an id, a text or an
    embedding: afterwards the store holds the same ids, texts and
    embeddings, in the order it returns them in after its writes, and only
    metadata can differ. On a store that keeps its order across writes
    the records are in their earlier order too. *)
Theorem clustering_only_touches_metadata (st : FState) :
  rearranges reorder ->
  map record_core (cluster_pdfs.collection _ (snd (clustering st)))
  ≡ₚ map record_core (cluster_pdfs.collection _ st) /\
  (keeps_order reorder ->
   map record_core (cluster_pdfs.collection _ (snd (clustering st)))
   = map record_core (cluster_pdfs.collection _ st)).
Proof.
  intros Hperm. split.
  - apply (related_records_clustering (≡ₚ)).
    + reflexivity.
    + intros l1 l2 l3. apply Permutation_trans.
    + intros c. apply Permutation_map, Hperm.
  - intros Hsame. apply (related_records_clustering eq).
    + reflexivity.
    + intros l1 l2 l3. apply eq_trans.
    + intros c. now rewrite Hsame.
Qed.

(** X15: when the fit raises on a collection of at least two records, the
    pass ends with that exception after the starting line and, if k was
    reduced, the adjusting line; the collection is what it was and the
    line [Clustering complete] is not printed. *)
Theorem fit_failure_leaves_collection (st : FState) (e : Exn) :
  let c := cluster_pdfs.collection _ st in
  let n := Z.of_nat (length c) in
  let k := Z.min K_CLUSTERS n in
  2 <= n ->
  fst (kmeans_fit_predict k 10 (seeded 42) (map embedding c)) = Raise e ->
  exists st',
    clustering st = (Raise e, st') /\
    cluster_pdfs.collection _ st' = c /\
    cluster_pdfs.stdout _ st'
    = cluster_pdfs.stdout _ st
      ++ [Print (nl +:+ "🧠 Starting K-Means Clustering with K=" +:+ str_int K_CLUSTERS +:+ "...")]
      ++ (if k <? K_CLUSTERS then [Print (cluster_pdfs.ADJUSTING_K K_CLUSTERS k n)] else []).
Proof.
  intros c n k Hn Hfit. destruct st as [c0 out g calls]. simpl in *. subst c.
  unfold cluster_pdfs.perform_clustering.
  unfold bind at 1, cluster_pdfs.print at 1. simpl.
  unfold bind at 1, cluster_pdfs.collection_get at 1. simpl.
  unfold bind at 1, cluster_pdfs.collection_get at 1. simpl.
  change (get None c0) with c0. fold (ids_of c0). rewrite get_all_ids, !length_map.
  fold n. fold k.
  destruct (n <? 2) eqn:En; [apply Z.ltb_lt in En; lia|].
  unfold bind at 1.
  destruct (k <? K_CLUSTERS); unfold cluster_pdfs.print at 1, ret; simpl;
    unfold bind at 1, cluster_pdfs.KMeans_fit_predict at 1; simpl; rewrite Hfit;
    eexists; (split; [reflexivity|]); simpl; (split; [reflexivity|]);
    rewrite <- ?app_assoc; reflexivity.
Qed.

(** X16: on a store that returns its records after a write in the order
    they had before it, running the pass again on the collection it has
    just labelled returns normally and leaves that collection as it
    is. *)
Theorem reclustering_changes_nothing (st : FState) (labels : list Z) :
  let c := cluster_pdfs.collection _ st in
  let n := Z.of_nat (length c) in
  keeps_order reorder ->
  2 <= n -> NoDup (ids_of c) ->
  fst (kmeans_fit_predict (Z.min K_CLUSTERS n) 10 (seeded 42) (map embedding c)) = Ok labels ->
  length labels = length c ->
  exists st1 st2,
    clustering st = (Ok tt, st1) /\
    clustering st1 = (Ok tt, st2) /\
    cluster_pdfs.collection _ st2 = cluster_pdfs.collection _ st1.
Proof.
  intros c n Hsame Hn Hnd Hfit Hlen.
  pose proof (perform_clustering_labels RandomState seeded kmeans_fit_predict K_CLUSTERS
                reorder st labels Hsame Hn Hnd Hfit Hlen) as Hfirst.
  cbv zeta in Hfirst. fold c n in Hfirst.
  eexists. eexists. split; [exact Hfirst|].
  match type of Hfirst with _ = (_, ?s1) => set (st1 := s1) in * end.
  assert (Hlen1 : length (cluster_pdfs.collection _ st1) = length c).
  { subst st1. simpl. now apply label_records_length. }
  pose proof (perform_clustering_labels RandomState seeded kmeans_fit_predict K_CLUSTERS
                reorder st1 labels) as Hsecond.
  cbv zeta in Hsecond. rewrite Hlen1 in Hsecond. fold n in Hsecond.
  assert (Hvec : map embedding (cluster_pdfs.collection _ st1) = map embedding c).
  { subst st1. simpl. now apply label_records_embeddings. }
  rewrite Hvec in Hsecond.
  assert (Hids : ids_of (cluster_pdfs.collection _ st1) = ids_of c).
  { subst st1. simpl. now apply label_records_ids. }
  rewrite Hids in Hsecond.
  specialize (Hsecond Hsame Hn Hnd Hfit Hlen).
  split; [exact Hsecond|].
  subst st1. simpl. apply label_records_idempotent.
Qed.

End ClusteringFrame.

(** ** cluster_pdfs.py: the summary *)

Lemma count_label_cons l labels i :
  cluster_pdfs.count_label (l :: labels) i
  = (if decide (l = i) then 1 else 0) + cluster_pdfs.count_label labels i.
Proof.
  unfold cluster_pdfs.count_label. rewrite filter_cons.
  destruct (decide (l = i)); simpl length; lia.
Qed.

Lemma sum_list_add {A} (f g : A -> Z) (xs : list A) :
  sum_list (map (fun x => f x + g x) xs) = sum_list (map f xs) + sum_list (map g xs).
Proof. induction xs as [|x xs IH]; simpl; [reflexivity|]. rewrite IH. lia. Qed.

Lemma sum_indicator_seq (l : Z) (m : nat) : forall a : nat,
  sum_list (map (fun i => if decide (l = i) then 1 else 0) (map Z.of_nat (seq a m)))
  = if decide (Z.of_nat a <= l < Z.of_nat a + Z.of_nat m) then 1 else 0.
Proof.
  induction m as [|m IH]; intros a; simpl.
  - destruct (decide _); lia.
  - rewrite IH.
    destruct (decide (l = Z.of_nat a)); repeat destruct (decide _); lia.
Qed.

(** X17: when every label the fit returned is one of [0 .. k-1], the
    counts the summary prints for the clusters [0 .. k-1] add up to the
    number of labels. *)
Theorem summary_counts_add_up (labels : list Z) (k : Z) :
  Forall (fun l => 0 <= l < k) labels ->
  sum_list (map (cluster_pdfs.count_label labels) (cluster_pdfs.range k))
  = Z.of_nat (length labels).
Proof.
  induction labels as [|l labels IH]; intros Hall.
  - unfold cluster_pdfs.count_label. simpl.
    induction (cluster_pdfs.range k) as [|i others IHr]; simpl; [reflexivity|].
    rewrite IHr. reflexivity.
  - apply Forall_cons in Hall as [Hl Hall].
    rewrite (map_ext _ (fun i => (if decide (l = i) then 1 else 0)
                                 + cluster_pdfs.count_label labels i))
      by (intros i; apply count_label_cons).
    rewrite sum_list_add, IH by exact Hall.
    unfold cluster_pdfs.range. rewrite sum_indicator_seq.
    destruct (decide _); simpl length; lia.
Qed.

(** ** cluster_pdfs.py: ingestion *)

Lemma make_id_missing_key (doc : cluster_pdfs.Document) :
  has_id_keys doc = false -> exists e, cluster_pdfs.make_id doc = Raise e.
Proof.
  unfold has_id_keys, cluster_pdfs.make_id, cluster_pdfs.metadata_item.
  destruct (extract_text_from_pdfs.metadata doc !! "source"); [|eauto].
  destruct (extract_text_from_pdfs.metadata doc !! "page"); [discriminate|eauto].
Qed.

Lemma make_ids_missing_key (docs : list cluster_pdfs.Document) :
  forallb has_id_keys docs = false -> exists e, cluster_pdfs.make_ids docs = Raise e.
Proof.
  induction docs as [|doc docs IH]; simpl; [discriminate|].
  destruct (has_id_keys doc) eqn:Hdoc; simpl.
  - intros Hrest. destruct (IH Hrest) as [e He]. rewrite He.
    destruct (cluster_pdfs.make_id doc); eauto.
  - intros _. destruct (make_id_missing_key doc Hdoc) as [e He]. rewrite He. eauto.
Qed.

(** X18: when a document lacks its source or its page, the ingestion
    raises after the first line it prints: nothing is embedded, nothing is
    written and the collection is what it was. *)
Theorem missing_key_aborts_ingestion (RandomState : Type)
    (embed_content : list string -> Result (list (list float)))
    (db_path name : string) (docs : list cluster_pdfs.Document)
    (st : cluster_pdfs.State RandomState) :
  forallb has_id_keys docs = false ->
  exists e st',
    cluster_pdfs.create_chroma_collection RandomState embed_content db_path name docs st
    = (Raise e, st') /\
    cluster_pdfs.collection _ st' = cluster_pdfs.collection _ st /\
    cluster_pdfs.stdout _ st'
    = cluster_pdfs.stdout _ st
      ++ [Print ("🛠️ Initializing Chroma client at " +:+ db_path +:+ "...")].
Proof.
  intros Hkeys. destruct (make_ids_missing_key docs Hkeys) as [e He].
  exists e. eexists.
  unfold cluster_pdfs.create_chroma_collection.
  unfold bind at 1, cluster_pdfs.print at 1. simpl.
  unfold bind at 1, lift at 1. rewrite He. simpl. repeat split.
Qed.






Section IngestionOfMany.

Variable RandomState : Type.
Variable embed_content : list string -> Result (list (list float)).

#[local] Arguments VectorStore.insert : simpl never.



End IngestionOfMany.

(** ** cluster_pdfs.py: the whole script *)

Section WholeScript.

Variable RandomState : Type.
Variable seeded : Z -> RandomState.
Variable kmeans_fit_predict :
  Z -> Z -> RandomState -> list (list float) -> Result (list Z) * RandomState.
Variable embed_content : list string -> Result (list (list float)).
Variable K_CLUSTERS : Z.
Variable reorder : Collection -> Collection.
Variable glob_pdfs : string -> list string.
Variable PdfReader : string -> Result (list extract_text_from_pdfs.PageOutcome).

Abbreviation script :=
  (cluster_pdfs.main RandomState seeded kmeans_fit_predict embed_content K_CLUSTERS
     reorder glob_pdfs PdfReader).
Abbreviation extracted :=
  (flat_map (documents_of_file PdfReader) (glob_pdfs cluster_pdfs.PDF_DIR)).

Lemma script_extraction (st : cluster_pdfs.State RandomState) :
  exists out',
    cluster_pdfs.extract_text_from_pdfs RandomState glob_pdfs PdfReader cluster_pdfs.PDF_DIR st
    = (Ok extracted,
       cluster_pdfs.mkState RandomState (cluster_pdfs.collection _ st) out'
         (cluster_pdfs.np_random _ st) (cluster_pdfs.kmeans_calls _ st)).
Proof.
  unfold cluster_pdfs.extract_text_from_pdfs. rewrite extract_text_outcome.
  cbv zeta. eexists. reflexivity.
Qed.

(** X20: when no page of any file gives text, the script prints the line
    [No text extracted] last and returns; it embeds nothing, builds no
    estimator and leaves the collection as it was. *)
Theorem nothing_extracted_nothing_stored (st : cluster_pdfs.State RandomState) :
  extracted = [] ->
  exists st' shown,
    script st = (Ok tt, st') /\
    cluster_pdfs.collection _ st' = cluster_pdfs.collection _ st /\
    cluster_pdfs.kmeans_calls _ st' = cluster_pdfs.kmeans_calls _ st /\
    cluster_pdfs.stdout _ st'
    = shown ++ [Print "🛑 No text extracted. Check PDF_DIR and file integrity."].
Proof.
  intros Hnone. destruct (script_extraction st) as [out' Hrun].
  unfold cluster_pdfs.main, bind. rewrite Hrun, Hnone.
  eexists. eexists. split; [reflexivity|]. simpl. repeat split.
Qed.


End WholeScript.

(** ** The further properties at concrete inputs *)

Lemma chat_loop_stops_at_quit_example :
  exists shown,
    rag_chat.chat_loop (Examples.store_of ExampleRun.far_candidates) (fun _ => Ok "unused")
      (["  "; "soup?"] ++ " Quit " :: ["never read"]) []
    = (Ok tt, shown ++ [Prompt "You: "; Print (nl +:+ "👋 Goodbye!")]) /\
    rag_chat.chat_loop (Examples.store_of ExampleRun.far_candidates) (fun _ => Ok "unused")
      (["  "; "soup?"] ++ [" Quit "]) []
    = (Ok tt, shown ++ [Prompt "You: "; Print (nl +:+ "👋 Goodbye!")]).
Proof.
  apply (chat_loop_stops_at_quit (Examples.store_of ExampleRun.far_candidates)
           (fun _ => Ok "unused") ["  "; "soup?"] " Quit " ["never read"]);
    reflexivity.
Defined.


Lemma generation_failure_outcomes_example :
  rag_chat.query_once (Examples.store_of Examples.candidates) ExampleExtras.rate_limited
    "what is kmeans" []
  = (Ok tt,
     [Print (nl +:+ "🔍 Searching for: 'what is kmeans'");
      Print (nl +:+ "🤖 Generating AI response...");
      Print (nl +:+ "🤖 Answer:" +:+ nl
             +:+ "⚠️ API rate limit exceeded. Please wait a moment and try again." +:+ nl);
      Print "📚 Sources:";
      Print "  1. ml.pdf (Page 2)";
      Print "  2. ml.pdf (Page 3)"]).
Proof.
  apply (generation_failure_outcomes (Examples.store_of Examples.candidates)
           ExampleExtras.rate_limited "what is kmeans" Examples.candidates
           (Exception "429 RESOURCE_EXHAUSTED") []).
  - reflexivity.
  - discriminate.
  - reflexivity.
Defined.

Lemma filtered_lists_stay_aligned_example :
  rag_chat.documents (rag_chat.filter_results Examples.candidates)
  = ["kmeans groups points"; "centroids move"] /\
  rag_chat.distances (rag_chat.filter_results Examples.candidates)
  = [0.25%float; 0.5%float].
Proof.
  destruct (filtered_lists_stay_aligned Examples.candidates) as [Hd [_ [Hs _]]].
  - discriminate.
  - split; [exact Hd|exact Hs].
Defined.

Lemma returned_distances_are_numbers_example :
  Prim2SF 0.25%float <> S754_nan /\ Prim2SF 0.25%float <> S754_infinity false.
Proof.
  apply (returned_distances_are_numbers Examples.candidates
           ("kmeans groups points", <["cluster_id" := MInt 4]> (Examples.meta "ml.pdf" 2),
            0.25%float)).
  left. reflexivity.
Defined.

Lemma failed_page_keeps_earlier_pages_example :
  extract_text_from_pdfs.extract_text_from_pdfs ExampleExtras.one_file
    ExampleExtras.torn_reader "./pdfs" []
  = (Ok [extract_text_from_pdfs.mkDocument "cover" (Examples.meta "scan.pdf" 1)],
     [Print "🚀 Starting PDF extraction from ./pdfs...";
      Print "⚠️ Error processing ./pdfs/scan.pdf: bad stream";
      Print "✅ Extracted text from 1 files into 1 pages."]).
Proof.
  apply (failed_page_keeps_earlier_pages ExampleExtras.one_file ExampleExtras.torn_reader
           "./pdfs" "./pdfs/scan.pdf" [Ok (Some "cover")] [Ok (Some "lost")]
           (Exception "bad stream") []);
    reflexivity.
Defined.

Lemma make_id_injective_example : "notes.pdf" = "notes.pdf" /\ 1 = 1.
Proof.
  apply (make_id_injective ExampleRun.first_scan ExampleRun.second_scan
           "notes.pdf" "notes.pdf" 1 1); reflexivity.
Defined.

Lemma extracted_ids_are_distinct_example :
  exists docs out' ids,
    extract_text_from_pdfs.extract_text_from_pdfs ExamplePdfs.glob_pdfs ExamplePdfs.PdfReader
      "./pdfs" [] = (Ok docs, out') /\
    cluster_pdfs.make_ids docs = Ok ids /\
    length ids = length docs /\
    NoDup ids.
Proof.
  apply (extracted_ids_are_distinct ExamplePdfs.glob_pdfs ExamplePdfs.PdfReader "./pdfs" []).
  apply (bool_decide_unpack _). vm_compute. reflexivity.
Defined.

Lemma fit_failure_leaves_collection_example :
  exists st',
    cluster_pdfs.perform_clustering Z ExampleRun.seeded ExampleExtras.failing_fit 10
      ExampleRun.reversing (ExampleRun.state_of ExampleRun.three_records 7)
    = (Raise (Exception "Input contains NaN."), st') /\
    cluster_pdfs.collection _ st' = ExampleRun.three_records.
Proof.
  destruct (fit_failure_leaves_collection Z ExampleRun.seeded ExampleExtras.failing_fit 10
              ExampleRun.reversing (ExampleRun.state_of ExampleRun.three_records 7)
              (Exception "Input contains NaN."))
    as [st' [Hrun [Hsame _]]].
  - simpl. lia.
  - reflexivity.
  - exists st'. split; [exact Hrun|exact Hsame].
Defined.

Lemma clustering_only_touches_metadata_example :
  map record_core
    (cluster_pdfs.collection _
       (snd (cluster_pdfs.perform_clustering Z ExampleRun.seeded
               ExampleRun.kmeans_fit_predict 10 ExampleRun.reversing
               (ExampleRun.state_of ExampleRun.three_records 7))))
  ≡ₚ map record_core ExampleRun.three_records /\
  map record_core
    (cluster_pdfs.collection _
       (snd (cluster_pdfs.perform_clustering Z ExampleRun.seeded
               ExampleRun.kmeans_fit_predict 10 ExampleRun.in_order
               (ExampleRun.state_of ExampleRun.three_records 7))))
  = map record_core ExampleRun.three_records.
Proof.
  split.
  - apply (clustering_only_touches_metadata Z ExampleRun.seeded ExampleRun.kmeans_fit_predict
             10 ExampleRun.reversing (ExampleRun.state_of ExampleRun.three_records 7)).
    exact reversing_rearranges.
  - apply (clustering_only_touches_metadata Z ExampleRun.seeded ExampleRun.kmeans_fit_predict
             10 ExampleRun.in_order (ExampleRun.state_of ExampleRun.three_records 7)).
    + exact (keeps_order_rearranges _ in_order_keeps_order).
    + exact in_order_keeps_order.
Defined.

Lemma reclustering_changes_nothing_example :
  exists st1 st2,
    cluster_pdfs.perform_clustering Z ExampleRun.seeded ExampleRun.kmeans_fit_predict 10
      ExampleRun.in_order (ExampleRun.state_of ExampleRun.three_records 7) = (Ok tt, st1) /\
    cluster_pdfs.perform_clustering Z ExampleRun.seeded ExampleRun.kmeans_fit_predict 10
      ExampleRun.in_order st1
    = (Ok tt, st2) /\
    cluster_pdfs.collection _ st2 = cluster_pdfs.collection _ st1.
Proof.
  apply (reclustering_changes_nothing Z ExampleRun.seeded ExampleRun.kmeans_fit_predict 10
           ExampleRun.in_order (ExampleRun.state_of ExampleRun.three_records 7) [0; 1; 2]).
  - exact in_order_keeps_order.
  - simpl. lia.
  - exact three_records_distinct.
  - reflexivity.
  - reflexivity.
Defined.

Lemma summary_counts_add_up_example :
  sum_list (map (cluster_pdfs.count_label [0; 2; 2; 1; 2]) (cluster_pdfs.range 3)) = 5.
Proof.
  apply (summary_counts_add_up [0; 2; 2; 1; 2] 3).
  repeat constructor; lia.
Defined.

Lemma missing_key_aborts_ingestion_example :
  exists e st',
    cluster_pdfs.create_chroma_collection Z ExampleRun.embed_content "./chroma_db"
      "pdf_cluster_data" [ExampleRun.first_scan; ExampleExtras.pageless]
      (ExampleRun.state_of ExampleRun.three_records 7) = (Raise e, st') /\
    cluster_pdfs.collection _ st' = ExampleRun.three_records.
Proof.
  destruct (missing_key_aborts_ingestion Z ExampleRun.embed_content "./chroma_db"
              "pdf_cluster_data" [ExampleRun.first_scan; ExampleExtras.pageless]
              (ExampleRun.state_of ExampleRun.three_records 7))
    as [e [st' [Hrun [Hsame _]]]].
  - reflexivity.
  - exists e, st'. split; [exact Hrun|exact Hsame].
Defined.

Lemma extracted_example :
  flat_map (documents_of_file ExamplePdfs.PdfReader) (ExamplePdfs.glob_pdfs "./pdfs")
  = [extract_text_from_pdfs.mkDocument "intro" (Examples.meta "notes.pdf" 1);
     extract_text_from_pdfs.mkDocument "summary" (Examples.meta "notes.pdf" 4);
     extract_text_from_pdfs.mkDocument "figure" (Examples.meta "scan.pdf" 2)].
Proof. vm_compute. reflexivity. Qed.





Lemma nothing_extracted_nothing_stored_example :
  exists st' shown,
    cluster_pdfs.main Z ExampleRun.seeded ExampleRun.kmeans_fit_predict
      ExampleRun.embed_content 10 ExampleRun.reversing ExamplePdfs.glob_pdfs
      ExampleExtras.blank_reader
      (ExampleRun.state_of ExampleRun.three_records 7) = (Ok tt, st') /\
    cluster_pdfs.collection _ st' = ExampleRun.three_records /\
    cluster_pdfs.stdout _ st'
    = shown ++ [Print "🛑 No text extracted. Check PDF_DIR and file integrity."].
Proof.
  destruct (nothing_extracted_nothing_stored Z ExampleRun.seeded ExampleRun.kmeans_fit_predict
              ExampleRun.embed_content 10 ExampleRun.reversing ExamplePdfs.glob_pdfs
              ExampleExtras.blank_reader
              (ExampleRun.state_of ExampleRun.three_records 7))
    as [st' [shown [Hrun [Hsame [_ Hout]]]]].
  - reflexivity.
  - exists st', shown. split; [exact Hrun|]. split; [exact Hsame|exact Hout].
Defined.


(** The same run on a store that keeps its order: the records are in the
    order of the pages, each with its page's metadata and its label. *)
Example script_example_in_order :
  map (fun r => (id r, metadata r !! "source", metadata r !! "page",
                 metadata r !! "cluster_id"))
    (cluster_pdfs.collection _
       (snd (cluster_pdfs.main Z ExampleRun.seeded ExampleRun.kmeans_fit_predict
               ExampleRun.embed_content 10 ExampleRun.in_order ExamplePdfs.glob_pdfs
               ExamplePdfs.PdfReader (ExampleRun.state_of [] 7))))
  = [("notes.pdf_p1", Some (MStr "notes.pdf"), Some (MInt 1), Some (MInt 0));
     ("notes.pdf_p4", Some (MStr "notes.pdf"), Some (MInt 4), Some (MInt 1));
     ("scan.pdf_p2", Some (MStr "scan.pdf"), Some (MInt 2), Some (MInt 2))].
Proof. vm_compute. reflexivity. Qed.

(** ** txt_to_pdf.py: the page layout *)

Example layout_constants :
  txt_to_pdf.margin = 54%float /\ txt_to_pdf.max_width = 504%float /\
  PrimFloat.sub txt_to_pdf.height txt_to_pdf.margin = 738%float.
Proof. repeat split. Qed.

Lemma new_page_checked (l : txt_to_pdf.Layout) :
  PrimFloat.ltb (txt_to_pdf.y_position (txt_to_pdf.new_page_if_needed l)) txt_to_pdf.margin
  = false.
Proof.
  unfold txt_to_pdf.new_page_if_needed.
  destruct (PrimFloat.ltb (txt_to_pdf.y_position l) txt_to_pdf.margin) eqn:E;
    [reflexivity|exact E].
Qed.

Lemma new_page_within (l : txt_to_pdf.Layout) :
  Forall within_margins (txt_to_pdf.ops l) ->
  Forall within_margins (txt_to_pdf.ops (txt_to_pdf.new_page_if_needed l)).
Proof.
  intros H. unfold txt_to_pdf.new_page_if_needed.
  destruct (PrimFloat.ltb _ _); [|exact H]. simpl.
  apply Forall_app. split; [exact H|]. repeat constructor.
Qed.

Lemma new_page_drawn (l : txt_to_pdf.Layout) :
  drawn_text (txt_to_pdf.ops (txt_to_pdf.new_page_if_needed l)) = drawn_text (txt_to_pdf.ops l).
Proof.
  unfold txt_to_pdf.new_page_if_needed. destruct (PrimFloat.ltb _ _); [|reflexivity].
  simpl. unfold drawn_text. rewrite flat_map_app. simpl. now rewrite app_nil_r.
Qed.

Lemma drawn_text_snoc ops x y s :
  drawn_text (ops ++ [txt_to_pdf.DrawString x y s]) = drawn_text ops ++ [s].
Proof. unfold drawn_text. now rewrite flat_map_app. Qed.

Section Layout.

Variable split : string -> list string.
Variable stringWidth : string -> string -> Z -> float.
Variable readlines : string -> Result (list string).

Abbreviation words_loop := (txt_to_pdf.words_loop stringWidth).
Abbreviation layout_line := (txt_to_pdf.layout_line split stringWidth).
Abbreviation layout_lines := (txt_to_pdf.layout_lines split stringWidth).

Lemma words_loop_within words : forall current_line l,
  PrimFloat.ltb (txt_to_pdf.y_position l) txt_to_pdf.margin = false ->
  Forall within_margins (txt_to_pdf.ops l) ->
  PrimFloat.ltb (txt_to_pdf.y_position (snd (words_loop words current_line l)))
    txt_to_pdf.margin = false /\
  Forall within_margins (txt_to_pdf.ops (snd (words_loop words current_line l))).
Proof.
  induction words as [|word rest IH]; intros current_line l Hy Hops; simpl; [auto|].
  destruct (PrimFloat.ltb _ txt_to_pdf.max_width); [now apply IH|].
  destruct current_line as [|c s]; [now apply IH|].
  apply IH; [apply new_page_checked|]. apply new_page_within. simpl.
  apply Forall_app. split; [exact Hops|]. repeat constructor. exact Hy.
Qed.

Lemma layout_line_within raw_line (l : txt_to_pdf.Layout) :
  Forall within_margins (txt_to_pdf.ops l) ->
  Forall within_margins (txt_to_pdf.ops (layout_line raw_line l)).
Proof.
  intros Hops. unfold txt_to_pdf.layout_line.
  destruct (txt_to_pdf.rstrip_newlines raw_line) as [|c s].
  - simpl. now apply new_page_within.
  - destruct (words_loop_within (split (String c s)) "" (txt_to_pdf.new_page_if_needed l))
      as [Hy Hops']; [apply new_page_checked|now apply new_page_within|].
    destruct (words_loop (split (String c s)) "" (txt_to_pdf.new_page_if_needed l))
      as [[|c' s'] l']; simpl in *; [exact Hops'|].
    apply Forall_app. split; [exact Hops'|]. repeat constructor. exact Hy.
Qed.

Lemma layout_lines_within lines : forall l : txt_to_pdf.Layout,
  Forall within_margins (txt_to_pdf.ops l) ->
  Forall within_margins (txt_to_pdf.ops (layout_lines lines l)).
Proof.
  unfold txt_to_pdf.layout_lines.
  induction lines as [|line lines IH]; intros l Hops; simpl; [exact Hops|].
  apply IH. now apply layout_line_within.
Qed.

(** What the conversion does when the input file can be read. *)
Lemma txt_to_pdf_outcome input_file output_file lines (st : txt_to_pdf.State) :
  readlines input_file = Ok lines ->
  txt_to_pdf.txt_to_pdf split stringWidth readlines input_file output_file st
  = (Ok tt,
     txt_to_pdf.mkState
       (txt_to_pdf.written st
        ++ [(output_file,
             txt_to_pdf.ops
               (layout_lines lines
                  (txt_to_pdf.mkLayout [txt_to_pdf.SetFont "Helvetica" 10]
                     (PrimFloat.sub txt_to_pdf.height txt_to_pdf.margin)))
             ++ [txt_to_pdf.Save])])
       (txt_to_pdf.stdout st ++ [Print ("PDF created successfully: " +:+ output_file)])).
Proof.
  intros Hread. unfold txt_to_pdf.txt_to_pdf, bind, lift. rewrite Hread. reflexivity.
Qed.

(** X22: when the input file can be read, the conversion writes one file
    and every string it draws starts at the left margin, at a height that
    is not below the bottom margin. *)
Theorem never_draws_below_margin input_file output_file lines (st : txt_to_pdf.State) :
  readlines input_file = Ok lines ->
  exists page_ops st',
    txt_to_pdf.txt_to_pdf split stringWidth readlines input_file output_file st
    = (Ok tt, st') /\
    txt_to_pdf.written st' = txt_to_pdf.written st ++ [(output_file, page_ops)] /\
    Forall within_margins page_ops.
Proof.
  intros Hread. eexists. eexists.
  split; [apply (txt_to_pdf_outcome _ _ lines st Hread)|]. simpl.
  split; [reflexivity|].
  apply Forall_app. split; [|repeat constructor].
  apply layout_lines_within. repeat constructor.
Qed.

Lemma join_snoc (g : list string) (w : string) :
  g <> [] -> join " " (g ++ [w]) = join " " g +:+ " " +:+ w.
Proof.
  induction g as [|a g IH]; intros Hne; [contradiction|].
  destruct g as [|b g]; [reflexivity|].
  change (join " " ((a :: b :: g) ++ [w])) with (a +:+ " " +:+ join " " ((b :: g) ++ [w])).
  rewrite IH by discriminate.
  change (join " " (a :: b :: g)) with (a +:+ " " +:+ join " " (b :: g)).
  now rewrite !append_string_assoc.
Qed.

Lemma join_nonempty (g : list string) :
  g <> [] -> Forall (fun w => w <> "") g -> exists c s, join " " g = String c s.
Proof.
  intros Hne Hall. destruct g as [|a g]; [contradiction|].
  apply Forall_cons in Hall as [Ha _]. destruct a as [|c s]; [contradiction|].
  destruct g; [now exists c, s|]. now exists c, (s +:+ " " +:+ join " " (s0 :: g)).
Qed.

Lemma words_loop_groups words : forall (g : list string) (l : txt_to_pdf.Layout),
  Forall (fun w => w <> "") words -> Forall (fun w => w <> "") g ->
  exists groups g',
    fst (words_loop words (join " " g) l) = join " " g' /\
    drawn_text (txt_to_pdf.ops (snd (words_loop words (join " " g) l)))
    = drawn_text (txt_to_pdf.ops l) ++ map (join " ") groups /\
    g ++ words = concat groups ++ g' /\
    Forall (fun group => group <> []) groups /\
    Forall (fun w => w <> "") g'.
Proof.
  induction words as [|word rest IH]; intros g l Hwords Hg.
  - exists [], g. simpl. rewrite !app_nil_r. auto.
  - apply Forall_cons in Hwords as [Hword Hrest].
    assert (Hsnoc : Forall (fun w => w <> "") (g ++ [word])).
    { apply Forall_app. split; [exact Hg|]. now constructor. }
    assert (Hone : Forall (fun w => w <> "") [word]) by now constructor.
    simpl.
    destruct g as [|a g].
    + simpl join.
      destruct (PrimFloat.ltb _ txt_to_pdf.max_width);
        destruct (IH [word] l Hrest Hone) as [groups [g' [Hfst [Hdrawn [Hcat [Hne Hg']]]]]];
        exists groups, g'; auto.
    + destruct (join_nonempty (a :: g)) as [c [s Hjoin]]; [discriminate|exact Hg|].
      rewrite Hjoin. rewrite <- Hjoin.
      rewrite <- (join_snoc (a :: g) word) by discriminate.
      destruct (PrimFloat.ltb _ txt_to_pdf.max_width).
      * destruct (IH ((a :: g) ++ [word]) l Hrest Hsnoc)
          as [groups [g' [Hfst [Hdrawn [Hcat [Hne Hg']]]]]].
        exists groups, g'. repeat split; auto.
        rewrite <- Hcat. now rewrite <- app_assoc.
      * match goal with |- context [words_loop rest word ?l1] =>
          destruct (IH [word] l1 Hrest Hone)
            as [groups [g' [Hfst [Hdrawn [Hcat [Hne Hg']]]]]] end.
        change (join " " [word]) with word in Hfst, Hdrawn.
        exists ((a :: g) :: groups), g'. repeat split; auto.
        -- rewrite Hdrawn, new_page_drawn.
           cbn [txt_to_pdf.ops]. rewrite drawn_text_snoc.
           cbn [map]. now rewrite <- app_assoc.
        -- change (concat ((a :: g) :: groups)) with ((a :: g) ++ concat groups).
           rewrite <- app_assoc, <- Hcat. reflexivity.
Qed.

Lemma layout_line_groups raw_line (l : txt_to_pdf.Layout) :
  (forall line w, In w (split line) -> w <> "") ->
  exists groups,
    drawn_text (txt_to_pdf.ops (layout_line raw_line l))
    = drawn_text (txt_to_pdf.ops l) ++ map (join " ") groups /\
    concat groups = words_of split raw_line /\
    Forall (fun group => group <> []) groups.
Proof.
  intros Hsplit. unfold txt_to_pdf.layout_line, words_of.
  destruct (txt_to_pdf.rstrip_newlines raw_line) as [|c s].
  - exists []. simpl. rewrite new_page_drawn, app_nil_r. auto.
  - destruct (words_loop_groups (split (String c s)) [] (txt_to_pdf.new_page_if_needed l))
      as [groups [g' [Hfst [Hdrawn [Hcat [Hne Hg']]]]]].
    { apply Forall_forall. intros w Hw. apply (Hsplit (String c s)).
      now apply list_elem_of_In. }
    { constructor. }
    simpl join in Hfst, Hdrawn. simpl in Hcat.
    destruct (words_loop (split (String c s)) "" (txt_to_pdf.new_page_if_needed l))
      as [current l'] eqn:Hloop. simpl in Hfst, Hdrawn.
    rewrite new_page_drawn in Hdrawn.
    destruct g' as [|a g'].
    + simpl in Hfst. subst current. exists groups. rewrite app_nil_r in Hcat. auto.
    + destruct (join_nonempty (a :: g')) as [c' [s' Hjoin]]; [discriminate|exact Hg'|].
      rewrite Hfst, Hjoin. rewrite <- Hjoin.
      exists (groups ++ [a :: g']). simpl. rewrite drawn_text_snoc, Hdrawn.
      rewrite map_app, concat_app. simpl. rewrite app_nil_r, <- app_assoc.
      repeat split; auto.
      apply Forall_app. split; [exact Hne|]. constructor; [discriminate|constructor].
Qed.

Lemma layout_lines_groups lines : forall l : txt_to_pdf.Layout,
  (forall line w, In w (split line) -> w <> "") ->
  exists groups,
    drawn_text (txt_to_pdf.ops (layout_lines lines l))
    = drawn_text (txt_to_pdf.ops l) ++ map (join " ") groups /\
    concat groups = flat_map (words_of split) lines /\
    Forall (fun group => group <> []) groups.
Proof.
  unfold txt_to_pdf.layout_lines.
  induction lines as [|line lines IH]; intros l Hsplit; simpl.
  - exists []. simpl. rewrite app_nil_r. auto.
  - destruct (layout_line_groups line l Hsplit) as [first [Hd1 [Hc1 Hn1]]].
    destruct (IH (layout_line line l) Hsplit) as [others [Hd2 [Hc2 Hn2]]].
    exists (first ++ others). rewrite Hd2, Hd1, map_app, concat_app, Hc1, Hc2.
    rewrite <- app_assoc. repeat split; auto. now apply Forall_app.
Qed.

(** X23: when the input file can be read and [split] returns no empty
    word, the strings drawn are, in order, the words of the input lines in
    consecutive groups that are not empty, each joined by single spaces: no
    word is lost, repeated or moved. *)
Theorem wrapping_keeps_the_words input_file output_file lines (st : txt_to_pdf.State) :
  readlines input_file = Ok lines ->
  (forall line w, In w (split line) -> w <> "") ->
  exists page_ops st' groups,
    txt_to_pdf.txt_to_pdf split stringWidth readlines input_file output_file st
    = (Ok tt, st') /\
    txt_to_pdf.written st' = txt_to_pdf.written st ++ [(output_file, page_ops)] /\
    drawn_text page_ops = map (join " ") groups /\
    concat groups = flat_map (words_of split) lines /\
    Forall (fun group => group <> []) groups.
Proof.
  intros Hread Hsplit.
  destruct (layout_lines_groups lines
              (txt_to_pdf.mkLayout [txt_to_pdf.SetFont "Helvetica" 10]
                 (PrimFloat.sub txt_to_pdf.height txt_to_pdf.margin)) Hsplit)
    as [groups [Hdrawn [Hcat Hne]]].
  eexists. eexists. exists groups.
  split; [apply (txt_to_pdf_outcome _ _ lines st Hread)|]. simpl.
  split; [reflexivity|]. split; [|auto].
  unfold drawn_text in *. rewrite flat_map_app. simpl. rewrite app_nil_r.
  exact Hdrawn.
Qed.

(** A string the script may draw: it is narrower than the text area or
    it is one word of the input. *)
Lemma words_loop_fits (all_words : list string) words :
  forall current_line (l : txt_to_pdf.Layout),
    (forall w, In w words -> In w all_words) ->
    current_line = "" \/ fits_or_word stringWidth all_words current_line ->
    Forall (fits_or_word stringWidth all_words) (drawn_text (txt_to_pdf.ops l)) ->
    (fst (words_loop words current_line l) = ""
     \/ fits_or_word stringWidth all_words (fst (words_loop words current_line l))) /\
    Forall (fits_or_word stringWidth all_words)
           (drawn_text (txt_to_pdf.ops (snd (words_loop words current_line l)))).
Proof.
  induction words as [|word rest IH]; intros current_line l Hin Hcur Hdrawn; simpl; [auto|].
  assert (Hrest : forall w, In w rest -> In w all_words) by (intros w Hw; apply Hin; now right).
  assert (Hword : fits_or_word stringWidth all_words word) by (right; apply Hin; now left).
  destruct (PrimFloat.ltb _ txt_to_pdf.max_width) eqn:Efit.
  - apply IH; auto. right. left. exact Efit.
  - destruct current_line as [|c s]; [now apply IH; auto|].
    apply IH; auto.
    rewrite new_page_drawn. simpl. rewrite drawn_text_snoc.
    apply Forall_app. split; [exact Hdrawn|]. constructor; [|constructor].
    destruct Hcur as [Hcur|Hcur]; [discriminate|exact Hcur].
Qed.

Lemma layout_line_fits (all_words : list string) raw_line (l : txt_to_pdf.Layout) :
  (forall w, In w (words_of split raw_line) -> In w all_words) ->
  Forall (fits_or_word stringWidth all_words) (drawn_text (txt_to_pdf.ops l)) ->
  Forall (fits_or_word stringWidth all_words)
         (drawn_text (txt_to_pdf.ops (layout_line raw_line l))).
Proof.
  intros Hin Hdrawn. unfold txt_to_pdf.layout_line. unfold words_of in Hin.
  destruct (txt_to_pdf.rstrip_newlines raw_line) as [|c s].
  - simpl. now rewrite new_page_drawn.
  - destruct (words_loop_fits all_words (split (String c s)) ""
                (txt_to_pdf.new_page_if_needed l) Hin)
      as [Hcur Hdrawn']; [now left|now rewrite new_page_drawn|].
    destruct (words_loop (split (String c s)) "" (txt_to_pdf.new_page_if_needed l))
      as [[|c' s'] l']; simpl in *; [exact Hdrawn'|].
    rewrite drawn_text_snoc. apply Forall_app. split; [exact Hdrawn'|].
    constructor; [|constructor]. destruct Hcur as [Hcur|Hcur]; [discriminate|exact Hcur].
Qed.

Lemma layout_lines_fits (all_words : list string) lines : forall l : txt_to_pdf.Layout,
  (forall w, In w (flat_map (words_of split) lines) -> In w all_words) ->
  Forall (fits_or_word stringWidth all_words) (drawn_text (txt_to_pdf.ops l)) ->
  Forall (fits_or_word stringWidth all_words)
         (drawn_text (txt_to_pdf.ops (layout_lines lines l))).
Proof.
  unfold txt_to_pdf.layout_lines.
  induction lines as [|line lines IH]; intros l Hin Hdrawn; simpl; [exact Hdrawn|].
  apply IH.
  - intros w Hw. apply Hin. simpl. apply List.in_or_app. now right.
  - apply layout_line_fits; [|exact Hdrawn].
    intros w Hw. apply Hin. simpl. apply List.in_or_app. now left.
Qed.

(** X24: when the input file can be read, every string the conversion
    draws is narrower than the text area, by the width the canvas
    reports, or is a single word of the input: only a word that is too
    wide by itself can run past the right margin. *)
Theorem drawn_lines_fit_or_are_one_word input_file output_file lines
    (st : txt_to_pdf.State) :
  readlines input_file = Ok lines ->
  exists page_ops st',
    txt_to_pdf.txt_to_pdf split stringWidth readlines input_file output_file st
    = (Ok tt, st') /\
    txt_to_pdf.written st' = txt_to_pdf.written st ++ [(output_file, page_ops)] /\
    Forall (fun s =>
              PrimFloat.ltb (stringWidth s "Helvetica" 10) txt_to_pdf.max_width = true
              \/ In s (flat_map (words_of split) lines))
           (drawn_text page_ops).
Proof.
  intros Hread. eexists. eexists.
  split; [apply (txt_to_pdf_outcome _ _ lines st Hread)|]. simpl.
  split; [reflexivity|].
  unfold drawn_text. rewrite flat_map_app. simpl. rewrite app_nil_r.
  apply (layout_lines_fits (flat_map (words_of split) lines)); [auto|].
  simpl. constructor.
Qed.

End Layout.

Lemma split_go_nonempty (s : string) : forall current w,
  In w (ExampleText.split_go current s) -> w <> "".
Proof.
  induction s as [|c rest IH]; intros current w Hin; simpl in Hin.
  - destruct current; [contradiction|]. destruct Hin as [<-|[]]. discriminate.
  - destruct (is_space c).
    + destruct current; [now apply (IH "")|].
      destruct Hin as [<-|Hin]; [discriminate|now apply (IH "")].
    + now apply (IH _ w Hin).
Qed.

Example layout_example :
  fst (txt_to_pdf.txt_to_pdf ExampleText.split ExampleText.stringWidth ExampleText.readlines
         "dummy1.txt" "dummy1.pdf" ExampleText.nothing_written) = Ok tt /\
  map (fun p => drawn_text (snd p))
      (txt_to_pdf.written
         (snd (txt_to_pdf.txt_to_pdf ExampleText.split ExampleText.stringWidth
                 ExampleText.readlines "dummy1.txt" "dummy1.pdf" ExampleText.nothing_written)))
  = [["the quick brown fox jumps over the lazy dog and keeps running through the long";
      "grass until night"; "end"]].
Proof. vm_compute. split; reflexivity. Qed.

Lemma never_draws_below_margin_example :
  exists page_ops st',
    txt_to_pdf.txt_to_pdf ExampleText.split ExampleText.stringWidth ExampleText.readlines
      "dummy1.txt" "dummy1.pdf" ExampleText.nothing_written = (Ok tt, st') /\
    txt_to_pdf.written st' = [] ++ [("dummy1.pdf", page_ops)] /\
    Forall within_margins page_ops.
Proof.
  apply (never_draws_below_margin ExampleText.split ExampleText.stringWidth
           ExampleText.readlines "dummy1.txt" "dummy1.pdf"
           ExampleText.lines ExampleText.nothing_written).
  reflexivity.
Defined.

Lemma wrapping_keeps_the_words_example :
  exists page_ops st' groups,
    txt_to_pdf.txt_to_pdf ExampleText.split ExampleText.stringWidth ExampleText.readlines
      "dummy1.txt" "dummy1.pdf" ExampleText.nothing_written = (Ok tt, st') /\
    txt_to_pdf.written st' = [] ++ [("dummy1.pdf", page_ops)] /\
    drawn_text page_ops = map (join " ") groups /\
    concat groups
    = ["the"; "quick"; "brown"; "fox"; "jumps"; "over"; "the"; "lazy"; "dog"; "and"; "keeps";
       "running"; "through"; "the"; "long"; "grass"; "until"; "night"; "end"] /\
    Forall (fun group => group <> []) groups.
Proof.
  apply (wrapping_keeps_the_words ExampleText.split ExampleText.stringWidth
           ExampleText.readlines "dummy1.txt" "dummy1.pdf"
           ExampleText.lines ExampleText.nothing_written).
  - reflexivity.
  - intros line w. apply split_go_nonempty.
Defined.

Lemma drawn_lines_fit_or_are_one_word_example :
  exists page_ops st',
    txt_to_pdf.txt_to_pdf ExampleText.split ExampleText.stringWidth ExampleText.readlines
      "dummy1.txt" "dummy1.pdf" ExampleText.nothing_written = (Ok tt, st') /\
    txt_to_pdf.written st' = [] ++ [("dummy1.pdf", page_ops)] /\
    Forall (fun s =>
              PrimFloat.ltb (ExampleText.stringWidth s "Helvetica" 10) txt_to_pdf.max_width
              = true
              \/ In s (flat_map (words_of ExampleText.split) ExampleText.lines))
           (drawn_text page_ops).
Proof.
  apply (drawn_lines_fit_or_are_one_word ExampleText.split ExampleText.stringWidth
           ExampleText.readlines "dummy1.txt" "dummy1.pdf"
           ExampleText.lines ExampleText.nothing_written).
  reflexivity.
Defined.
